(** * trading-bot: a shallow embedding of the bot's decision logic

    The development follows the layout of the Python package:
    - [errors.py]         the exception taxonomy ([exn], [outcome]);
    - [strategy.py]       [TradeSignal], [MovingAverageStrategy];
    - [config.py]         [_parse_bool], [BotConfig.from_env];
    - [binance_client.py] [BinanceClient.place_market_order];
    - [bot.py]            [TradingBot]: price history, trades, the loop.

    Modelling conventions.
    - Python [float] prices and quantities are exact rationals ([Q]); the
      comparisons of the strategy are the ones of [Q].
    - Python [int] is [Z].
    - Python [str] is [string]; [strip], [lower] and [upper] act on the ASCII
      range, other bytes are left alone.
    - A raised exception is the [Raise] case of [outcome]; [try]/[except]
      is a [match] on it.
    - Calls that leave the process (the REST client, the clock, the awaited
      subscriber, [asyncio.sleep]) are answered by an explicit record of
      responses, and the calls made are logged in a trace. *)

From Stdlib Require Import Ascii String QArith SpecFloat.
From stdpp Require Import base option list strings pretty gmap.

Local Open Scope Z_scope.

(** ** errors.py and the exceptions of the standard library *)

Inductive exn : Type :=
  | ValueError (msg : string)
  | TypeError (msg : string)
  | StatisticsError (msg : string)
  | OverflowError (msg : string)
  | TradingBotError (msg : string)     (* errors.py: class TradingBotError(RuntimeError) *)
  | ClientError (msg : string)         (* binance.error.ClientError *)
  | OtherException (msg : string).     (* any other class: transport errors, CancelledError, ... *)

(** [str(exc)] *)
Definition str_exn (e : exn) : string :=
  match e with
  | ValueError m | TypeError m | StatisticsError m | OverflowError m
  | TradingBotError m | ClientError m | OtherException m => m
  end.

Definition is_TradingBotError (e : exn) : bool :=
  match e with TradingBotError _ => true | _ => false end.

Definition is_ValueError (e : exn) : bool :=
  match e with ValueError _ => true | _ => false end.

Inductive outcome (A : Type) : Type :=
  | Ok (a : A)
  | Raise (e : exn).
Arguments Ok {A} a.
Arguments Raise {A} e.

Definition obind {A B} (m : outcome A) (k : A -> outcome B) : outcome B :=
  match m with
  | Ok a => k a
  | Raise e => Raise e
  end.

#[export] Instance outcome_ret : MRet outcome := fun _ a => Ok a.
#[export] Instance outcome_bind : MBind outcome := fun _ _ k m => obind m k.

#[export] Instance outcome_fmap : FMap outcome := fun _ _ f m => obind m (fun a => Ok (f a)).

Definition raises {A} (m : outcome A) : Prop := exists e, m = Raise e.

(** ** Rationals: the comparisons used by the source *)

Definition Qlt_bool (x y : Q) : bool := negb (Qle_bool y x).

Fixpoint Qsum (l : list Q) : Q :=
  match l with
  | [] => 0%Q
  | x :: l' => (x + Qsum l')%Q
  end.

(** [statistics.mean(data)]: the arithmetic mean, [StatisticsError] on no data. *)
Definition mean (data : list Q) : outcome Q :=
  match data with
  | [] => Raise (StatisticsError "mean requires at least one data point")
  | _ => Ok (Qsum data / inject_Z (Z.of_nat (length data)))%Q
  end.

(** ** Python sequences and slices

    [s[a:b]] on a [list] or [tuple] clamps both bounds into [0..len] after
    adding [len] to a negative one.  [collections.deque] implements integer
    subscripts only: a slice subscript raises [TypeError]. *)

Definition clamp_index (n : Z) (i : Z) : Z :=
  if i <? 0 then Z.max (i + n) 0 else Z.min i n.

Definition py_slice {A} (l : list A) (a b : option Z) : list A :=
  let n := Z.of_nat (length l) in
  let start := match a with None => 0 | Some i => clamp_index n i end in
  let stop := match b with None => n | Some j => clamp_index n j end in
  take (Z.to_nat (stop - start)) (drop (Z.to_nat start) l).

Class PySequence (S : Type) := {
  py_len : S -> Z;
  py_getslice : S -> option Z -> option Z -> outcome (list Q)
}.

#[export] Instance list_PySequence : PySequence (list Q) := {
  py_len l := Z.of_nat (length l);
  py_getslice l a b := Ok (py_slice l a b)
}.

(** [sys.maxsize], the largest [Py_ssize_t] (of a 64-bit build). *)
Definition ssize_t_max : Z := 2 ^ 63 - 1.

(** [deque(maxlen=n)]: the retained items, oldest first. *)
Record deque : Type := Deque {
  dq_maxlen : nat;
  dq_items : list Q
}.

#[export] Instance deque_PySequence : PySequence deque := {
  py_len d := Z.of_nat (length (dq_items d));
  py_getslice _ _ _ := Raise (TypeError "sequence index must be integer, not 'slice'")
}.

(** ** strategy.py *)

Inductive TradeSignal : Type := BUY | SELL | HOLD.

#[export] Instance TradeSignal_eq_dec : EqDecision TradeSignal.
Proof. solve_decision. Defined.

(** [signal.value] *)
Definition signal_value (s : TradeSignal) : string :=
  match s with BUY => "BUY" | SELL => "SELL" | HOLD => "HOLD" end.

Record MovingAverageStrategy : Type := Strategy {
  short_window : Z;
  long_window : Z
}.

Definition windows_positive_msg : string :=
  "Les fenêtres de moyenne mobile doivent être positives.".
Definition windows_order_msg : string :=
  "La fenêtre courte doit être strictement inférieure à la fenêtre longue.".

Definition post_init (self : MovingAverageStrategy) : outcome unit :=
  if (short_window self <=? 0) || (long_window self <=? 0)
  then Raise (ValueError windows_positive_msg)
  else if long_window self <=? short_window self
  then Raise (ValueError windows_order_msg)
  else Ok tt.

(** [MovingAverageStrategy(short_window, long_window)]: the dataclass
    constructor followed by [__post_init__]. *)
Definition new_strategy (sw lw : Z) : outcome MovingAverageStrategy :=
  let self := Strategy sw lw in
  _ ← post_init self; mret self.

Definition decide_signal (short_ma long_ma previous_short previous_long : Q)
  : TradeSignal :=
  if Qlt_bool long_ma short_ma && Qle_bool previous_short previous_long then BUY
  else if Qlt_bool short_ma long_ma && Qle_bool previous_long previous_short then SELL
  else HOLD.

Definition evaluate {S} `{PySequence S} (self : MovingAverageStrategy) (prices : S)
  : outcome TradeSignal :=
  if py_len prices <? long_window self + 1 then Ok HOLD
  else
    short_ma ← (w ← py_getslice prices (Some (- short_window self)) None; mean w);
    long_ma ← (w ← py_getslice prices (Some (- long_window self)) None; mean w);
    previous_short ←
      (w ← py_getslice prices (Some (- short_window self - 1)) (Some (-1)); mean w);
    previous_long ←
      (w ← py_getslice prices (Some (- long_window self - 1)) (Some (-1)); mean w);
    mret (decide_signal short_ma long_ma previous_short previous_long).

(** The windows as the specification words them: the last [n] samples, and
    the [n] samples that end one sample earlier. *)
Definition last_n {A} (n : nat) (l : list A) : list A := drop (length l - n)%nat l.
Definition previous_n {A} (n : nat) (l : list A) : list A :=
  last_n n (take (length l - 1)%nat l).
Definition mean_of (l : list Q) : Q := (Qsum l / inject_Z (Z.of_nat (length l)))%Q.

(** *** The rule for any kind of number

    [evaluate] touches its prices only through [statistics.mean] and the
    comparisons [<] and [<=] ([a > b] is [b < a], [a >= b] is [b <= a]).
    [evaluate_on] is the body of [evaluate] on a list or tuple with these
    three as parameters.  With exact rationals (prices given as
    [fractions.Fraction], whose mean is exact) it is [evaluate] on lists;
    with binary64 floats, the prices the bot holds, it is
    [Binary64.evaluate] below. *)
Section EvaluateOn.
Context {F : Type}.
Variable lt le : F -> F -> bool.
Variable mean_fn : list F -> outcome F.

Definition decide_signal_on (short_ma long_ma previous_short previous_long : F)
  : TradeSignal :=
  if lt long_ma short_ma && le previous_short previous_long then BUY
  else if lt short_ma long_ma && le previous_long previous_short then SELL
  else HOLD.

Definition evaluate_on (self : MovingAverageStrategy) (prices : list F)
  : outcome TradeSignal :=
  if Z.of_nat (length prices) <? long_window self + 1 then Ok HOLD
  else
    short_ma ← mean_fn (py_slice prices (Some (- short_window self)) None);
    long_ma ← mean_fn (py_slice prices (Some (- long_window self)) None);
    previous_short ←
      mean_fn (py_slice prices (Some (- short_window self - 1)) (Some (-1)));
    previous_long ←
      mean_fn (py_slice prices (Some (- long_window self - 1)) (Some (-1)));
    mret (decide_signal_on short_ma long_ma previous_short previous_long).
End EvaluateOn.

(** *** Python floats: IEEE 754 binary64 *)

Module Binary64.

Definition prec : Z := 53.
Definition emax : Z := 1024.

(** A float: a zero, an infinity, nan, or [(-1)^s * m * 2^e]. *)
Definition t : Type := spec_float.

(** [x < y] and [x <= y]; both are false when an operand is nan. *)
Definition lt (x y : t) : bool := SFltb x y.
Definition le (x y : t) : bool := SFleb x y.

(** [float(n)] for an integer [n]. *)
Definition of_Z (n : Z) : t := binary_normalize prec emax n 0 false.

Definition is_finite (x : t) : bool :=
  match x with
  | S754_zero _ | S754_finite _ _ _ => true
  | _ => false
  end.

(** The exact value of a finite float ([x.as_integer_ratio()]). *)
Definition exact (x : t) : option Q :=
  match x with
  | S754_zero _ => Some 0%Q
  | S754_finite s m e =>
      let sm := if s then Zneg m else Zpos m in
      Some match e with
           | Z0 => inject_Z sm
           | Zpos p => inject_Z (sm * Z.pow_pos 2 p)
           | Zneg p => Qmake sm (Pos.pow 2 p)
           end
  | _ => None
  end.

(** [num / den] for two integers: true division, correctly rounded to the
    nearest float, ties to even. *)
Definition of_ratio (num : Z) (den : positive) : t :=
  let n := match num with
           | Z0 => S754_zero false
           | Zpos p => S754_finite false p 0
           | Zneg p => S754_finite true p 0
           end in
  SFdiv prec emax n (S754_finite false den 0).

(** [float(Fraction(q))]: the numerator of the reduced fraction divided by
    its denominator; [OverflowError] when the quotient is too large. *)
Definition of_Q (q : Q) : outcome t :=
  let r := Qred q in
  match of_ratio (Qnum r) (Qden r) with
  | S754_infinity _ => Raise (OverflowError "integer division result too large for a float")
  | x => Ok x
  end.

(** [statistics.mean(data)] on floats: the exact sum of the data as a
    fraction, divided by their number and converted to a float once; when
    some datum is an infinity or nan, the float sum of those data, divided
    by the number of data. *)
Definition mean (data : list t) : outcome t :=
  match data with
  | [] => Raise (StatisticsError "mean requires at least one data point")
  | _ =>
      let n := Z.of_nat (length data) in
      match mapM exact data with
      | Some values => of_Q (Qsum values / inject_Z n)
      | None =>
          let total :=
            foldl (SFadd prec emax) (S754_zero false)
                  (filter (fun x => negb (is_finite x)) data) in
          Ok (SFdiv prec emax total (of_Z n))
      end
  end.

(** [MovingAverageStrategy.evaluate] on a list or tuple of floats. *)
Definition evaluate (self : MovingAverageStrategy) (prices : list t)
  : outcome TradeSignal :=
  evaluate_on lt le mean self prices.

(** The windows of a list whose true means decide, for comparison with
    the rounded ones. *)
Definition exact_mean (data : list t) : option Q :=
  values ← mapM exact data;
  Some (Qsum values / inject_Z (Z.of_nat (length data)))%Q.

End Binary64.

(** ** config.py *)

(** [str.isspace] on the ASCII range: TAB..CR, FS..US and the space. *)
Definition is_space (c : ascii) : bool :=
  let n := nat_of_ascii c in
  ((9 <=? n)%nat && (n <=? 13)%nat) || ((28 <=? n)%nat && (n <=? 32)%nat).

Fixpoint lstrip (s : string) : string :=
  match s with
  | EmptyString => EmptyString
  | String c s' => if is_space c then lstrip s' else s
  end.

(** [s.strip()] *)
Definition strip (s : string) : string :=
  String.rev (lstrip (String.rev (lstrip s))).

Definition lower_ascii (c : ascii) : ascii :=
  let n := nat_of_ascii c in
  if (65 <=? n)%nat && (n <=? 90)%nat then ascii_of_nat (n + 32) else c.

Definition upper_ascii (c : ascii) : ascii :=
  let n := nat_of_ascii c in
  if (97 <=? n)%nat && (n <=? 122)%nat then ascii_of_nat (n - 32) else c.

Fixpoint string_map (f : ascii -> ascii) (s : string) : string :=
  match s with
  | EmptyString => EmptyString
  | String c s' => String (f c) (string_map f s')
  end.

(** [s.lower()], [s.upper()] *)
Definition lower : string -> string := string_map lower_ascii.
Definition upper : string -> string := string_map upper_ascii.

(** [value.strip() == ''] *)
Definition blank (s : string) : bool := bool_decide (strip s = EmptyString).

(** [value is not None and value.strip() != ''] *)
Definition non_blank (value : option string) : bool :=
  match value with
  | Some v => negb (blank v)
  | None => false
  end.

(** Truthiness of an [Optional[str]] and the [or] operator on such values. *)
Definition truthy (v : option string) : bool :=
  match v with
  | None => false
  | Some s => negb (bool_decide (s = EmptyString))
  end.

Definition py_or (a b : option string) : option string :=
  if truthy a then a else b.

(** [a or "literal"] *)
Definition py_or_default (a : option string) (d : string) : string :=
  match a with
  | Some s => if bool_decide (s = EmptyString) then d else s
  | None => d
  end.

Definition true_words : list string := ["1"; "true"; "vrai"; "yes"; "oui"; "on"].
Definition false_words : list string := ["0"; "false"; "faux"; "no"; "non"; "off"].

Definition parse_bool_msg (value : string) : string :=
  "Impossible de convertir la valeur '" +:+ value
    +:+ "' en booléen. Utilisez true/false.".

Definition _parse_bool (value : option string) (default : bool) : outcome bool :=
  match value with
  | None => Ok default
  | Some v =>
      let normalized := lower (strip v) in
      if bool_decide (normalized ∈ true_words) then Ok true
      else if bool_decide (normalized ∈ false_words) then Ok false
      else Raise (ValueError (parse_bool_msg v))
  end.

Module BotConfig.

Record t : Type := mk {
  exchange : string;
  api_key : option string;
  api_secret : option string;
  symbol : string;
  quote_asset : string;
  base_asset : string;
  trade_quantity : Q;
  poll_interval : Q;
  short_window : Z;
  long_window : Z;
  max_history : Z;
  test_mode : bool
}.

(** The dataclass defaults. *)
Definition default : t :=
  {| exchange := "binance"; api_key := None; api_secret := None;
     symbol := "BTCUSDT"; quote_asset := "USDT"; base_asset := "BTC";
     trade_quantity := 1 # 1000; poll_interval := 5; short_window := 5;
     long_window := 20; max_history := 120; test_mode := true |}.

Section FromEnv.
(** The builtins [float(s)] and [int(s)] on a string: [None] stands for
    the [ValueError] they raise on a string outside their grammar. *)
Variable py_float : string -> option Q.
Variable py_int : string -> option Z.

Definition _parse_float (value : option string) (default : Q) : outcome Q :=
  match value with
  | None => Ok default
  | Some v =>
      if blank v then Ok default
      else match py_float v with
           | Some x => Ok x
           | None => Raise (ValueError ("Impossible de convertir la valeur '" +:+ v
                                          +:+ "' en nombre décimal."))
           end
  end.

Definition _parse_int (value : option string) (default : Z) : outcome Z :=
  match value with
  | None => Ok default
  | Some v =>
      if blank v then Ok default
      else match py_int v with
           | Some x => Ok x
           | None => Raise (ValueError ("Impossible de convertir la valeur '" +:+ v
                                          +:+ "' en entier."))
           end
  end.

(** The process environment: [os.getenv k] is [env !! k]. *)
Variable env : gmap string string.

Definition exchange_of_env : string :=
  let exchange_raw := py_or_default (env !! "ACTIVE_EXCHANGE") "binance" in
  py_or_default (Some (lower (strip exchange_raw))) "binance".

Definition exchange_prefix : string := upper exchange_of_env.

Definition _get_exchange_value (name : string) : option string :=
  let value := env !! (exchange_prefix +:+ "_" +:+ name) in
  if non_blank value then value
  else if negb (bool_decide (exchange_prefix = "BINANCE")) then
    let legacy_value := env !! ("BINANCE_" +:+ name) in
    if non_blank legacy_value then legacy_value else None
  else None.

(** The [test_mode] local of [from_env]. *)
Definition resolve_test_mode : outcome bool :=
  match _get_exchange_value "TEST_MODE" with
  | Some exchange_test_mode => _parse_bool (Some exchange_test_mode) true
  | None => _parse_bool (env !! "BOT_TEST_MODE") true
  end.

Definition from_env : outcome t :=
  let symbol :=
    upper (py_or_default
             (py_or (_get_exchange_value "SYMBOL") (env !! "MARKET_SYMBOL")) "BTCUSDT") in
  let quote_asset :=
    py_or_default
      (py_or (_get_exchange_value "QUOTE_ASSET") (env !! "MARKET_QUOTE_ASSET")) "USDT" in
  let base_asset :=
    py_or_default
      (py_or (_get_exchange_value "BASE_ASSET") (env !! "MARKET_BASE_ASSET")) "BTC" in
  test_mode ← resolve_test_mode;
  let api_key := py_or (_get_exchange_value "API_KEY") (env !! "EXCHANGE_API_KEY") in
  let api_secret :=
    py_or (_get_exchange_value "API_SECRET") (env !! "EXCHANGE_API_SECRET") in
  trade_quantity ← _parse_float (env !! "BOT_TRADE_QUANTITY") (1 # 1000);
  poll_interval ← _parse_float (env !! "BOT_POLL_INTERVAL") 5;
  short_window ← _parse_int (env !! "BOT_SHORT_WINDOW") 5;
  long_window ← _parse_int (env !! "BOT_LONG_WINDOW") 20;
  max_history ← _parse_int (env !! "BOT_MAX_HISTORY") 120;
  mret (mk exchange_of_env api_key api_secret symbol quote_asset base_asset
           trade_quantity poll_interval short_window long_window max_history
           test_mode).


End FromEnv.

Definition require_credentials_msg (exchange_label : string) : string :=
  "Les identifiants de la plateforme sont nécessaires pour exécuter des ordres. "
    +:+ "Définissez " +:+ exchange_label +:+ "_API_KEY et " +:+ exchange_label
    +:+ "_API_SECRET (ou EXCHANGE_API_KEY/SECRET) dans votre environnement.".

Definition require_credentials (self : t) : outcome unit :=
  if negb (truthy (api_key self)) || negb (truthy (api_secret self)) then
    let exchange_label := upper (exchange self) in
    Raise (ValueError (require_credentials_msg exchange_label))
  else Ok tt.

End BotConfig.

(** ** Python values held by the dictionaries the exchange returns *)

Inductive pyval : Type :=
  | PNone
  | PStr (s : string)
  | PInt (n : Z)
  | PFloat (x : Q)
  | POther (repr : string).   (* any other object, with its [str()] *)

Definition pyval_of_opt (o : option string) : pyval :=
  match o with
  | Some s => PStr s
  | None => PNone
  end.

(** ** binance_client.py *)

Module BinanceClient.

(** The third-party [binance.spot.Spot] object, as far as the wrapper
    reads it: the credentials and the base URL it was built with. *)
Record Spot : Type := mkSpot {
  api_key : option string;
  api_secret : option string;
  base_url : option string
}.

Record t : Type := mk {
  _client : Spot;
  _testnet : bool
}.

(** The exchange and the clock behind the wrapper's calls. *)
Record Exchange : Type := mkExchange {
  new_order_test : gmap string string -> outcome unit;
  new_order : gmap string string -> outcome (gmap string pyval);
  time_ms : Z                                  (* int(time.time() * 1000) *)
}.

(** The requests sent to the exchange, in order. *)
Inductive request : Type :=
  | NewOrderTest (params : gmap string string)
  | NewOrder (params : gmap string string).

Definition is_live (r : request) : bool :=
  match r with NewOrder _ => true | NewOrderTest _ => false end.

Definition missing_package_msg : string :=
  "Le package 'binance-connector' est requis. Installez-le avec 'pip install binance-connector'.".

Definition credentials_msg : string :=
  "Les identifiants Binance sont requis pour exécuter un ordre. "
    +:+ "Définissez BINANCE_API_KEY et BINANCE_API_SECRET (ou EXCHANGE_API_KEY/SECRET).".

Definition order_error_msg (exc : exn) : string :=
  "Erreur lors de l'exécution de l'ordre: " +:+ str_exn exc.

(** [__init__]; [installed] tells whether the import of the package
    succeeded ([BinanceSpot is not None]). *)
Definition init (installed : bool) (key secret : option string) (testnet : bool)
  : outcome t :=
  if negb installed then Raise (TradingBotError missing_package_msg)
  else
    let url := if testnet then Some "https://testnet.binance.vision" else None in
    Ok (mk (mkSpot key secret url) testnet).

(** [except ClientError as exc: raise TradingBotError(...) from exc] *)
Definition wrap_client_error {A} (m : outcome A) : outcome A :=
  match m with
  | Raise (ClientError msg) => Raise (TradingBotError (order_error_msg (ClientError msg)))
  | other => other
  end.

Section PlaceMarketOrder.
(** [str(x)] for a float [x]. *)
Variable float_str : Q -> string.

Definition order_params (symbol side : string) (quantity : Q)
    (quote_order_qty : option Q) : gmap string string :=
  let params : gmap string string :=
    <["type" := "MARKET"]> (<["side" := side]> (<["symbol" := symbol]> ∅)) in
  match quote_order_qty with
  | Some q => <["quoteOrderQty" := float_str q]> params
  | None => <["quantity" := float_str quantity]> params
  end.

Definition test_result (symbol side : string) (params : gmap string string) (now : Z)
  : gmap string pyval :=
  <["transactTime" := PInt now]>
    (<["executedQty" := pyval_of_opt (py_or (params !! "quantity")
                                            (params !! "quoteOrderQty"))]>
       (<["status" := PStr "TEST"]>
          (<["side" := PStr side]> (<["symbol" := PStr symbol]> ∅)))).

Definition place_market_order (self : t) (ex : Exchange)
    (symbol side : string) (quantity : Q) (quote_order_qty : option Q)
    (test_mode : bool) : list request * outcome (gmap string pyval) :=
  if negb (truthy (api_key (_client self))) || negb (truthy (api_secret (_client self)))
  then ([], Raise (TradingBotError credentials_msg))
  else
    let params := order_params symbol side quantity quote_order_qty in
    if test_mode then
      ([NewOrderTest params],
       wrap_client_error
         (_ ← new_order_test ex params;
          mret (test_result symbol side params (time_ms ex))))
    else
      ([NewOrder params], wrap_client_error (new_order ex params)).
End PlaceMarketOrder.

(** The read-only endpoints: [ticker_price(symbol=...)] and [account()].
    Of the account only [account.get("balances", [])] is read: [balances]
    is [None] when the key is missing. *)
Record Account : Type := mkAccount {
  balances : option (list (gmap string pyval))
}.

Record Market : Type := mkMarket {
  ticker_price : string -> outcome (gmap string pyval);
  account : outcome Account
}.

Section Queries.
(** The builtin [float(v)] on a value of a response, and [str(d)] on a
    response dictionary. *)
Variable float_of : pyval -> outcome Q.
Variable dict_str : gmap string pyval -> string.

Definition price_error_msg (symbol : string) (exc : exn) : string :=
  "Impossible de récupérer le prix pour " +:+ symbol +:+ ": " +:+ str_exn exc.

Definition unexpected_ticker_msg (symbol : string) (ticker : gmap string pyval) : string :=
  "Réponse inattendue de Binance pour le symbole " +:+ symbol +:+ ": " +:+ dict_str ticker.

Definition balance_error_msg (exc : exn) : string :=
  "Impossible de récupérer le solde du compte: " +:+ str_exn exc.

Definition get_symbol_price (self : t) (m : Market) (symbol : string) : outcome Q :=
  match ticker_price m symbol with
  | Raise (ClientError msg) =>
      Raise (TradingBotError (price_error_msg symbol (ClientError msg)))
  | Raise e => Raise e
  | Ok ticker =>
      match ticker !! "price" with
      | None | Some PNone => Raise (TradingBotError (unexpected_ticker_msg symbol ticker))
      | Some price => float_of price
      end
  end.

(** [v == s] for a looked-up value [v] and a string [s]. *)
Definition equals_str (v : option pyval) (s : string) : bool :=
  match v with
  | Some (PStr x) => bool_decide (x = s)
  | _ => false
  end.

(** The [for balance in ...] scan: the first entry whose [asset] equals the
    one asked for decides. *)
Fixpoint scan_balances (entries : list (gmap string pyval)) (asset : string) : outcome Q :=
  match entries with
  | [] => Ok 0%Q
  | balance :: rest =>
      if equals_str (balance !! "asset") asset
      then float_of (default (PInt 0) (balance !! "free"))
      else scan_balances rest asset
  end.

Definition get_account_balance (self : t) (m : Market) (asset : string) : outcome Q :=
  match account m with
  | Raise (ClientError msg) => Raise (TradingBotError (balance_error_msg (ClientError msg)))
  | Raise e => Raise e
  | Ok acc => scan_balances (default [] (balances acc)) asset
  end.
End Queries.

End BinanceClient.

(** ** bot.py *)

Module Trade.
Record t : Type := mk {
  timestamp : Z;            (* datetime.utcnow(), as a clock reading *)
  side : TradeSignal;
  price : Q;
  quantity : Q;
  status : string;
  order_id : option string
}.
End Trade.

Module BotUpdate.
Record t : Type := mk {
  price : option Q;
  signal : TradeSignal;
  trade : option Trade.t;
  error : option string
}.
End BotUpdate.

(** [deque.append]: the item goes to the right end; when the length then
    exceeds [maxlen] the leftmost item is dropped. *)
Definition deque_append (d : deque) (x : Q) : deque :=
  let items := dq_items d ++ [x] in
  Deque (dq_maxlen d)
        (if (dq_maxlen d <? length items)%nat then tail items else items).

(** What the loop asks of its strategy object: [evaluate], called on the
    price deque itself. *)
Class StrategyLike (T : Type) := strategy_evaluate : T -> deque -> outcome TradeSignal.

#[export] Instance MovingAverageStrategy_StrategyLike : StrategyLike MovingAverageStrategy :=
  fun self prices => evaluate self prices.

(** A strategy that applies the same rule to a copy [list(prices)] of the
    history. *)
Record ListStrategy : Type := OnList { on_list : MovingAverageStrategy }.

#[export] Instance ListStrategy_StrategyLike : StrategyLike ListStrategy :=
  fun self prices => evaluate (on_list self) (dq_items prices).

Module TradingBot.

(** What another coroutine can do to the running flag while a pass is
    suspended in one of its awaits: [stop()] (or the [finally] of another
    loop), which clears the flag, and [run()], which returns at once when
    the flag is set and sets it again, starting a loop of its own, when it
    was cleared. *)
Inductive flag_call : Type := CallStop | CallRun.

(** What one pass through the loop body meets outside the bot: the
    answers of the exchange client, the clock, the awaited subscriber and
    [asyncio.sleep], and the calls made on the running flag by other
    coroutines, in order, while the pass was suspended in its awaits.  The
    passes of a second loop started by such a [run()] belong to that call
    of [run]; they are not interleaved here. *)
Record World : Type := mkWorld {
  get_symbol_price : string -> outcome Q;
  place_market_order : string -> string -> Q -> bool -> outcome (gmap string pyval);
  utcnow : Z;
  callback : BotUpdate.t -> outcome unit;
  sleep : Q -> outcome unit;
  calls : list flag_call
}.

(** The last call on the flag is a [stop()]: the flag is found cleared at
    the next test of the loop. *)
Definition stop_last (w : World) : bool :=
  match last (calls w) with
  | Some CallStop => true
  | _ => false
  end.

Inductive event : Type :=
  | EvFetch (symbol : string)
  | EvEvaluate (prices : list Q)
  | EvOrder (symbol side : string) (quantity : Q) (test_mode : bool)
  | EvEmit (update : BotUpdate.t)
  | EvSleep (seconds : Q).

Definition is_fetch (e : event) : bool :=
  match e with EvFetch _ => true | _ => false end.

(** The number of passes a trace shows: each pass starts with one fetch. *)
Definition passes (tr : list event) : nat := length (filter is_fetch tr).

Definition is_evaluate (e : event) : bool :=
  match e with EvEvaluate _ => true | _ => false end.

Definition is_order (e : event) : bool :=
  match e with EvOrder _ _ _ _ => true | _ => false end.

(** A trace with no call of the strategy and no order. *)
Definition quiet (tr : list event) : Prop :=
  forallb (fun e => negb (is_evaluate e || is_order e)) tr = true.

Definition emitted (tr : list event) : list BotUpdate.t :=
  omap (fun e => match e with EvEmit u => Some u | _ => None end) tr.

(** How one pass through the loop body ends. *)
Inductive pass_end : Type :=
  | Completed            (* reached the end of the body, or [continue] *)
  | Escaped (e : exn).   (* an exception left the body *)

(** How the [while] loop ends. *)
Inductive loop_end : Type :=
  | LoopLeft               (* [self._running] was found false *)
  | LoopRaised (e : exn)
  | LoopWaiting.           (* still running: no further world was given *)

Section WithStrategy.
Context {T : Type} `{StrategyLike T}.

Record t : Type := mk {
  _strategy : T;
  _config : BotConfig.t;
  _running : bool;
  _prices : deque;
  _trades : list Trade.t
}.

Definition set_running (b : bool) (self : t) : t :=
  mk (_strategy self) (_config self) b (_prices self) (_trades self).
Definition set_prices (d : deque) (self : t) : t :=
  mk (_strategy self) (_config self) (_running self) d (_trades self).
Definition set_trades (l : list Trade.t) (self : t) : t :=
  mk (_strategy self) (_config self) (_running self) (_prices self) l.

Definition capacity (config : BotConfig.t) : Z :=
  Z.max (BotConfig.max_history config) (BotConfig.long_window config + 5).

(** [__init__]; [deque(maxlen=n)] converts [n] to a C [Py_ssize_t] and
    raises [OverflowError] when it does not fit, then [ValueError] when it
    is negative. *)
Definition init (strategy : T) (config : BotConfig.t) : outcome t :=
  if (capacity config <? - ssize_t_max - 1) || (ssize_t_max <? capacity config)
  then Raise (OverflowError "Python int too large to convert to C ssize_t")
  else if capacity config <? 0 then Raise (ValueError "maxlen must be non-negative")
  else Ok (mk strategy config false (Deque (Z.to_nat (capacity config)) []) []).

(** The read-only views [trades], [prices], [is_running]. *)
Definition trades (self : t) : list Trade.t := _trades self.
Definition prices (self : t) : list Q := dq_items (_prices self).
Definition is_running (self : t) : bool := _running self.

(** The state once [price] has been appended to the history. *)
Definition appended (self : t) (price : Q) : t :=
  set_prices (deque_append (_prices self) price) self.

Definition fetch_price (self : t) (w : World) : t * outcome Q :=
  match get_symbol_price w (BotConfig.symbol (_config self)) with
  | Ok price => (appended self price, Ok price)
  | Raise e => (self, Raise e)
  end.

(** [str(order.get("status", "FILLED"))] and the [order_id] expression. *)
Section Order.
Variable float_str : Q -> string.

Definition py_str (v : pyval) : string :=
  match v with
  | PNone => "None"
  | PStr s => s
  | PInt n => pretty n
  | PFloat x => float_str x
  | POther r => r
  end.

Definition order_status (order : gmap string pyval) : string :=
  py_str (default (PStr "FILLED") (order !! "status")).

Definition order_order_id (order : gmap string pyval) : option string :=
  match order !! "orderId" with
  | None | Some PNone => None
  | Some v => Some (py_str v)
  end.

(** The [Trade(...)] built from an order. *)
Definition recorded (self : t) (w : World) (signal : TradeSignal) (price : Q)
    (order : gmap string pyval) : Trade.t :=
  Trade.mk (utcnow w) signal price (BotConfig.trade_quantity (_config self))
           (order_status order) (order_order_id order).

Definition execute_trade (self : t) (w : World) (signal : TradeSignal) (price : Q)
  : t * outcome Trade.t :=
  match place_market_order w (BotConfig.symbol (_config self)) (signal_value signal)
          (BotConfig.trade_quantity (_config self))
          (BotConfig.test_mode (_config self)) with
  | Ok order =>
      let trade := recorded self w signal price order in
      (set_trades (_trades self ++ [trade]) self, Ok trade)
  | Raise e => (self, Raise e)
  end.

(** [_emit_update]; [subscribed] is [callback is not None]. *)
Definition _emit_update (subscribed : bool) (w : World) (u : BotUpdate.t)
  : list event * outcome unit :=
  if subscribed then ([EvEmit u], callback w u) else ([], Ok tt).

(** The two awaits that close a pass: the update, then the sleep. *)
Definition emit_then_sleep (self : t) (subscribed : bool) (w : World)
    (u : BotUpdate.t) : t * list event * pass_end :=
  match _emit_update subscribed w u with
  | (tr, Raise e) => (self, tr, Escaped e)
  | (tr, Ok _) =>
      let seconds := BotConfig.poll_interval (_config self) in
      match sleep w seconds with
      | Ok _ => (self, tr ++ [EvSleep seconds], Completed)
      | Raise e => (self, tr ++ [EvSleep seconds], Escaped e)
      end
  end.

Definition prepend (tr : list event) (r : t * list event * pass_end)
  : t * list event * pass_end :=
  let '(self, tr', e) := r in (self, tr ++ tr', e).

(** The body of [while self._running:] in [run]. *)
Definition iteration (self : t) (subscribed : bool) (w : World)
  : t * list event * pass_end :=
  let symbol := BotConfig.symbol (_config self) in
  match fetch_price self w with
  | (self, Raise e) =>
      if is_TradingBotError e then
        prepend [EvFetch symbol]
          (emit_then_sleep self subscribed w
             (BotUpdate.mk None HOLD None (Some (str_exn e))))
      else (self, [EvFetch symbol], Escaped e)
  | (self, Ok price) =>
      let seen := dq_items (_prices self) in
      match strategy_evaluate (_strategy self) (_prices self) with
      | Raise e => (self, [EvFetch symbol; EvEvaluate seen], Escaped e)
      | Ok signal =>
          if bool_decide (signal = BUY \/ signal = SELL) then
            let order_event :=
              EvOrder symbol (signal_value signal)
                      (BotConfig.trade_quantity (_config self))
                      (BotConfig.test_mode (_config self)) in
            match execute_trade self w signal price with
            | (self, Ok trade) =>
                prepend [EvFetch symbol; EvEvaluate seen; order_event]
                  (emit_then_sleep self subscribed w
                     (BotUpdate.mk (Some price) signal (Some trade) None))
            | (self, Raise e) =>
                if is_TradingBotError e then
                  prepend [EvFetch symbol; EvEvaluate seen; order_event]
                    (emit_then_sleep self subscribed w
                       (BotUpdate.mk (Some price) signal None (Some (str_exn e))))
                else (self, [EvFetch symbol; EvEvaluate seen; order_event], Escaped e)
            end
          else
            prepend [EvFetch symbol; EvEvaluate seen]
              (emit_then_sleep self subscribed w
                 (BotUpdate.mk (Some price) signal None None))
      end
  end.

(** [stop()] *)
Definition stop (self : t) : t := set_running false self.

(** The effect on the bot of a call made by another coroutine: [stop()]
    clears the flag; [run()] finds it set and returns, or finds it cleared
    and sets it. *)
Definition apply_call (self : t) (c : flag_call) : t :=
  match c with
  | CallStop => stop self
  | CallRun => if _running self then self else set_running true self
  end.

(** The calls made while the pass was suspended take effect on the flag
    in order; the loop reads the flag at its next test.  (The [finally] of
    another [run] acts on the flag as [stop()] does.) *)
Definition observe_calls (w : World) (self : t) : t :=
  foldl apply_call self (calls w).

(** Whether one of the calls is a [run()] that finds the flag cleared, and
    so starts a loop of its own on the same bot; [running] is the flag
    before the calls.  The passes of such a loop are those of that call of
    [run]: they are not part of the run that is followed here. *)
Fixpoint starts_loop (running : bool) (cs : list flag_call) : bool :=
  match cs with
  | [] => false
  | CallStop :: cs' => starts_loop false cs'
  | CallRun :: cs' => if running then starts_loop true cs' else true
  end.

(** No other loop is started during the pass. *)
Definition single_loop (w : World) : bool := negb (starts_loop true (calls w)).

(** [while self._running: ...], one world per pass. *)
Fixpoint loop (self : t) (subscribed : bool) (ws : list World)
  : t * list event * loop_end :=
  if negb (_running self) then (self, [], LoopLeft)
  else
    match ws with
    | [] => (self, [], LoopWaiting)
    | w :: ws' =>
        match iteration self subscribed w with
        | (self', tr, Escaped e) => (observe_calls w self', tr, LoopRaised e)
        | (self', tr, Completed) =>
            let '(self'', tr', e) := loop (observe_calls w self') subscribed ws' in
            (self'', tr ++ tr', e)
        end
    end.

(** How a call of [run] ends. *)
Inductive run_end : Type :=
  | AlreadyRunning          (* the guarded early [return] *)
  | Returned                (* the loop was left and [finally] ran *)
  | Raised (e : exn)        (* an exception escaped and [finally] ran *)
  | Waiting.                (* suspended in the loop: no further world *)

Definition run (self : t) (subscribed : bool) (ws : list World)
  : t * list event * run_end :=
  if _running self then (self, [], AlreadyRunning)
  else
    match loop (set_running true self) subscribed ws with
    | (self', tr, LoopLeft) => (set_running false self', tr, Returned)
    | (self', tr, LoopRaised e) => (set_running false self', tr, Raised e)
    | (self', tr, LoopWaiting) => (self', tr, Waiting)
    end.

(** The successive [fetch_price] calls of a run, whatever they return. *)
Definition fetch_all (self : t) (ws : list World) : t :=
  foldl (fun b w => fst (fetch_price b w)) self ws.
End Order.
End WithStrategy.

Arguments t T : clear implicits.

(** Every recorded trade is a purchase or a sale. *)
Definition sides_ok (trades : list Trade.t) : Prop :=
  Forall (fun t => Trade.side t = BUY \/ Trade.side t = SELL) trades.

(** The prices a list of worlds delivers, in order. *)
Definition delivered (symbol : string) (ws : list World) : list Q :=
  omap (fun w => match get_symbol_price w symbol with
                 | Ok p => Some p
                 | Raise _ => None
                 end) ws.

End TradingBot.

(** ** Sample inputs, used to exercise the statements below *)

Module Sample.

(** [str(0.001)], the text of the default trade quantity. *)
Definition float_str : Q -> string := fun _ => "0.001".

Definition exchange : BinanceClient.Exchange :=
  BinanceClient.mkExchange (fun _ => Ok tt) (fun _ => Ok ∅) 1700000000000.

Definition client (key secret : option string) : BinanceClient.t :=
  BinanceClient.mk (BinanceClient.mkSpot key secret (Some "https://testnet.binance.vision"))
                   true.

(** The defaults with windows (2, 3), and credentials when asked for. *)
Definition config : BotConfig.t :=
  BotConfig.mk "binance" (Some "key") (Some "secret") "BTCUSDT" "USDT" "BTC"
               (1 # 1000) 5 2 3 120 true.

(** A world in which the price is [p], orders are answered by [order],
    the subscriber and the sleep return, and [stop()] is called or not. *)
Definition world (p : outcome Q) (order : outcome (gmap string pyval)) (stop : bool)
  : TradingBot.World :=
  TradingBot.mkWorld (fun _ => p) (fun _ _ _ _ => order) 1700000000
                     (fun _ => Ok tt) (fun _ => Ok tt)
                     (if stop then [TradingBot.CallStop] else []).

(** A live-mode answer of the exchange with a fill price of its own. *)
Definition filled_order : gmap string pyval :=
  <["price" := PStr "3.97"]> (<["orderId" := PInt 42]> (<["status" := PStr "FILLED"]> ∅)).

(** A bot whose strategy reads a list copy of the history, after four
    samples. *)
Definition bot : TradingBot.t ListStrategy :=
  TradingBot.mk (OnList (Strategy 2 3)) config false (Deque 120 [3; 2; 1; 1]%Q) [].

(** The bot as [create_app] builds it, with the default windows (5, 20),
    after twenty samples. *)
Definition repo_bot : TradingBot.t MovingAverageStrategy :=
  TradingBot.mk (Strategy 5 20) BotConfig.default false
                (Deque 120 (replicate 20 1%Q)) [].

End Sample.


(** ** nicegui_app.py: what [create_app] builds, and the update handler *)

Module App.

Section Construction.
Variable py_float : string -> option Q.
Variable py_int : string -> option Z.

(** The first statements of [create_app]: the configuration (the one
    given, else [BotConfig.from_env()]), then the strategy, the client and
    the bot, in this order; [installed] tells whether the exchange package
    could be imported. *)
Definition construct (installed : bool) (env : gmap string string)
    (config : option BotConfig.t)
  : outcome (BotConfig.t * BinanceClient.t * TradingBot.t MovingAverageStrategy) :=
  cfg ← match config with
        | Some c => Ok c
        | None => BotConfig.from_env py_float py_int env
        end;
  strategy ← new_strategy (BotConfig.short_window cfg) (BotConfig.long_window cfg);
  client ← BinanceClient.init installed (BotConfig.api_key cfg) (BotConfig.api_secret cfg)
             (BotConfig.test_mode cfg);
  bot ← TradingBot.init strategy cfg;
  mret (cfg, client, bot).
End Construction.

Section Wiring.
Variable float_str : Q -> string.
Variable float_of : pyval -> outcome Q.
Variable dict_str : gmap string pyval -> string.

(** The world seen by the bot when its client is the wrapper: the two
    client methods as [fetch_price] and [execute_trade] call them (the
    order without [quote_order_qty]). *)
Definition connect (client : BinanceClient.t) (m : BinanceClient.Market)
    (ex : BinanceClient.Exchange) (now : Z) (callback : BotUpdate.t -> outcome unit)
    (sleep : Q -> outcome unit) (stop : bool) : TradingBot.World :=
  TradingBot.mkWorld
    (BinanceClient.get_symbol_price float_of dict_str client m)
    (fun symbol side quantity test_mode =>
       snd (BinanceClient.place_market_order float_str client ex symbol side quantity
              None test_mode))
    now callback sleep (if stop then [TradingBot.CallStop] else []).
End Wiring.

Section Balance.
(** The format [{x:.4f}] and the builtin [float]. *)
Variable fmt4 : Q -> string.
Variable float_of : pyval -> outcome Q.

Definition balance_unconfigured_msg (exchange_label : string) : string :=
  "Solde indisponible: configurez " +:+ exchange_label +:+ "_API_KEY et "
    +:+ exchange_label +:+ "_API_SECRET (ou EXCHANGE_API_KEY/SECRET) pour l'afficher.".

(** [refresh_balance]: whether the account was queried, and the new text
    of the balance label (or the exception that leaves the handler). *)
Definition refresh_balance (cfg : BotConfig.t) (client : BinanceClient.t)
    (m : BinanceClient.Market) : bool * outcome string :=
  if negb (truthy (BotConfig.api_key cfg)) || negb (truthy (BotConfig.api_secret cfg))
  then (false, Ok (balance_unconfigured_msg (upper (BotConfig.exchange cfg))))
  else
    (true,
     match BinanceClient.get_account_balance float_of client m (BotConfig.quote_asset cfg)
     with
     | Ok balance =>
         Ok ("Solde disponible " +:+ BotConfig.quote_asset cfg +:+ ": " +:+ fmt4 balance)
     | Raise (TradingBotError msg) => Ok ("Solde indisponible: " +:+ msg)
     | Raise e => Raise e
     end).
End Balance.

(** The widgets written by [handle_update]: the two lists behind the
    chart, the three labels, the classes of the signal label and the lines
    pushed to the log. *)
Record View : Type := mkView {
  timestamps : list string;
  prices : list Q;
  price_label : string;
  signal_label : string;
  signal_classes : string;
  log : list string;
  status_label : string
}.

(** The page as [create_app] lays it out. *)
Definition initial_view : View :=
  mkView [] [] "Prix actuel: --" "Signal: HOLD" "text-lg font-medium" []
         "Statut: arrêté".

Section Handler.
(** [round(x, 2)], the format [{x:.2f}], [str(x)] and the format
    [{t:%H:%M:%S}] of a timestamp. *)
Variable round2 : Q -> Q.
Variable fmt2 : Q -> string.
Variable float_str : Q -> string.
Variable hms : Z -> string.

Definition trade_line (trade : Trade.t) : string :=
  hms (Trade.timestamp trade) +:+ " - " +:+ signal_value (Trade.side trade) +:+ " "
    +:+ float_str (Trade.quantity trade) +:+ " @ " +:+ fmt2 (Trade.price trade)
    +:+ " (" +:+ Trade.status trade +:+ ")".

(** [xs.append(x)] then [xs.pop(0)] when the length exceeds [max_history]. *)
Definition chart_push {A} (max_history : Z) (xs : list A) (x : A) : list A :=
  let xs' := xs ++ [x] in
  if max_history <? Z.of_nat (length xs') then tail xs' else xs'.

(** [handle_update]; [now] is [datetime.now().strftime("%H:%M:%S")] and
    [running] is [bot.is_running] when the handler reads it. *)
Definition handle_update (cfg : BotConfig.t) (v : View) (now : string) (running : bool)
    (update : BotUpdate.t) : View :=
  let '(ts, ps, plabel) :=
    match BotUpdate.price update with
    | Some price =>
        (chart_push (BotConfig.max_history cfg) (timestamps v) now,
         chart_push (BotConfig.max_history cfg) (prices v) (round2 price),
         "Prix actuel (" +:+ BotConfig.symbol cfg +:+ "): " +:+ fmt2 price)
    | None => (timestamps v, prices v, price_label v)
    end in
  let classes :=
    match BotUpdate.signal update with
    | BUY => "text-lg font-medium text-green-600"
    | SELL => "text-lg font-medium text-red-600"
    | HOLD => "text-lg font-medium"
    end in
  let log1 :=
    match BotUpdate.trade update with
    | Some trade => log v ++ [trade_line trade]
    | None => log v
    end in
  let log2 :=
    if truthy (BotUpdate.error update)
    then log1 ++ ["⚠️ " +:+ default EmptyString (BotUpdate.error update)]
    else log1 in
  mkView ts ps plabel ("Signal: " +:+ signal_value (BotUpdate.signal update)) classes log2
         (if running then "Statut: en cours" else "Statut: arrêté").

(** The handler run over the updates of a session, each with the clock
    label and the running flag read at that time. *)
Definition handle_all (cfg : BotConfig.t) (v : View)
    (us : list (string * bool * BotUpdate.t)) : View :=
  foldl (fun v u => handle_update cfg v u.1.1 u.1.2 u.2) v us.

(** The prices (rounded) and the clock labels of the updates that carry a
    price. *)
Definition charted_prices (us : list (string * bool * BotUpdate.t)) : list Q :=
  omap (fun u => round2 <$> BotUpdate.price u.2) us.
Definition charted_labels (us : list (string * bool * BotUpdate.t)) : list string :=
  omap (fun u => (fun _ => u.1.1) <$> BotUpdate.price u.2) us.
End Handler.

End App.

(** * Properties *)

(** ** Helper lemmas *)

Lemma Qlt_bool_iff (x y : Q) : Qlt_bool x y = true <-> (x < y)%Q.
Proof.
  unfold Qlt_bool. rewrite negb_true_iff. split.
  - intros Hb. apply Qnot_le_lt. intros Hle.
    apply Qle_bool_iff in Hle. congruence.
  - intros Hlt. destruct (Qle_bool y x) eqn:E; [|reflexivity].
    apply Qle_bool_iff in E. exfalso. exact (Qlt_not_le _ _ Hlt E).
Qed.

Lemma decide_signal_BUY a b c d :
  decide_signal a b c d = BUY <-> (b < a /\ c <= d)%Q.
Proof.
  unfold decide_signal.
  destruct (Qlt_bool b a) eqn:E1, (Qle_bool c d) eqn:E2; simpl.
  - apply Qlt_bool_iff in E1. apply Qle_bool_iff in E2. tauto.
  - split.
    + destruct (Qlt_bool a b && Qle_bool d c); discriminate.
    + intros [_ Hcd]. apply Qle_bool_iff in Hcd. congruence.
  - split.
    + destruct (Qlt_bool a b && Qle_bool d c); discriminate.
    + intros [Hba _]. apply Qlt_bool_iff in Hba. congruence.
  - split.
    + destruct (Qlt_bool a b && Qle_bool d c); discriminate.
    + intros [Hba _]. apply Qlt_bool_iff in Hba. congruence.
Qed.

Lemma decide_signal_SELL a b c d :
  decide_signal a b c d = SELL <-> (a < b /\ d <= c)%Q.
Proof.
  unfold decide_signal.
  destruct (Qlt_bool b a && Qle_bool c d) eqn:E.
  - apply andb_true_iff in E as [E1 _]. apply Qlt_bool_iff in E1.
    split; [discriminate|]. intros [Hab _].
    exfalso. exact (Qlt_irrefl _ (Qlt_trans _ _ _ Hab E1)).
  - destruct (Qlt_bool a b) eqn:E1, (Qle_bool d c) eqn:E2; simpl.
    + apply Qlt_bool_iff in E1. apply Qle_bool_iff in E2. tauto.
    + split; [discriminate|]. intros [_ Hdc]. apply Qle_bool_iff in Hdc. congruence.
    + split; [discriminate|]. intros [Hab _]. apply Qlt_bool_iff in Hab. congruence.
    + split; [discriminate|]. intros [Hab _]. apply Qlt_bool_iff in Hab. congruence.
Qed.

Lemma decide_signal_HOLD a b c d :
  decide_signal a b c d = HOLD <->
  ~ (b < a /\ c <= d)%Q /\ ~ (a < b /\ d <= c)%Q.
Proof.
  rewrite <- decide_signal_BUY, <- decide_signal_SELL.
  destruct (decide_signal a b c d); intuition congruence.
Qed.

Lemma mean_nonempty (l : list Q) : l <> [] -> mean l = Ok (mean_of l).
Proof. destruct l; [congruence | reflexivity]. Qed.

(** A negative start and no stop: the last [k] items. *)
Lemma py_slice_last {A} (l : list A) (k : Z) :
  0 < k <= Z.of_nat (length l) ->
  py_slice l (Some (- k)) None = last_n (Z.to_nat k) l.
Proof.
  intros Hk. unfold py_slice, last_n, clamp_index.
  destruct (Z.ltb_spec (- k) 0) as [_|Hge]; [|lia].
  replace (Z.to_nat (Z.max (- k + Z.of_nat (length l)) 0)) with (length l - Z.to_nat k)%nat by lia.
  apply take_ge. rewrite length_drop. lia.
Qed.

(** The same window shifted back by one item. *)
Lemma py_slice_previous {A} (l : list A) (k : Z) :
  0 < k -> k + 1 <= Z.of_nat (length l) ->
  py_slice l (Some (- k - 1)) (Some (-1)) = previous_n (Z.to_nat k) l.
Proof.
  intros Hk Hlen. unfold py_slice, previous_n, last_n, clamp_index.
  destruct (Z.ltb_spec (- k - 1) 0) as [_|Hge]; [|lia].
  destruct (Z.ltb_spec (-1) 0) as [_|Hge]; [|lia].
  rewrite length_take.
  replace (Z.to_nat (Z.max (- k - 1 + Z.of_nat (length l)) 0))
    with (length l - 1 - Z.to_nat k)%nat by lia.
  replace (Z.to_nat (Z.max (-1 + Z.of_nat (length l)) 0 -
                     Z.max (- k - 1 + Z.of_nat (length l)) 0))
    with (Z.to_nat k) by lia.
  replace ((length l - 1) `min` length l - Z.to_nat k)%nat
    with (length l - 1 - Z.to_nat k)%nat by lia.
  rewrite take_drop_commute. f_equal. f_equal. lia.
Qed.

Lemma last_n_length {A} (l : list A) (k : nat) :
  (k <= length l)%nat -> length (last_n k l) = k.
Proof. intros Hk. unfold last_n. rewrite length_drop. lia. Qed.

Lemma previous_n_length {A} (l : list A) (k : nat) :
  (k + 1 <= length l)%nat -> length (previous_n k l) = k.
Proof.
  intros Hk. unfold previous_n. rewrite last_n_length; [done|].
  rewrite length_take. lia.
Qed.

Lemma nonempty_of_length {A} (l : list A) (k : nat) :
  length l = k -> (0 < k)%nat -> l <> [].
Proof. intros Hl Hk ->. simpl in Hl. lia. Qed.

(** ** strategy.py *)

(** C9. [MovingAverageStrategy(sw, lw)] raises [ValueError] (the
    invalid-value kind, which is not [TradingBotError]) for every pair with
    [sw >= lw] or a window [<= 0], among them (5,5), (0,10) and (-1,10), and
    returns the strategy for every pair with [0 < sw < lw]. *)
Theorem new_strategy_windows_invariant :
  (forall sw lw : Z, sw >= lw \/ sw <= 0 \/ lw <= 0 ->
     exists msg, new_strategy sw lw = Raise (ValueError msg)
                 /\ is_TradingBotError (ValueError msg) = false)
  /\ (forall sw lw : Z, 0 < sw < lw -> new_strategy sw lw = Ok (Strategy sw lw))
  /\ raises (new_strategy 5 5) /\ raises (new_strategy 0 10)
  /\ raises (new_strategy (-1) 10).
Proof.
  split; [|split].
  - intros sw lw Hbad. unfold new_strategy, post_init. simpl.
    destruct (Z.leb_spec sw 0), (Z.leb_spec lw 0); simpl; eauto.
    destruct (Z.leb_spec lw sw); simpl; eauto. lia.
  - intros sw lw [Hsw Hlt]. unfold new_strategy, post_init. simpl.
    destruct (Z.leb_spec sw 0); [lia|].
    destruct (Z.leb_spec lw 0); [lia|]. simpl.
    destruct (Z.leb_spec lw sw); [lia|]. reflexivity.
  - repeat split; eexists; reflexivity.
Qed.

Lemma new_strategy_windows_invariant_witness :
  (exists msg, new_strategy 7 3 = Raise (ValueError msg)
               /\ is_TradingBotError (ValueError msg) = false)
  /\ new_strategy 5 20 = Ok (Strategy 5 20).
Proof.
  split.
  - apply (proj1 new_strategy_windows_invariant 7 3). left. lia.
  - apply (proj1 (proj2 new_strategy_windows_invariant) 5 20). lia.
Defined.

(** [evaluate] on lists is [evaluate_on] with exact rationals. *)
Lemma evaluate_on_exact (self : MovingAverageStrategy) (prices : list Q) :
  evaluate self prices = evaluate_on Qlt_bool Qle_bool mean self prices.
Proof. reflexivity. Qed.

Section EvaluateOnFacts.
Context {F : Type}.
Variable lt le : F -> F -> bool.
Variable mean_fn : list F -> outcome F.

Lemma decide_signal_on_BUY a b c d :
  decide_signal_on lt le a b c d = BUY <-> lt b a = true /\ le c d = true.
Proof.
  unfold decide_signal_on.
  destruct (lt b a), (le c d), (lt a b && le d c); simpl; intuition congruence.
Qed.

Lemma decide_signal_on_SELL a b c d :
  (lt b a = true -> lt a b = false) ->
  decide_signal_on lt le a b c d = SELL <-> lt a b = true /\ le d c = true.
Proof.
  intros Hasym. unfold decide_signal_on.
  destruct (lt b a) eqn:Hba.
  - rewrite (Hasym eq_refl). simpl. destruct (le c d); simpl; intuition congruence.
  - simpl. destruct (lt a b), (le d c); simpl; intuition congruence.
Qed.

Lemma decide_signal_on_HOLD a b c d :
  (lt b a = true -> lt a b = false) ->
  decide_signal_on lt le a b c d = HOLD <->
  ~ (lt b a = true /\ le c d = true) /\ ~ (lt a b = true /\ le d c = true).
Proof.
  intros Hasym.
  rewrite <- decide_signal_on_BUY, <- (decide_signal_on_SELL _ _ _ _ Hasym).
  destruct (decide_signal_on lt le a b c d); intuition congruence.
Qed.

(** On a long enough list the four slices are the four windows. *)
Lemma evaluate_on_long (sw lw : Z) (prices : list F) :
  0 < sw -> sw < lw -> lw + 1 <= Z.of_nat (length prices) ->
  evaluate_on lt le mean_fn (Strategy sw lw) prices
  = (short_ma ← mean_fn (last_n (Z.to_nat sw) prices);
     long_ma ← mean_fn (last_n (Z.to_nat lw) prices);
     previous_short ← mean_fn (previous_n (Z.to_nat sw) prices);
     previous_long ← mean_fn (previous_n (Z.to_nat lw) prices);
     mret (decide_signal_on lt le short_ma long_ma previous_short previous_long)).
Proof.
  intros Hsw Hlt Hlong. unfold evaluate_on. simpl.
  destruct (Z.ltb_spec (Z.of_nat (length prices)) (lw + 1)); [lia|].
  rewrite !py_slice_last, !py_slice_previous by lia. reflexivity.
Qed.

Lemma evaluate_on_short (sw lw : Z) (prices : list F) :
  Z.of_nat (length prices) < lw + 1 ->
  evaluate_on lt le mean_fn (Strategy sw lw) prices = Ok HOLD.
Proof.
  intros Hshort. unfold evaluate_on. simpl.
  destruct (Z.ltb_spec (Z.of_nat (length prices)) (lw + 1)); [reflexivity | lia].
Qed.

Lemma evaluate_on_rule (sw lw : Z) (prices : list F)
    (shortMA longMA previousShortMA previousLongMA : F) :
  0 < sw -> sw < lw -> lw + 1 <= Z.of_nat (length prices) ->
  mean_fn (last_n (Z.to_nat sw) prices) = Ok shortMA ->
  mean_fn (last_n (Z.to_nat lw) prices) = Ok longMA ->
  mean_fn (previous_n (Z.to_nat sw) prices) = Ok previousShortMA ->
  mean_fn (previous_n (Z.to_nat lw) prices) = Ok previousLongMA ->
  (lt longMA shortMA = true -> lt shortMA longMA = false) ->
  exists signal,
    evaluate_on lt le mean_fn (Strategy sw lw) prices = Ok signal
    /\ (signal = BUY <->
        lt longMA shortMA = true /\ le previousShortMA previousLongMA = true)
    /\ (signal = SELL <->
        lt shortMA longMA = true /\ le previousLongMA previousShortMA = true)
    /\ (signal = HOLD <->
        ~ (lt longMA shortMA = true /\ le previousShortMA previousLongMA = true)
        /\ ~ (lt shortMA longMA = true /\ le previousLongMA previousShortMA = true)).
Proof.
  intros Hsw Hlt Hlong Hs Hl Hps Hpl Hasym.
  rewrite evaluate_on_long by assumption. rewrite Hs, Hl, Hps, Hpl.
  eexists. split; [reflexivity|].
  split; [apply decide_signal_on_BUY|].
  split; [by apply decide_signal_on_SELL | by apply decide_signal_on_HOLD].
Qed.
End EvaluateOnFacts.

(** [<] on floats is asymmetric. *)
Lemma Binary64_lt_asym (x y : Binary64.t) :
  Binary64.lt x y = true -> Binary64.lt y x = false.
Proof.
  unfold Binary64.lt, SFltb, SFcompare.
  destruct x as [sx|sx| |sx mx ex], y as [sy|sy| |sy my ey];
    try destruct sx; try destruct sy; try discriminate; try reflexivity.
  - rewrite (Z.compare_antisym ex ey).
    destruct (ex ?= ey); simpl; try discriminate; try reflexivity.
    fold (Pos.compare mx my). fold (Pos.compare my mx).
    rewrite (Pos.compare_antisym mx my).
    destruct (Pos.compare mx my); simpl; try discriminate; reflexivity.
  - rewrite (Z.compare_antisym ex ey).
    destruct (ex ?= ey); simpl; try discriminate; try reflexivity.
    fold (Pos.compare mx my). fold (Pos.compare my mx).
    rewrite (Pos.compare_antisym mx my).
    destruct (Pos.compare mx my); simpl; try discriminate; reflexivity.
Qed.

(** C1, as amended.  For windows [0 < sw < lw] and every price list (or
    tuple): [evaluate] returns HOLD when the list has fewer than [lw + 1]
    samples; otherwise, with [shortMA], [longMA], [previousShortMA] and
    [previousLongMA] the values that [statistics.mean] returns for the last
    [sw] and [lw] samples and for the same-size windows ending one sample
    earlier, it returns BUY iff [shortMA > longMA] and
    [previousShortMA <= previousLongMA], SELL iff [shortMA < longMA] and
    [previousShortMA >= previousLongMA], and HOLD otherwise.  This holds
    for any kind of number whose [<] is asymmetric, and so for floats, whose
    means are rounded to binary64.  The list of the 21 floats
    [1.0, ..., 1.0, 2.0] with windows (5, 20) gives BUY. *)
Theorem evaluate_on_crossover_rule :
  (forall (F : Type) (lt le : F -> F -> bool) (mean_fn : list F -> outcome F)
          (sw lw : Z) (prices : list F),
     0 < sw -> sw < lw ->
     (Z.of_nat (length prices) < lw + 1 ->
      evaluate_on lt le mean_fn (Strategy sw lw) prices = Ok HOLD)
     /\ (lw + 1 <= Z.of_nat (length prices) ->
         forall shortMA longMA previousShortMA previousLongMA : F,
           mean_fn (last_n (Z.to_nat sw) prices) = Ok shortMA ->
           mean_fn (last_n (Z.to_nat lw) prices) = Ok longMA ->
           mean_fn (previous_n (Z.to_nat sw) prices) = Ok previousShortMA ->
           mean_fn (previous_n (Z.to_nat lw) prices) = Ok previousLongMA ->
           (lt longMA shortMA = true -> lt shortMA longMA = false) ->
           exists signal,
             evaluate_on lt le mean_fn (Strategy sw lw) prices = Ok signal
             /\ (signal = BUY <->
                 lt longMA shortMA = true /\ le previousShortMA previousLongMA = true)
             /\ (signal = SELL <->
                 lt shortMA longMA = true /\ le previousLongMA previousShortMA = true)
             /\ (signal = HOLD <->
                 ~ (lt longMA shortMA = true /\ le previousShortMA previousLongMA = true)
                 /\ ~ (lt shortMA longMA = true
                       /\ le previousLongMA previousShortMA = true))))
  /\ (forall (sw lw : Z) (prices : list Binary64.t),
        0 < sw -> sw < lw ->
        (Z.of_nat (length prices) < lw + 1 ->
         Binary64.evaluate (Strategy sw lw) prices = Ok HOLD)
        /\ (lw + 1 <= Z.of_nat (length prices) ->
            forall shortMA longMA previousShortMA previousLongMA : Binary64.t,
              Binary64.mean (last_n (Z.to_nat sw) prices) = Ok shortMA ->
              Binary64.mean (last_n (Z.to_nat lw) prices) = Ok longMA ->
              Binary64.mean (previous_n (Z.to_nat sw) prices) = Ok previousShortMA ->
              Binary64.mean (previous_n (Z.to_nat lw) prices) = Ok previousLongMA ->
              exists signal,
                Binary64.evaluate (Strategy sw lw) prices = Ok signal
                /\ (signal = BUY <->
                    Binary64.lt longMA shortMA = true
                    /\ Binary64.le previousShortMA previousLongMA = true)
                /\ (signal = SELL <->
                    Binary64.lt shortMA longMA = true
                    /\ Binary64.le previousLongMA previousShortMA = true)
                /\ (signal = HOLD <->
                    ~ (Binary64.lt longMA shortMA = true
                       /\ Binary64.le previousShortMA previousLongMA = true)
                    /\ ~ (Binary64.lt shortMA longMA = true
                          /\ Binary64.le previousLongMA previousShortMA = true))))
  /\ Binary64.evaluate (Strategy 5 20)
       (replicate 20 (Binary64.of_Z 1) ++ [Binary64.of_Z 2]) = Ok BUY.
Proof.
  split; [|split].
  - intros F lt le mean_fn sw lw prices Hsw Hlt. split.
    + apply evaluate_on_short.
    + intros Hlong shortMA longMA previousShortMA previousLongMA Hs Hl Hps Hpl Hasym.
      by apply evaluate_on_rule.
  - intros sw lw prices Hsw Hlt. split.
    + apply evaluate_on_short.
    + intros Hlong shortMA longMA previousShortMA previousLongMA Hs Hl Hps Hpl.
      apply (evaluate_on_rule Binary64.lt Binary64.le Binary64.mean sw lw prices
               shortMA longMA previousShortMA previousLongMA); try assumption.
      apply Binary64_lt_asym.
  - vm_compute. reflexivity.
Qed.

Lemma evaluate_on_crossover_rule_witness :
  Binary64.evaluate (Strategy 2 3) (map Binary64.of_Z [3; 2; 1; 1; 4]) = Ok BUY.
Proof.
  destruct (proj2 (proj1 (proj2 evaluate_on_crossover_rule) 2 3
                     (map Binary64.of_Z [3; 2; 1; 1; 4]) ltac:(lia) ltac:(lia))
              ltac:(simpl; lia)
              (S754_finite false 5629499534213120 (-51))
              (Binary64.of_Z 2) (Binary64.of_Z 1)
              (S754_finite false 6004799503160661 (-52)))
    as (signal & Hev & HBUY & _);
    [vm_compute; reflexivity | vm_compute; reflexivity | vm_compute; reflexivity
    | vm_compute; reflexivity |].
  rewrite Hev. f_equal. apply HBUY. split; vm_compute; reflexivity.
Defined.

(** C1, as stated, fails twice.  On the three floats
    [1.0, 0.9999999999999999, 1.0] with windows (1, 2) the true means
    satisfy the condition for BUY, but the mean of the last two rounds to
    [1.0] and [evaluate] returns HOLD.  And on the deque that the bot hands
    over, holding [1, ..., 1, 2], [evaluate] raises [TypeError]. *)
Lemma evaluate_claim_counterexample :
  (let prices :=
     [Binary64.of_Z 1; S754_finite false 9007199254740991 (-53); Binary64.of_Z 1] in
   Binary64.evaluate (Strategy 1 2) prices = Ok HOLD
   /\ exists shortMA longMA previousShortMA previousLongMA : Q,
        Binary64.exact_mean (last_n 1 prices) = Some shortMA
        /\ Binary64.exact_mean (last_n 2 prices) = Some longMA
        /\ Binary64.exact_mean (previous_n 1 prices) = Some previousShortMA
        /\ Binary64.exact_mean (previous_n 2 prices) = Some previousLongMA
        /\ (longMA < shortMA)%Q /\ (previousShortMA <= previousLongMA)%Q)
  /\ evaluate (Strategy 5 20) (Deque 120 (replicate 20 1%Q ++ [2%Q]))
     = Raise (TypeError "sequence index must be integer, not 'slice'").
Proof.
  split; [|reflexivity].
  split; [vm_compute; reflexivity|].
  eexists _, _, _, _.
  split; [vm_compute; reflexivity|]. split; [vm_compute; reflexivity|].
  split; [vm_compute; reflexivity|]. split; [vm_compute; reflexivity|].
  split; [reflexivity | discriminate].
Qed.

(** ** config.py *)







Example parse_bool_examples :
  _parse_bool (Some "  TRUE ") false = Ok true
  /\ _parse_bool (Some "Oui") false = Ok true
  /\ _parse_bool (Some "Non") true = Ok false
  /\ _parse_bool (Some " off") true = Ok false
  /\ _parse_bool None false = Ok false
  /\ _parse_bool (Some "maybe") true = Raise (ValueError (parse_bool_msg "maybe")).
Proof. repeat split. Qed.

Example from_env_defaults py_float py_int :
  BotConfig.from_env py_float py_int ∅ = Ok BotConfig.default.
Proof. reflexivity. Qed.

Example from_env_legacy_prefix py_float py_int :
  BotConfig.test_mode
    <$> BotConfig.from_env py_float py_int
          (<["ACTIVE_EXCHANGE" := " Kraken "]> {[ "BINANCE_TEST_MODE" := "false" ]})
  = Ok false
  /\ BotConfig.test_mode
      <$> BotConfig.from_env py_float py_int
            (<["ACTIVE_EXCHANGE" := "kraken"]>
               (<["KRAKEN_TEST_MODE" := "off"]> {[ "BINANCE_TEST_MODE" := "true" ]}))
    = Ok false.
Proof. split; reflexivity. Qed.

(** The parts of the boolean grammar that hold as documented: the two word
    lists after trimming and lower-casing, the default for an absent value,
    and an error that names the offending string in every other case. *)
Lemma parse_bool_grammar (value : option string) (default : bool) :
  (value = None -> _parse_bool value default = Ok default)
  /\ (forall v, value = Some v -> lower (strip v) ∈ true_words ->
        _parse_bool value default = Ok true)
  /\ (forall v, value = Some v -> lower (strip v) ∈ false_words ->
        _parse_bool value default = Ok false)
  /\ (forall v, value = Some v ->
        lower (strip v) ∉ true_words -> lower (strip v) ∉ false_words ->
        _parse_bool value default = Raise (ValueError (parse_bool_msg v))).
Proof.
  repeat split.
  - by intros ->.
  - intros v -> Hin. unfold _parse_bool. by rewrite bool_decide_eq_true_2.
  - intros v -> Hin. unfold _parse_bool.
    case_bool_decide as Ht; [|by rewrite bool_decide_eq_true_2].
    exfalso. revert Ht Hin. generalize (lower (strip v)). intros s Ht Hf.
    unfold true_words, false_words in *.
    repeat (apply elem_of_cons in Ht as [->|Ht]);
      try (by apply elem_of_nil in Ht);
      repeat (apply elem_of_cons in Hf as [Hf|Hf]; [discriminate|]);
      by apply elem_of_nil in Hf.
  - intros v -> Ht Hf. unfold _parse_bool.
    by rewrite !bool_decide_eq_false_2.
Qed.

(** C4.  A blank value (empty after trimming) is not given the default:
    [_parse_bool] raises [ValueError] on it, for either default; so does
    [from_env] when [BOT_TEST_MODE] is set to the empty string. *)
Theorem parse_bool_blank_raises :
  (forall (v : string) (default : bool),
     blank v = true ->
     _parse_bool (Some v) default = Raise (ValueError (parse_bool_msg v)))
  /\ _parse_bool (Some EmptyString) true = Raise (ValueError (parse_bool_msg EmptyString))
  /\ (forall py_float py_int,
        BotConfig.from_env py_float py_int {[ "BOT_TEST_MODE" := EmptyString ]}
        = Raise (ValueError (parse_bool_msg EmptyString))).
Proof.
  split; [|split].
  - intros v default Hblank. unfold blank in Hblank.
    apply bool_decide_eq_true_1 in Hblank.
    unfold _parse_bool. rewrite Hblank. reflexivity.
  - reflexivity.
  - intros py_float py_int. reflexivity.
Qed.

Lemma parse_bool_blank_raises_witness :
  _parse_bool (Some "  ") false = Raise (ValueError (parse_bool_msg "  ")).
Proof. apply (proj1 parse_bool_blank_raises "  " false). reflexivity. Defined.


(** ** binance_client.py *)

Section PlaceMarketOrderFacts.
Variable float_str : Q -> string.

Lemma order_params_quantity symbol side quantity :
  let params := BinanceClient.order_params float_str symbol side quantity None in
  params !! "quantity" = Some (float_str quantity) /\ params !! "quoteOrderQty" = None.
Proof. split; reflexivity. Qed.

Lemma order_params_quote symbol side quantity q :
  let params := BinanceClient.order_params float_str symbol side quantity (Some q) in
  params !! "quantity" = None /\ params !! "quoteOrderQty" = Some (float_str q).
Proof. split; reflexivity. Qed.

Lemma test_result_status symbol side params now :
  BinanceClient.test_result symbol side params now !! "status" = Some (PStr "TEST").
Proof. reflexivity. Qed.

Lemma test_result_no_order_id symbol side params now :
  BinanceClient.test_result symbol side params now !! "orderId" = None.
Proof. reflexivity. Qed.

Lemma test_result_executedQty symbol side params now :
  BinanceClient.test_result symbol side params now !! "executedQty"
  = Some (pyval_of_opt (py_or (params !! "quantity") (params !! "quoteOrderQty"))).
Proof. reflexivity. Qed.

Lemma wrap_client_error_Ok {A} (m : outcome A) (a : A) :
  BinanceClient.wrap_client_error m = Ok a -> m = Ok a.
Proof. destruct m as [x|[]]; simpl; congruence. Qed.

(** A result returned in test mode is the synthetic one. *)
Lemma place_market_order_test_result self ex symbol side quantity quote r :
  snd (BinanceClient.place_market_order float_str self ex symbol side quantity quote true)
  = Ok r ->
  r = BinanceClient.test_result symbol side
        (BinanceClient.order_params float_str symbol side quantity quote)
        (BinanceClient.time_ms ex).
Proof.
  unfold BinanceClient.place_market_order.
  destruct (negb _ || negb _); simpl; [discriminate|].
  intros Hr. apply wrap_client_error_Ok in Hr.
  destruct (BinanceClient.new_order_test ex _); inversion Hr; reflexivity.
Qed.
End PlaceMarketOrderFacts.

Lemma truthy_false (v : option string) :
  truthy v = false <-> v = None \/ v = Some EmptyString.
Proof.
  unfold truthy. destruct v as [s|]; [|intuition].
  case_bool_decide; simpl; subst; intuition congruence.
Qed.

(** C2, as amended.  [place_market_order] raises [TradingBotError] when a
    credential is absent or the empty string, before any request is sent
    and whatever [test_mode] is.  With both credentials non-empty and
    [test_mode] true, the only request sent is the validation one, it
    carries exactly one of [quantity] and [quoteOrderQty], a returned result
    has status TEST and an [executedQty] that repeats the one that was
    sent, and a result is returned whenever the validation call succeeds. *)
Theorem place_market_order_contract
    (float_str : Q -> string) (Hstr : forall x, float_str x <> EmptyString)
    (self : BinanceClient.t) (ex : BinanceClient.Exchange)
    (symbol side : string) (quantity : Q) (quote_order_qty : option Q) :
  let key := BinanceClient.api_key (BinanceClient._client self) in
  let secret := BinanceClient.api_secret (BinanceClient._client self) in
  let params := BinanceClient.order_params float_str symbol side quantity quote_order_qty in
  let supplied := float_str (default quantity quote_order_qty) in
  (key = None \/ key = Some EmptyString \/ secret = None \/ secret = Some EmptyString ->
   forall test_mode,
     BinanceClient.place_market_order float_str self ex symbol side quantity
       quote_order_qty test_mode
     = ([], Raise (TradingBotError BinanceClient.credentials_msg)))
  /\ (truthy key = true -> truthy secret = true ->
      let call :=
        BinanceClient.place_market_order float_str self ex symbol side quantity
          quote_order_qty true in
      fst call = [BinanceClient.NewOrderTest params]
      /\ forallb (fun r => negb (BinanceClient.is_live r)) (fst call) = true
      /\ (match quote_order_qty with
          | Some _ => params !! "quantity" = None
                      /\ params !! "quoteOrderQty" = Some supplied
          | None => params !! "quantity" = Some supplied
                    /\ params !! "quoteOrderQty" = None
          end)
      /\ (forall r, snd call = Ok r ->
            r !! "status" = Some (PStr "TEST")
            /\ r !! "executedQty" = Some (PStr supplied))
      /\ (BinanceClient.new_order_test ex params = Ok tt -> exists r, snd call = Ok r)).
Proof.
  intros key secret params supplied. split.
  - intros Hmissing test_mode. unfold BinanceClient.place_market_order.
    fold key secret.
    assert (truthy key = false \/ truthy secret = false) as [-> | ->].
    { rewrite !truthy_false. tauto. }
    + reflexivity.
    + by rewrite orb_true_r.
  - intros Hkey Hsecret call.
    assert (Hsupplied : match quote_order_qty with
                        | Some _ => params !! "quantity" = None
                                    /\ params !! "quoteOrderQty" = Some supplied
                        | None => params !! "quantity" = Some supplied
                                  /\ params !! "quoteOrderQty" = None
                        end).
    { subst params supplied. destruct quote_order_qty as [q|]; simpl.
      - apply (order_params_quote float_str symbol side quantity q).
      - apply (order_params_quantity float_str symbol side quantity). }
    assert (Hcall : call = ([BinanceClient.NewOrderTest params],
                            BinanceClient.wrap_client_error
                              (_ ← BinanceClient.new_order_test ex params;
                               mret (BinanceClient.test_result symbol side params
                                       (BinanceClient.time_ms ex))))).
    { subst call. unfold BinanceClient.place_market_order. fold key secret.
      by rewrite Hkey, Hsecret. }
    rewrite Hcall. simpl fst. simpl snd.
    split; [reflexivity|]. split; [reflexivity|]. split; [exact Hsupplied|]. split.
    + intros r Hr. apply wrap_client_error_Ok in Hr.
      destruct (BinanceClient.new_order_test ex params); inversion Hr; subst r. split; [reflexivity|].
      rewrite test_result_executedQty. f_equal.
      destruct quote_order_qty as [q|]; destruct Hsupplied as [-> ->]; simpl.
      * reflexivity.
      * unfold py_or, truthy. rewrite bool_decide_eq_false_2 by apply Hstr. reflexivity.
    + intros ->. eexists. reflexivity.
Qed.

(** C2, as stated, fails on a whitespace-only key: the check is Python
    truthiness, so the order is sent. *)
Lemma place_market_order_blank_key_sent :
  blank "   " = true
  /\ BinanceClient.place_market_order Sample.float_str
       (Sample.client (Some "   ") (Some "secret")) Sample.exchange
       "BTCUSDT" "BUY" (1 # 1000) None true
     = ([BinanceClient.NewOrderTest
           (BinanceClient.order_params Sample.float_str "BTCUSDT" "BUY" (1 # 1000) None)],
        Ok (BinanceClient.test_result "BTCUSDT" "BUY"
              (BinanceClient.order_params Sample.float_str "BTCUSDT" "BUY" (1 # 1000) None)
              1700000000000))
  /\ BinanceClient.place_market_order Sample.float_str
       (Sample.client (Some "   ") (Some "secret")) Sample.exchange
       "BTCUSDT" "BUY" (1 # 1000) None true
     <> ([], Raise (TradingBotError BinanceClient.credentials_msg)).
Proof. split; [reflexivity|]. split; [reflexivity | discriminate]. Qed.

Lemma place_market_order_contract_witness :
  (forall test_mode,
     BinanceClient.place_market_order Sample.float_str
       (Sample.client None (Some "secret")) Sample.exchange
       "BTCUSDT" "BUY" (1 # 1000) None test_mode
     = ([], Raise (TradingBotError BinanceClient.credentials_msg)))
  /\ (forall r,
        snd (BinanceClient.place_market_order Sample.float_str
               (Sample.client (Some "key") (Some "secret")) Sample.exchange
               "BTCUSDT" "SELL" (1 # 1000) (Some 25%Q) true) = Ok r ->
        r !! "status" = Some (PStr "TEST")
        /\ r !! "executedQty" = Some (PStr "0.001")).
Proof.
  assert (Hstr : forall x, Sample.float_str x <> EmptyString) by (intros x; discriminate).
  split.
  - apply (proj1 (place_market_order_contract Sample.float_str Hstr
                    (Sample.client None (Some "secret")) Sample.exchange
                    "BTCUSDT" "BUY" (1 # 1000) None)).
    left. reflexivity.
  - apply (proj2 (place_market_order_contract Sample.float_str Hstr
                    (Sample.client (Some "key") (Some "secret")) Sample.exchange
                    "BTCUSDT" "SELL" (1 # 1000) (Some 25%Q)));
      reflexivity.
Defined.

(** ** bot.py: the price history *)

Lemma tail_drop {A} (l : list A) (k : nat) : tail (drop k l) = drop (S k) l.
Proof.
  revert k. induction l as [|a l IH]; intros [|k]; simpl; done.
Qed.

(** One [append] keeps the deque equal to the tail end of all that was
    appended. *)
Lemma deque_append_window (cap : nat) (xs : list Q) (x : Q) :
  deque_append (Deque cap (last_n cap xs)) x = Deque cap (last_n cap (xs ++ [x])).
Proof.
  unfold deque_append, last_n. simpl. f_equal.
  rewrite !length_app, length_drop. simpl.
  destruct (Nat.ltb_spec cap (length xs - (length xs - cap) + 1)) as [Hfull|Hroom].
  - rewrite <- drop_app_le by lia. rewrite tail_drop. f_equal. lia.
  - replace (length xs - cap)%nat with 0%nat by lia.
    replace (length xs + 1 - cap)%nat with 0%nat by lia.
    by rewrite !drop_0.
Qed.

Lemma last_n_min {A} (cap : nat) (xs : list A) :
  last_n (length xs `min` cap) xs = last_n cap xs.
Proof. unfold last_n. f_equal. lia. Qed.

Section BotFacts.
Context {T : Type} `{StrategyLike T}.
Variable float_str : Q -> string.

Lemma fetch_price_config (self : TradingBot.t T) w :
  TradingBot._config (TradingBot.fetch_price self w).1 = TradingBot._config self.
Proof.
  unfold TradingBot.fetch_price.
  by destruct (TradingBot.get_symbol_price w _).
Qed.

Lemma fetch_all_config (self : TradingBot.t T) ws :
  TradingBot._config (TradingBot.fetch_all self ws) = TradingBot._config self.
Proof.
  induction ws as [|w ws IH] using rev_ind; [reflexivity|].
  unfold TradingBot.fetch_all in *. rewrite foldl_snoc.
  by rewrite fetch_price_config.
Qed.

(** The history after any number of [fetch_price] calls. *)
Lemma fetch_all_prices (self : TradingBot.t T) (cap : nat) ws :
  TradingBot._prices self = Deque cap [] ->
  TradingBot._prices (TradingBot.fetch_all self ws)
  = Deque cap (last_n cap
                 (TradingBot.delivered (BotConfig.symbol (TradingBot._config self)) ws)).
Proof.
  intros Hinit. induction ws as [|w ws IH] using rev_ind.
  - simpl. rewrite Hinit. reflexivity.
  - pose proof (fetch_all_config self ws) as Hcfg.
    unfold TradingBot.fetch_all in *. rewrite foldl_snoc.
    unfold TradingBot.delivered in *. rewrite omap_app. simpl.
    unfold TradingBot.fetch_price at 1. rewrite Hcfg.
    destruct (TradingBot.get_symbol_price w _) as [p|e]; simpl.
    + rewrite IH. apply deque_append_window.
    + by rewrite app_nil_r.
Qed.
End BotFacts.

(** C7.  A bot built by [__init__] has a price history of capacity
    [max(max_history, long_window + 5)]: after any sequence of
    [fetch_price] calls the history holds exactly the most recent
    [min(appended, capacity)] of the prices appended, in their order, hence
    at most [capacity] of them. *)
Theorem price_history_bounded
    {T : Type} `{StrategyLike T} (strategy : T) (config : BotConfig.t)
    (self : TradingBot.t T) (ws : list TradingBot.World) :
  TradingBot.init strategy config = Ok self ->
  let capacity :=
    Z.to_nat (Z.max (BotConfig.max_history config) (BotConfig.long_window config + 5)) in
  let appended := TradingBot.delivered (BotConfig.symbol config) ws in
  let history := TradingBot.prices (TradingBot.fetch_all self ws) in
  history = last_n (length appended `min` capacity) appended
  /\ history = drop (length appended - capacity) appended
  /\ (length history <= capacity)%nat
  /\ length history = (length appended `min` capacity)%nat.
Proof.
  intros Hinit capacity appended history.
  unfold TradingBot.init, TradingBot.capacity in Hinit.
  destruct (_ || _); [discriminate|].
  destruct (Z.ltb_spec (Z.max (BotConfig.max_history config)
                              (BotConfig.long_window config + 5)) 0); [discriminate|].
  injection Hinit as <-.
  assert (Hhist : history = last_n capacity appended).
  { subst history. unfold TradingBot.prices.
    rewrite (fetch_all_prices _ capacity) by reflexivity. reflexivity. }
  rewrite last_n_min. split; [exact Hhist|]. split; [exact Hhist|].
  rewrite Hhist. unfold last_n. rewrite length_drop. lia.
Qed.

Lemma price_history_bounded_witness :
  TradingBot.prices
    (TradingBot.fetch_all
       (TradingBot.mk (Strategy 2 3)
          (BotConfig.mk "binance" None None "BTCUSDT" "USDT" "BTC" (1 # 1000) 5 2 3 4 true)
          false (Deque 8 []) [])
       (map (fun p => Sample.world p (Ok ∅) false)
            [Ok 1; Ok 2; Raise (TradingBotError "down"); Ok 3; Ok 4; Ok 5;
             Ok 6; Ok 7; Ok 8; Ok 9; Ok 10]%Q))
  = [3; 4; 5; 6; 7; 8; 9; 10]%Q.
Proof.
  etransitivity.
  - apply (price_history_bounded (Strategy 2 3)
             (BotConfig.mk "binance" None None "BTCUSDT" "USDT" "BTC" (1 # 1000) 5 2 3 4 true)).
    reflexivity.
  - reflexivity.
Defined.

(** ** bot.py: one pass through the loop body *)

Section PassFacts.
Context {T : Type} `{StrategyLike T}.
Variable float_str : Q -> string.

Lemma emit_then_sleep_state (self : TradingBot.t T) subscribed w u :
  (TradingBot.emit_then_sleep self subscribed w u).1.1 = self.
Proof.
  unfold TradingBot.emit_then_sleep, TradingBot._emit_update.
  destruct subscribed; [destruct (TradingBot.callback w u)|];
    simpl; try reflexivity; by destruct (TradingBot.sleep w _).
Qed.

Lemma emit_then_sleep_trace (self : TradingBot.t T) subscribed w u :
  let tr := (TradingBot.emit_then_sleep self subscribed w u).1.2 in
  TradingBot.emitted tr = (if subscribed then [u] else []) /\ TradingBot.quiet tr.
Proof.
  unfold TradingBot.emit_then_sleep, TradingBot._emit_update, TradingBot.quiet.
  destruct subscribed; [destruct (TradingBot.callback w u)|];
    simpl; try (split; reflexivity); by destruct (TradingBot.sleep w _).
Qed.

Lemma emit_then_sleep_end (self : TradingBot.t T) subscribed w u :
  let ending := (TradingBot.emit_then_sleep self subscribed w u).2 in
  let seconds := BotConfig.poll_interval (TradingBot._config self) in
  (TradingBot.callback w u = Ok tt -> TradingBot.sleep w seconds = Ok tt ->
   ending = TradingBot.Completed)
  /\ (forall e, ending = TradingBot.Escaped e ->
        TradingBot.callback w u = Raise e \/ TradingBot.sleep w seconds = Raise e).
Proof.
  unfold TradingBot.emit_then_sleep, TradingBot._emit_update.
  destruct subscribed; simpl.
  - destruct (TradingBot.callback w u) as [[]|e1]; simpl.
    + destruct (TradingBot.sleep w _) as [[]|e2]; simpl; split;
        intros; simplify_eq; auto.
    + split; intros; simplify_eq; auto.
  - destruct (TradingBot.sleep w _) as [[]|e2]; simpl; split;
      intros; simplify_eq; auto.
Qed.

Lemma prepend_state tr (r : TradingBot.t T * list TradingBot.event * TradingBot.pass_end) :
  (TradingBot.prepend tr r).1.1 = r.1.1.
Proof. by destruct r as [[? ?] ?]. Qed.

Lemma prepend_trace tr (r : TradingBot.t T * list TradingBot.event * TradingBot.pass_end) :
  (TradingBot.prepend tr r).1.2 = tr ++ r.1.2.
Proof. by destruct r as [[? ?] ?]. Qed.

Lemma prepend_end tr (r : TradingBot.t T * list TradingBot.event * TradingBot.pass_end) :
  (TradingBot.prepend tr r).2 = r.2.
Proof. by destruct r as [[? ?] ?]. Qed.

Lemma emitted_app tr1 tr2 :
  TradingBot.emitted (tr1 ++ tr2) = TradingBot.emitted tr1 ++ TradingBot.emitted tr2.
Proof. apply omap_app. Qed.

(** A failed fetch closes the pass with the HOLD update. *)
Lemma iteration_fetch_failed (self : TradingBot.t T) subscribed w msg :
  TradingBot.get_symbol_price w (BotConfig.symbol (TradingBot._config self))
  = Raise (TradingBotError msg) ->
  TradingBot.iteration float_str self subscribed w
  = TradingBot.prepend [TradingBot.EvFetch (BotConfig.symbol (TradingBot._config self))]
      (TradingBot.emit_then_sleep self subscribed w
         (BotUpdate.mk None HOLD None (Some msg))).
Proof.
  intros Hfetch. unfold TradingBot.iteration, TradingBot.fetch_price.
  rewrite Hfetch. reflexivity.
Qed.

(** A fetched price, a BUY or SELL signal and a refused order. *)
Lemma iteration_order_failed (self : TradingBot.t T) subscribed w price signal msg :
  let config := TradingBot._config self in
  TradingBot.get_symbol_price w (BotConfig.symbol config) = Ok price ->
  strategy_evaluate (TradingBot._strategy self)
    (deque_append (TradingBot._prices self) price) = Ok signal ->
  signal = BUY \/ signal = SELL ->
  TradingBot.place_market_order w (BotConfig.symbol config) (signal_value signal)
    (BotConfig.trade_quantity config) (BotConfig.test_mode config)
  = Raise (TradingBotError msg) ->
  TradingBot.iteration float_str self subscribed w
  = TradingBot.prepend
      [TradingBot.EvFetch (BotConfig.symbol config);
       TradingBot.EvEvaluate (dq_items (deque_append (TradingBot._prices self) price));
       TradingBot.EvOrder (BotConfig.symbol config) (signal_value signal)
         (BotConfig.trade_quantity config) (BotConfig.test_mode config)]
      (TradingBot.emit_then_sleep (TradingBot.appended self price) subscribed w
         (BotUpdate.mk (Some price) signal None (Some msg))).
Proof.
  intros config Hfetch Heval Hsig Horder.
  unfold TradingBot.iteration, TradingBot.fetch_price. subst config.
  rewrite Hfetch. simpl. rewrite Heval.
  rewrite bool_decide_eq_true_2 by exact Hsig.
  unfold TradingBot.execute_trade. simpl. rewrite Horder. reflexivity.
Qed.

(** A fetched price, a BUY or SELL signal and an accepted order. *)
Lemma iteration_order_placed (self : TradingBot.t T) subscribed w price signal order :
  let config := TradingBot._config self in
  TradingBot.get_symbol_price w (BotConfig.symbol config) = Ok price ->
  strategy_evaluate (TradingBot._strategy self)
    (deque_append (TradingBot._prices self) price) = Ok signal ->
  signal = BUY \/ signal = SELL ->
  TradingBot.place_market_order w (BotConfig.symbol config) (signal_value signal)
    (BotConfig.trade_quantity config) (BotConfig.test_mode config)
  = Ok order ->
  TradingBot.iteration float_str self subscribed w
  = TradingBot.prepend
      [TradingBot.EvFetch (BotConfig.symbol config);
       TradingBot.EvEvaluate (dq_items (deque_append (TradingBot._prices self) price));
       TradingBot.EvOrder (BotConfig.symbol config) (signal_value signal)
         (BotConfig.trade_quantity config) (BotConfig.test_mode config)]
      (TradingBot.emit_then_sleep
         (TradingBot.set_trades
            (TradingBot._trades self ++ [TradingBot.recorded float_str self w signal price order])
            (TradingBot.appended self price))
         subscribed w
         (BotUpdate.mk (Some price) signal
            (Some (TradingBot.recorded float_str self w signal price order)) None)).
Proof.
  intros config Hfetch Heval Hsig Horder.
  unfold TradingBot.iteration, TradingBot.fetch_price. subst config.
  rewrite Hfetch. simpl. rewrite Heval.
  rewrite bool_decide_eq_true_2 by exact Hsig.
  unfold TradingBot.execute_trade. simpl. rewrite Horder. reflexivity.
Qed.
Lemma iteration_fetch_escapes (self : TradingBot.t T) subscribed w e :
  TradingBot.get_symbol_price w (BotConfig.symbol (TradingBot._config self)) = Raise e ->
  is_TradingBotError e = false ->
  TradingBot.iteration float_str self subscribed w
  = (self, [TradingBot.EvFetch (BotConfig.symbol (TradingBot._config self))],
     TradingBot.Escaped e).
Proof.
  intros Hfetch Hother. unfold TradingBot.iteration, TradingBot.fetch_price.
  rewrite Hfetch. by rewrite Hother.
Qed.

Lemma iteration_order_escapes (self : TradingBot.t T) subscribed w price signal e :
  let config := TradingBot._config self in
  TradingBot.get_symbol_price w (BotConfig.symbol config) = Ok price ->
  strategy_evaluate (TradingBot._strategy self)
    (deque_append (TradingBot._prices self) price) = Ok signal ->
  signal = BUY \/ signal = SELL ->
  TradingBot.place_market_order w (BotConfig.symbol config) (signal_value signal)
    (BotConfig.trade_quantity config) (BotConfig.test_mode config) = Raise e ->
  is_TradingBotError e = false ->
  TradingBot.iteration float_str self subscribed w
  = (TradingBot.appended self price,
     [TradingBot.EvFetch (BotConfig.symbol config);
      TradingBot.EvEvaluate (dq_items (deque_append (TradingBot._prices self) price));
      TradingBot.EvOrder (BotConfig.symbol config) (signal_value signal)
        (BotConfig.trade_quantity config) (BotConfig.test_mode config)],
     TradingBot.Escaped e).
Proof.
  intros config Hfetch Heval Hsig Horder Hother.
  unfold TradingBot.iteration, TradingBot.fetch_price. subst config.
  rewrite Hfetch. simpl. rewrite Heval.
  rewrite bool_decide_eq_true_2 by exact Hsig.
  unfold TradingBot.execute_trade. simpl. rewrite Horder. by rewrite Hother.
Qed.

(** Every pass asks for the price exactly once. *)
Lemma iteration_passes (self : TradingBot.t T) subscribed w :
  TradingBot.passes (TradingBot.iteration float_str self subscribed w).1.2 = 1%nat.
Proof.
  unfold TradingBot.iteration, TradingBot.fetch_price, TradingBot.execute_trade,
    TradingBot.emit_then_sleep, TradingBot._emit_update, TradingBot.prepend.
  repeat case_match; simplify_eq; reflexivity.
Qed.
End PassFacts.

(** C5, as amended.  In one pass through the loop body: when the price
    fetch fails with the operational error [TradingBotError], the state of
    the bot (price history included) is unchanged, the strategy is not
    called, no order is sent, and the update published carries no price,
    HOLD, no trade and the message; when the fetch succeeds and the order is
    refused with [TradingBotError], the history keeps the price appended in
    this pass, no trade is recorded, the update published carries the price,
    the signal, no trade and the message, and an exception leaves the pass
    only if the subscriber or the sleep raised it.  When the fetch or the
    order fails with any other exception, that exception leaves the pass at
    once: no update is published and there is no sleep; the state is
    unchanged after a failed fetch, and keeps the appended price and records
    no trade after a failed order. *)
Theorem iteration_failures
    {T : Type} `{StrategyLike T} (float_str : Q -> string)
    (self : TradingBot.t T) (subscribed : bool) (w : TradingBot.World) :
  let config := TradingBot._config self in
  let seconds := BotConfig.poll_interval config in
  let result := TradingBot.iteration float_str self subscribed w in
  (forall msg,
     TradingBot.get_symbol_price w (BotConfig.symbol config)
     = Raise (TradingBotError msg) ->
     let update := BotUpdate.mk None HOLD None (Some msg) in
     result.1.1 = self
     /\ TradingBot.prices result.1.1 = TradingBot.prices self
     /\ TradingBot.emitted result.1.2 = (if subscribed then [update] else [])
     /\ TradingBot.quiet result.1.2
     /\ (TradingBot.callback w update = Ok tt -> TradingBot.sleep w seconds = Ok tt ->
         result.2 = TradingBot.Completed)
     /\ (forall e, result.2 = TradingBot.Escaped e ->
           TradingBot.callback w update = Raise e \/ TradingBot.sleep w seconds = Raise e))
  /\ (forall price signal msg,
        TradingBot.get_symbol_price w (BotConfig.symbol config) = Ok price ->
        strategy_evaluate (TradingBot._strategy self)
          (deque_append (TradingBot._prices self) price) = Ok signal ->
        signal = BUY \/ signal = SELL ->
        TradingBot.place_market_order w (BotConfig.symbol config) (signal_value signal)
          (BotConfig.trade_quantity config) (BotConfig.test_mode config)
        = Raise (TradingBotError msg) ->
        let update := BotUpdate.mk (Some price) signal None (Some msg) in
        TradingBot._prices result.1.1 = deque_append (TradingBot._prices self) price
        /\ TradingBot.trades result.1.1 = TradingBot.trades self
        /\ TradingBot.emitted result.1.2 = (if subscribed then [update] else [])
        /\ (TradingBot.callback w update = Ok tt -> TradingBot.sleep w seconds = Ok tt ->
            result.2 = TradingBot.Completed)
        /\ (forall e, result.2 = TradingBot.Escaped e ->
              TradingBot.callback w update = Raise e
              \/ TradingBot.sleep w seconds = Raise e))
  /\ (forall e,
        TradingBot.get_symbol_price w (BotConfig.symbol config) = Raise e ->
        is_TradingBotError e = false ->
        result = (self, [TradingBot.EvFetch (BotConfig.symbol config)],
                  TradingBot.Escaped e)
        /\ TradingBot.emitted result.1.2 = []
        /\ TradingBot.quiet result.1.2)
  /\ (forall price signal e,
        TradingBot.get_symbol_price w (BotConfig.symbol config) = Ok price ->
        strategy_evaluate (TradingBot._strategy self)
          (deque_append (TradingBot._prices self) price) = Ok signal ->
        signal = BUY \/ signal = SELL ->
        TradingBot.place_market_order w (BotConfig.symbol config) (signal_value signal)
          (BotConfig.trade_quantity config) (BotConfig.test_mode config)
        = Raise e ->
        is_TradingBotError e = false ->
        result.2 = TradingBot.Escaped e
        /\ result.1.1 = TradingBot.appended self price
        /\ TradingBot.trades result.1.1 = TradingBot.trades self
        /\ TradingBot.emitted result.1.2 = []
        /\ Forall (fun ev => forall seconds', ev <> TradingBot.EvSleep seconds') result.1.2).
Proof.
  intros config seconds result. split; [|split; [|split]].
  - intros msg Hfetch update. subst result.
    rewrite (iteration_fetch_failed float_str self subscribed w msg Hfetch).
    rewrite prepend_state, prepend_trace, prepend_end, emit_then_sleep_state.
    destruct (emit_then_sleep_trace self subscribed w update) as [Hem Hquiet].
    destruct (emit_then_sleep_end self subscribed w update) as [Hdone Hesc].
    repeat split; try assumption.
  - intros price signal msg Hfetch Heval Hsig Horder update. subst result.
    rewrite (iteration_order_failed float_str self subscribed w price signal msg
               Hfetch Heval Hsig Horder).
    rewrite prepend_state, prepend_trace, prepend_end, emit_then_sleep_state.
    destruct (emit_then_sleep_trace (TradingBot.appended self price) subscribed w update)
      as [Hem Hquiet].
    destruct (emit_then_sleep_end (TradingBot.appended self price) subscribed w update)
      as [Hdone Hesc].
    repeat split; try assumption.
  - intros e Hfetch Hother. subst result.
    rewrite (iteration_fetch_escapes float_str self subscribed w e Hfetch Hother).
    split; [reflexivity|]. split; [reflexivity|].
    reflexivity.
  - intros price signal e Hfetch Heval Hsig Horder Hother. subst result.
    rewrite (iteration_order_escapes float_str self subscribed w price signal e
               Hfetch Heval Hsig Horder Hother).
    split; [reflexivity|]. split; [reflexivity|]. split; [reflexivity|].
    split; [reflexivity|].
    simpl. repeat (apply Forall_cons; split; [intros ?; discriminate|]).
    apply Forall_nil_2.
Qed.

Lemma iteration_failures_witness :
  (let result :=
     TradingBot.iteration Sample.float_str Sample.bot true
       (Sample.world (Raise (TradingBotError "ticker down")) (Ok ∅) false) in
   result.1.1 = Sample.bot
   /\ TradingBot.emitted result.1.2 = [BotUpdate.mk None HOLD None (Some "ticker down")]
   /\ result.2 = TradingBot.Completed)
  /\ (let result :=
        TradingBot.iteration Sample.float_str Sample.bot true
          (Sample.world (Ok 4%Q) (Raise (TradingBotError "refused")) false) in
      TradingBot.prices result.1.1 = [3; 2; 1; 1; 4]%Q
      /\ TradingBot.emitted result.1.2
         = [BotUpdate.mk (Some 4%Q) BUY None (Some "refused")]
      /\ result.2 = TradingBot.Completed)
  /\ TradingBot.iteration Sample.float_str Sample.bot true
       (Sample.world (Raise (OtherException "connection reset")) (Ok ∅) false)
     = (Sample.bot, [TradingBot.EvFetch "BTCUSDT"],
        TradingBot.Escaped (OtherException "connection reset"))
  /\ (let result :=
        TradingBot.iteration Sample.float_str Sample.bot true
          (Sample.world (Ok 4%Q) (Raise (OtherException "connection reset")) false) in
      result.2 = TradingBot.Escaped (OtherException "connection reset")
      /\ TradingBot.prices result.1.1 = [3; 2; 1; 1; 4]%Q
      /\ TradingBot.emitted result.1.2 = []).
Proof.
  split; [|split; [|split]].
  - destruct (proj1 (iteration_failures Sample.float_str Sample.bot true
                       (Sample.world (Raise (TradingBotError "ticker down")) (Ok ∅) false))
                "ticker down" eq_refl)
      as (Hstate & _ & Hem & _ & Hdone & _).
    split; [exact Hstate|]. split; [exact Hem | exact (Hdone eq_refl eq_refl)].
  - destruct (proj1 (proj2 (iteration_failures Sample.float_str Sample.bot true
                       (Sample.world (Ok 4%Q) (Raise (TradingBotError "refused")) false)))
                4%Q BUY "refused" eq_refl eq_refl (or_introl eq_refl) eq_refl)
      as (Hprices & _ & Hem & Hdone & _).
    split; [|split; [exact Hem | exact (Hdone eq_refl eq_refl)]].
    unfold TradingBot.prices. rewrite Hprices. reflexivity.
  - apply (proj1 (proj2 (proj2 (iteration_failures Sample.float_str Sample.bot true
             (Sample.world (Raise (OtherException "connection reset")) (Ok ∅) false))))
             (OtherException "connection reset") eq_refl eq_refl).
  - destruct (proj2 (proj2 (proj2 (iteration_failures Sample.float_str Sample.bot true
                (Sample.world (Ok 4%Q) (Raise (OtherException "connection reset")) false))))
                4%Q BUY (OtherException "connection reset")
                eq_refl eq_refl (or_introl eq_refl) eq_refl eq_refl)
      as (Hend & Hstate & _ & Hem & _).
    split; [exact Hend|]. split; [|exact Hem]. rewrite Hstate. reflexivity.
Defined.

(** C5, as stated, fails when the failure is not a [TradingBotError]: a
    price fetch that raises a transport error publishes no update, and the
    exception leaves the pass and ends [run]; so does an order submission
    that raises one, which the claim says cannot happen. *)
Lemma iteration_failure_escapes_counterexample :
  (let w := Sample.world (Raise (OtherException "connection reset")) (Ok ∅) false in
   TradingBot.emitted (TradingBot.iteration Sample.float_str Sample.bot true w).1.2 = []
   /\ (TradingBot.iteration Sample.float_str Sample.bot true w).2
      = TradingBot.Escaped (OtherException "connection reset")
   /\ (TradingBot.run Sample.float_str Sample.bot true [w]).2
      = TradingBot.Raised (OtherException "connection reset"))
  /\ (let w := Sample.world (Ok 4%Q) (Raise (OtherException "connection reset")) false in
      TradingBot.emitted (TradingBot.iteration Sample.float_str Sample.bot true w).1.2 = []
      /\ (TradingBot.iteration Sample.float_str Sample.bot true w).2
         = TradingBot.Escaped (OtherException "connection reset")
      /\ (TradingBot.run Sample.float_str Sample.bot true [w]).2
         = TradingBot.Raised (OtherException "connection reset")).
Proof. repeat split; reflexivity. Qed.

(** ** bot.py: the loop and the trade history *)

Section LoopFacts.
Context {T : Type} `{StrategyLike T}.
Variable float_str : Q -> string.

(** The three states in which a pass can leave the bot. *)
Lemma iteration_state (self : TradingBot.t T) subscribed w :
  let self' := (TradingBot.iteration float_str self subscribed w).1.1 in
  self' = self
  \/ (exists price, self' = TradingBot.appended self price)
  \/ (exists price signal order,
        self' = TradingBot.set_trades
                  (TradingBot._trades self
                     ++ [TradingBot.recorded float_str self w signal price order])
                  (TradingBot.appended self price)).
Proof.
  unfold TradingBot.iteration, TradingBot.fetch_price, TradingBot.execute_trade.
  repeat case_match; simplify_eq;
    rewrite ?prepend_state, ?emit_then_sleep_state; simpl; eauto 10.
Qed.

Lemma iteration_running (self : TradingBot.t T) subscribed w :
  TradingBot._running (TradingBot.iteration float_str self subscribed w).1.1
  = TradingBot._running self.
Proof.
  destruct (iteration_state self subscribed w)
    as [-> | [(p & ->) | (p & s & o & ->)]]; reflexivity.
Qed.

Lemma iteration_trades (self : TradingBot.t T) subscribed w :
  TradingBot._trades self
    `prefix_of` TradingBot._trades (TradingBot.iteration float_str self subscribed w).1.1.
Proof.
  destruct (iteration_state self subscribed w)
    as [-> | [(p & ->) | (p & s & o & ->)]]; simpl;
    [done | done | by apply prefix_app_r].
Qed.

(** The calls of other coroutines touch nothing but the flag. *)
Lemma apply_calls_flag (self : TradingBot.t T) (cs : list TradingBot.flag_call) :
  foldl TradingBot.apply_call self cs
  = TradingBot.set_running (TradingBot._running (foldl TradingBot.apply_call self cs)) self.
Proof.
  revert self. induction cs as [|c cs IH]; intros self; simpl.
  - by destruct self.
  - rewrite IH. destruct c; simpl; [reflexivity|].
    destruct (TradingBot._running self) eqn:Hrun; [|reflexivity].
    destruct self; simpl in *; by subst.
Qed.

Lemma observe_calls_flag (self : TradingBot.t T) w :
  TradingBot.observe_calls w self
  = TradingBot.set_running (TradingBot._running (TradingBot.observe_calls w self)) self.
Proof. apply apply_calls_flag. Qed.

Lemma observe_calls_trades (self : TradingBot.t T) w :
  TradingBot._trades (TradingBot.observe_calls w self) = TradingBot._trades self.
Proof. by rewrite observe_calls_flag. Qed.

Lemma observe_calls_prices (self : TradingBot.t T) w :
  TradingBot._prices (TradingBot.observe_calls w self) = TradingBot._prices self
  /\ TradingBot._config (TradingBot.observe_calls w self) = TradingBot._config self.
Proof. by rewrite observe_calls_flag. Qed.

Lemma observe_calls_none (self : TradingBot.t T) w :
  TradingBot.calls w = [] -> TradingBot.observe_calls w self = self.
Proof. unfold TradingBot.observe_calls. by intros ->. Qed.

(** When [stop()] is the last call, the flag is found cleared. *)
Lemma observe_calls_stop_last (self : TradingBot.t T) w :
  TradingBot.stop_last w = true ->
  TradingBot._running (TradingBot.observe_calls w self) = false.
Proof.
  unfold TradingBot.stop_last, TradingBot.observe_calls.
  destruct (TradingBot.calls w) as [|c cs] using rev_ind; [discriminate|].
  rewrite last_snoc, foldl_snoc. by destruct c.
Qed.

(** When [run()] is the last call, the flag is found set. *)
Lemma observe_calls_run_last (self : TradingBot.t T) w :
  last (TradingBot.calls w) = Some TradingBot.CallRun ->
  TradingBot._running (TradingBot.observe_calls w self) = true.
Proof.
  unfold TradingBot.observe_calls.
  destruct (TradingBot.calls w) as [|c cs] using rev_ind; [discriminate|].
  rewrite last_snoc, foldl_snoc. intros [= ->]. simpl.
  by destruct (TradingBot._running (foldl TradingBot.apply_call self cs)) eqn:Hrun.
Qed.

Lemma loop_trades (self : TradingBot.t T) subscribed ws :
  TradingBot._trades self
    `prefix_of` TradingBot._trades (TradingBot.loop float_str self subscribed ws).1.1.
Proof.
  revert self. induction ws as [|w ws IH]; intros self; simpl.
  - by destruct (negb _).
  - destruct (negb _); [done|].
    pose proof (iteration_trades self subscribed w) as Hpass.
    destruct (TradingBot.iteration float_str self subscribed w) as [[self' tr] [|e]];
      simpl in *.
    + specialize (IH (TradingBot.observe_calls w self')).
      destruct (TradingBot.loop float_str _ subscribed ws) as [[self'' tr'] e'].
      simpl in *. rewrite observe_calls_trades in IH. by etrans.
    + by rewrite observe_calls_trades.
Qed.

Lemma run_trades (self : TradingBot.t T) subscribed ws :
  TradingBot._trades self
    `prefix_of` TradingBot._trades (TradingBot.run float_str self subscribed ws).1.1.
Proof.
  unfold TradingBot.run. destruct (TradingBot._running self) eqn:Hrun; [done|].
  pose proof (loop_trades (TradingBot.set_running true self) subscribed ws) as Hloop.
  destruct (TradingBot.loop float_str _ subscribed ws) as [[self' tr] [|e|]];
    simpl in *; done.
Qed.

(** The loop is left, normally or not, with nothing pending, or it is
    still running. *)
Lemma loop_waiting_running (self : TradingBot.t T) subscribed ws :
  (TradingBot.loop float_str self subscribed ws).2 = TradingBot.LoopWaiting ->
  TradingBot._running (TradingBot.loop float_str self subscribed ws).1.1 = true.
Proof.
  revert self. induction ws as [|w ws IH]; intros self; simpl.
  - destruct (TradingBot._running self) eqn:Hrun; simpl; [done | discriminate].
  - destruct (TradingBot._running self) eqn:Hrun; simpl; [|discriminate].
    destruct (TradingBot.iteration float_str self subscribed w) as [[self' tr] [|e]];
      [|discriminate].
    specialize (IH (TradingBot.observe_calls w self')).
    destruct (TradingBot.loop float_str _ subscribed ws) as [[self'' tr'] e'].
    exact IH.
Qed.

(** A pass after which [stop()] was the last call ends the loop: it does
    not wait for more. *)
Lemma loop_stops (self : TradingBot.t T) subscribed ws :
  Exists (fun w => TradingBot.stop_last w = true) ws ->
  (TradingBot.loop float_str self subscribed ws).2 <> TradingBot.LoopWaiting.
Proof.
  intros Hstop. revert self.
  induction Hstop as [w ws Hw | w ws Hex IH]; intros self; simpl.
  - destruct (negb _); [discriminate|].
    destruct (TradingBot.iteration float_str self subscribed w) as [[self' tr] [|e]];
      [|discriminate].
    pose proof (observe_calls_stop_last self' w Hw) as Hflag.
    destruct ws; simpl; rewrite Hflag; simpl; discriminate.
  - destruct (negb _); [discriminate|].
    destruct (TradingBot.iteration float_str self subscribed w) as [[self' tr] [|e]];
      [|discriminate].
    specialize (IH (TradingBot.observe_calls w self')).
    destruct (TradingBot.loop float_str _ subscribed ws) as [[self'' tr'] e'].
    exact IH.
Qed.

Lemma passes_app (tr tr' : list TradingBot.event) :
  TradingBot.passes (tr ++ tr') = (TradingBot.passes tr + TradingBot.passes tr')%nat.
Proof. unfold TradingBot.passes. by rewrite filter_app, length_app. Qed.

(** The loop makes at most one pass per world, and one per world while it
    is still running. *)
Lemma loop_passes (self : TradingBot.t T) subscribed ws :
  (TradingBot.passes (TradingBot.loop float_str self subscribed ws).1.2 <= length ws)%nat
  /\ ((TradingBot.loop float_str self subscribed ws).2 = TradingBot.LoopWaiting ->
      TradingBot.passes (TradingBot.loop float_str self subscribed ws).1.2 = length ws).
Proof.
  revert self. induction ws as [|w ws IH]; intros self; simpl.
  - destruct (negb _); simpl; split; done.
  - destruct (negb _); simpl; [split; [unfold TradingBot.passes; simpl; lia | discriminate]|].
    pose proof (iteration_passes float_str self subscribed w) as Hpass.
    destruct (TradingBot.iteration float_str self subscribed w) as [[self' tr] [|e]];
      simpl in *.
    + destruct (IH (TradingBot.observe_calls w self')) as [Hle Hwait].
      destruct (TradingBot.loop float_str _ subscribed ws) as [[self'' tr'] e'].
      simpl in *. rewrite passes_app, Hpass. split; [lia|].
      intros He. rewrite (Hwait He). reflexivity.
    + split; [lia | discriminate].
Qed.

(** The loop is left by [LoopLeft] only when the flag was found cleared. *)
Lemma loop_left_cleared (self : TradingBot.t T) subscribed ws :
  (TradingBot.loop float_str self subscribed ws).2 = TradingBot.LoopLeft ->
  TradingBot._running (TradingBot.loop float_str self subscribed ws).1.1 = false.
Proof.
  revert self. induction ws as [|w ws IH]; intros self; simpl.
  - destruct (TradingBot._running self) eqn:Hrun; simpl; [discriminate | done].
  - destruct (TradingBot._running self) eqn:Hrun; simpl; [|done].
    destruct (TradingBot.iteration float_str self subscribed w) as [[self' tr] [|e]];
      [|discriminate].
    specialize (IH (TradingBot.observe_calls w self')).
    destruct (TradingBot.loop float_str _ subscribed ws) as [[self'' tr'] e'].
    exact IH.
Qed.
End LoopFacts.

(** C6.  In a pass where the signal is BUY or SELL and the order is
    accepted, exactly one [Trade] is appended to the trade history, with the
    signal as its side, the configured trade quantity, and the price sampled
    in this pass whatever the exchange's answer contains.  No operation
    removes or changes a recorded trade: the history before is a prefix of
    the history after. *)
Theorem successful_order_appends_one_trade
    {T : Type} `{StrategyLike T} (float_str : Q -> string) :
  (forall (self : TradingBot.t T) subscribed w price signal order,
     let config := TradingBot._config self in
     TradingBot.get_symbol_price w (BotConfig.symbol config) = Ok price ->
     strategy_evaluate (TradingBot._strategy self)
       (deque_append (TradingBot._prices self) price) = Ok signal ->
     signal = BUY \/ signal = SELL ->
     TradingBot.place_market_order w (BotConfig.symbol config) (signal_value signal)
       (BotConfig.trade_quantity config) (BotConfig.test_mode config) = Ok order ->
     let result := TradingBot.iteration float_str self subscribed w in
     exists trade,
       TradingBot.trades result.1.1 = TradingBot.trades self ++ [trade]
       /\ Trade.side trade = signal
       /\ Trade.quantity trade = BotConfig.trade_quantity config
       /\ Trade.price trade = price
       /\ TradingBot.emitted result.1.2
          = (if subscribed
             then [BotUpdate.mk (Some price) signal (Some trade) None] else []))
  /\ (forall (self : TradingBot.t T) subscribed w,
        TradingBot.trades self
          `prefix_of` TradingBot.trades (TradingBot.iteration float_str self subscribed w).1.1)
  /\ (forall (self : TradingBot.t T) subscribed ws,
        TradingBot.trades self
          `prefix_of` TradingBot.trades (TradingBot.run float_str self subscribed ws).1.1)
  /\ (forall (self : TradingBot.t T) w signal price,
        TradingBot.trades self
          `prefix_of` TradingBot.trades
                        (TradingBot.execute_trade float_str self w signal price).1)
  /\ (forall (self : TradingBot.t T) w,
        TradingBot.trades (TradingBot.fetch_price self w).1 = TradingBot.trades self)
  /\ (forall self : TradingBot.t T,
        TradingBot.trades (TradingBot.stop self) = TradingBot.trades self).
Proof.
  split; [|split; [|split; [|split; [|split]]]].
  - intros self subscribed w price signal order config Hfetch Heval Hsig Horder result.
    exists (TradingBot.recorded float_str self w signal price order).
    subst result.
    rewrite (iteration_order_placed float_str self subscribed w price signal order
               Hfetch Heval Hsig Horder).
    rewrite prepend_state, prepend_trace, emit_then_sleep_state.
    split; [reflexivity|]. split; [reflexivity|]. split; [reflexivity|].
    split; [reflexivity|].
    apply emit_then_sleep_trace.
  - intros self subscribed w. apply iteration_trades.
  - intros self subscribed ws. apply run_trades.
  - intros self w signal price. unfold TradingBot.execute_trade.
    destruct (TradingBot.place_market_order w _ _ _ _); simpl; [|done].
    by apply prefix_app_r.
  - intros self w. unfold TradingBot.fetch_price.
    by destruct (TradingBot.get_symbol_price w _).
  - reflexivity.
Qed.

Lemma successful_order_appends_one_trade_witness :
  exists trade,
    TradingBot.trades
      (TradingBot.iteration Sample.float_str Sample.bot true
         (Sample.world (Ok 4%Q) (Ok Sample.filled_order) false)).1.1 = [trade]
    /\ Trade.side trade = BUY
    /\ Trade.quantity trade = (1 # 1000)%Q
    /\ Trade.price trade = 4%Q.
Proof.
  destruct (proj1 (successful_order_appends_one_trade Sample.float_str)
              Sample.bot true (Sample.world (Ok 4%Q) (Ok Sample.filled_order) false)
              4%Q BUY Sample.filled_order eq_refl eq_refl (or_introl eq_refl) eq_refl)
    as (trade & Htrades & Hside & Hqty & Hprice & _).
  exists trade. split; [exact Htrades|]. split; [exact Hside|].
  split; [exact Hqty | exact Hprice].
Defined.

(** C10.  When the order returned by the client has no [status] key,
    [execute_trade] records the trade with status FILLED, and when it has no
    [orderId] key the trade has no order identifier; in neither case does it
    raise.  A result of the client's test mode always has status TEST (and
    no [orderId]), so a missing status can only come from the live path. *)
Theorem execute_trade_missing_fields
    {T : Type} `{StrategyLike T} (float_str : Q -> string)
    (self : TradingBot.t T) (w : TradingBot.World) (signal : TradeSignal) (price : Q)
    (order : gmap string pyval) :
  let config := TradingBot._config self in
  TradingBot.place_market_order w (BotConfig.symbol config) (signal_value signal)
    (BotConfig.trade_quantity config) (BotConfig.test_mode config) = Ok order ->
  exists trade,
    TradingBot.execute_trade float_str self w signal price
    = (TradingBot.set_trades (TradingBot._trades self ++ [trade]) self, Ok trade)
    /\ (order !! "status" = None -> Trade.status trade = "FILLED")
    /\ (order !! "orderId" = None -> Trade.order_id trade = None)
    /\ (forall client ex symbol side quantity quote,
          snd (BinanceClient.place_market_order float_str client ex symbol side
                 quantity quote true) = Ok order ->
          order !! "status" = Some (PStr "TEST")
          /\ Trade.status trade = "TEST"
          /\ Trade.order_id trade = None).
Proof.
  intros config Horder. subst config.
  exists (TradingBot.recorded float_str self w signal price order).
  split; [|split; [|split]].
  - unfold TradingBot.execute_trade. rewrite Horder. reflexivity.
  - intros Hstatus. simpl. unfold TradingBot.order_status. rewrite Hstatus. reflexivity.
  - intros Hid. simpl. unfold TradingBot.order_order_id. rewrite Hid. reflexivity.
  - intros client ex symbol side quantity quote Htest.
    apply place_market_order_test_result in Htest. subst order.
    split; [apply test_result_status|]. split; reflexivity.
Qed.

Lemma execute_trade_missing_fields_witness :
  exists trade,
    TradingBot.execute_trade Sample.float_str Sample.bot
      (Sample.world (Ok 4%Q) (Ok (<["executedQty" := PStr "0.001"]> ∅)) false) SELL 4%Q
    = (TradingBot.set_trades [trade] Sample.bot, Ok trade)
    /\ Trade.status trade = "FILLED"
    /\ Trade.order_id trade = None.
Proof.
  destruct (execute_trade_missing_fields Sample.float_str Sample.bot
              (Sample.world (Ok 4%Q) (Ok (<["executedQty" := PStr "0.001"]> ∅)) false)
              SELL 4%Q (<["executedQty" := PStr "0.001"]> ∅) eq_refl)
    as (trade & Hexec & Hstatus & Hid & _).
  exists trade. split; [exact Hexec|].
  split; [exact (Hstatus eq_refl) | exact (Hid eq_refl)].
Defined.

(** C8.  A bot starts stopped.  [run] on a stopped bot sets the flag and
    enters the loop: with nothing met yet it is suspended there with the
    flag set, and otherwise its first act is to ask for the price.  While
    it is suspended in the loop the flag is set and one pass was made per
    world.  [run] on a running bot returns at once, changing nothing and
    making no pass, so a second start while the first loop is alive starts
    no second loop.  [stop] on a stopped bot changes nothing and cannot
    raise, and always leaves the flag false.  [run] on a stopped bot either
    is still suspended in its loop with the flag set, or has ended, by
    return or by an escaping exception, with the flag false; an exception
    that leaves a pass ends [run] with that exception and the flag false;
    and [run] does end once [stop()] was the last call on the flag during a
    pass, whereas a [run()] called after that [stop()], before the loop
    tests the flag, sets it again and the loop goes on. *)
Theorem running_state_machine
    {T : Type} `{StrategyLike T} (float_str : Q -> string) :
  (forall strategy config (self : TradingBot.t T),
     TradingBot.init strategy config = Ok self -> TradingBot.is_running self = false)
  /\ (forall (self : TradingBot.t T) subscribed,
        TradingBot.is_running self = false ->
        TradingBot.run float_str self subscribed []
        = (TradingBot.set_running true self, [], TradingBot.Waiting)
        /\ forall w ws, exists tr,
             (TradingBot.run float_str self subscribed (w :: ws)).1.2
             = TradingBot.EvFetch (BotConfig.symbol (TradingBot._config self)) :: tr)
  /\ (forall (self : TradingBot.t T) subscribed ws,
        (TradingBot.run float_str self subscribed ws).2 = TradingBot.Waiting ->
        TradingBot.is_running self = false
        /\ TradingBot.is_running (TradingBot.run float_str self subscribed ws).1.1 = true
        /\ TradingBot.passes (TradingBot.run float_str self subscribed ws).1.2 = length ws)
  /\ (forall (self : TradingBot.t T) subscribed ws,
        TradingBot.is_running self = true ->
        TradingBot.run float_str self subscribed ws = (self, [], TradingBot.AlreadyRunning))
  /\ (forall (self : TradingBot.t T) subscribed ws,
        (TradingBot.run float_str self subscribed ws).2 = TradingBot.Waiting ->
        forall subscribed' ws',
          TradingBot.run float_str (TradingBot.run float_str self subscribed ws).1.1
            subscribed' ws'
          = ((TradingBot.run float_str self subscribed ws).1.1, [],
             TradingBot.AlreadyRunning))
  /\ (forall self : TradingBot.t T,
        TradingBot.is_running self = false -> TradingBot.stop self = self)
  /\ (forall self : TradingBot.t T, TradingBot.is_running (TradingBot.stop self) = false)
  /\ (forall (self : TradingBot.t T) subscribed ws,
        let result := TradingBot.run float_str self subscribed ws in
        result.2 = TradingBot.Returned \/ (exists e, result.2 = TradingBot.Raised e) ->
        TradingBot.is_running result.1.1 = false)
  /\ (forall (self : TradingBot.t T) subscribed ws,
        TradingBot.is_running self = false ->
        let result := TradingBot.run float_str self subscribed ws in
        (result.2 = TradingBot.Waiting /\ TradingBot.is_running result.1.1 = true)
        \/ ((result.2 = TradingBot.Returned \/ exists e, result.2 = TradingBot.Raised e)
            /\ TradingBot.is_running result.1.1 = false))
  /\ (forall (self : TradingBot.t T) subscribed w ws e,
        TradingBot.is_running self = false ->
        (TradingBot.iteration float_str (TradingBot.set_running true self) subscribed w).2
        = TradingBot.Escaped e ->
        let result := TradingBot.run float_str self subscribed (w :: ws) in
        result.2 = TradingBot.Raised e /\ TradingBot.is_running result.1.1 = false)
  /\ (forall (self : TradingBot.t T) subscribed ws,
        TradingBot.is_running self = false ->
        Exists (fun w => TradingBot.stop_last w = true) ws ->
        let result := TradingBot.run float_str self subscribed ws in
        (result.2 = TradingBot.Returned \/ exists e, result.2 = TradingBot.Raised e)
        /\ TradingBot.is_running result.1.1 = false)
  /\ (forall (self : TradingBot.t T) subscribed w,
        TradingBot.is_running self = false ->
        (TradingBot.iteration float_str (TradingBot.set_running true self) subscribed w).2
        = TradingBot.Completed ->
        last (TradingBot.calls w) = Some TradingBot.CallRun ->
        let result := TradingBot.run float_str self subscribed [w] in
        result.2 = TradingBot.Waiting /\ TradingBot.is_running result.1.1 = true).
Proof.
  assert (Hexit : forall (self : TradingBot.t T) subscribed ws,
            let result := TradingBot.run float_str self subscribed ws in
            result.2 = TradingBot.Returned \/ (exists e, result.2 = TradingBot.Raised e) ->
            TradingBot.is_running result.1.1 = false).
  { intros self subscribed ws. unfold TradingBot.run, TradingBot.is_running.
    destruct (TradingBot._running self) eqn:Hrun; simpl.
    - intros [Hr | [e Hr]]; discriminate.
    - destruct (TradingBot.loop float_str _ subscribed ws) as [[self' tr] [|e|]]; simpl;
        try reflexivity.
      intros [Hr | [e Hr]]; discriminate. }
  assert (Hwaiting : forall (self : TradingBot.t T) subscribed ws,
            (TradingBot.run float_str self subscribed ws).2 = TradingBot.Waiting ->
            TradingBot._running self = false
            /\ TradingBot._running (TradingBot.run float_str self subscribed ws).1.1 = true
            /\ TradingBot.passes (TradingBot.run float_str self subscribed ws).1.2
               = length ws).
  { intros self subscribed ws. unfold TradingBot.run.
    destruct (TradingBot._running self) eqn:Hself; simpl; [discriminate|].
    pose proof (loop_waiting_running float_str (TradingBot.set_running true self)
                  subscribed ws) as Hloop.
    pose proof (loop_passes float_str (TradingBot.set_running true self)
                  subscribed ws) as [_ Hpasses].
    destruct (TradingBot.loop float_str _ subscribed ws) as [[self' tr] [|e|]];
      simpl in *; try discriminate.
    intros _. split; [reflexivity|]. split; [by apply Hloop | by apply Hpasses]. }
  split; [|split; [|split; [|split; [|split; [|split; [|split; [|split;
    [|split; [|split; [|split]]]]]]]]]].
  - intros strategy config self. unfold TradingBot.init.
    destruct (_ || _); [discriminate|].
    destruct (_ <? 0); [discriminate|]. by intros [= <-].
  - intros self subscribed Hstopped. unfold TradingBot.is_running in Hstopped.
    split.
    + unfold TradingBot.run. rewrite Hstopped. reflexivity.
    + intros w ws. unfold TradingBot.run. rewrite Hstopped. simpl.
      assert (Hfirst : exists tr,
                (TradingBot.iteration float_str (TradingBot.set_running true self)
                   subscribed w).1.2
                = TradingBot.EvFetch (BotConfig.symbol (TradingBot._config self)) :: tr).
      { unfold TradingBot.iteration, TradingBot.fetch_price, TradingBot.execute_trade,
          TradingBot.prepend.
        repeat case_match; simplify_eq; simpl; eexists; reflexivity. }
      destruct Hfirst as [tr0 Htr0].
      destruct (TradingBot.iteration float_str _ subscribed w) as [[self' tr] [|e]];
        simpl in *; subst tr.
      * destruct (TradingBot.loop float_str _ subscribed ws) as [[self'' tr'] [|e'|]];
          simpl; eexists; reflexivity.
      * eexists; reflexivity.
  - exact Hwaiting.
  - intros self subscribed ws Hrun. unfold TradingBot.run.
    unfold TradingBot.is_running in Hrun. by rewrite Hrun.
  - intros self subscribed ws Hwait subscribed' ws'.
    destruct (Hwaiting self subscribed ws Hwait) as (_ & Hrun & _).
    unfold TradingBot.run at 1. by rewrite Hrun.
  - intros [s c r p t] Hrun. unfold TradingBot.is_running in Hrun. simpl in Hrun.
    subst r. reflexivity.
  - reflexivity.
  - exact Hexit.
  - intros self subscribed ws Hstopped result.
    destruct (result.2) eqn:Hend.
    + subst result. revert Hend. unfold TradingBot.run.
      unfold TradingBot.is_running in Hstopped. rewrite Hstopped.
      destruct (TradingBot.loop float_str _ subscribed ws) as [[self' tr] [|e|]];
        discriminate.
    + right. split; [by left|]. apply Hexit. by left.
    + right. split; [right; by exists e|]. apply Hexit. right. by exists e.
    + left. split; [reflexivity|].
      by destruct (Hwaiting self subscribed ws Hend) as (_ & Hrun & _).
  - intros self subscribed w ws e Hstopped Hesc result.
    assert (Hend : result.2 = TradingBot.Raised e).
    { subst result. unfold TradingBot.run.
      unfold TradingBot.is_running in Hstopped. rewrite Hstopped. simpl.
      destruct (TradingBot.iteration float_str _ subscribed w) as [[self' tr] [|e']];
        simpl in *; [discriminate|]. by injection Hesc as ->. }
    split; [exact Hend|]. apply Hexit. right. by exists e.
  - intros self subscribed ws Hstopped Hstop result.
    assert (Hend : result.2 = TradingBot.Returned
                   \/ exists e, result.2 = TradingBot.Raised e).
    { subst result. unfold TradingBot.run.
      unfold TradingBot.is_running in Hstopped. rewrite Hstopped.
      pose proof (loop_stops float_str (TradingBot.set_running true self)
                    subscribed ws Hstop) as Hloop.
      destruct (TradingBot.loop float_str _ subscribed ws) as [[self' tr] [|e|]];
        simpl in *; [by left | right; by exists e | done]. }
    split; [exact Hend | by apply Hexit].
  - intros self subscribed w Hstopped Hdone Hlast result.
    subst result. unfold TradingBot.run, TradingBot.is_running.
    unfold TradingBot.is_running in Hstopped. rewrite Hstopped. simpl.
    destruct (TradingBot.iteration float_str _ subscribed w) as [[self' tr] [|e']];
      simpl in *; [|discriminate].
    rewrite (observe_calls_run_last self' w Hlast). simpl.
    split; [reflexivity|]. by apply observe_calls_run_last.
Qed.

Lemma running_state_machine_witness :
  (TradingBot.run Sample.float_str Sample.bot true []
   = (TradingBot.set_running true Sample.bot, [], TradingBot.Waiting))
  /\ (let result :=
        TradingBot.run Sample.float_str Sample.bot true
          [Sample.world (Ok 1%Q) (Ok ∅) false; Sample.world (Ok 1%Q) (Ok ∅) false] in
      TradingBot.is_running result.1.1 = true
      /\ TradingBot.passes result.1.2 = 2%nat
      /\ TradingBot.run Sample.float_str result.1.1 true
           [Sample.world (Ok 4%Q) (Ok Sample.filled_order) false]
         = (result.1.1, [], TradingBot.AlreadyRunning))
  /\ (let result :=
        TradingBot.run Sample.float_str Sample.bot true
          [Sample.world (Ok 1%Q) (Ok ∅) false; Sample.world (Ok 1%Q) (Ok ∅) true] in
      (result.2 = TradingBot.Returned \/ exists e, result.2 = TradingBot.Raised e)
      /\ TradingBot.is_running result.1.1 = false)
  /\ (let result :=
        TradingBot.run Sample.float_str Sample.repo_bot true
          [Sample.world (Ok 2%Q) (Ok ∅) false] in
      result.2 = TradingBot.Raised (TypeError "sequence index must be integer, not 'slice'")
      /\ TradingBot.is_running result.1.1 = false)
  /\ (let result :=
        TradingBot.run Sample.float_str Sample.bot true
          [TradingBot.mkWorld (fun _ => Ok 1%Q) (fun _ _ _ _ => Ok ∅) 1700000000
             (fun _ => Ok tt) (fun _ => Ok tt)
             [TradingBot.CallStop; TradingBot.CallRun]] in
      result.2 = TradingBot.Waiting /\ TradingBot.is_running result.1.1 = true)
  /\ TradingBot.stop Sample.bot = Sample.bot.
Proof.
  pose proof (running_state_machine Sample.float_str (T := ListStrategy))
    as (_ & Hstart & Hwait & _ & Hsecond & Hstop & _ & _ & _ & _ & Hstops & Hrearm).
  pose proof (running_state_machine Sample.float_str (T := MovingAverageStrategy))
    as (_ & _ & _ & _ & _ & _ & _ & _ & _ & Hescape & _).
  split; [|split; [|split; [|split; [|split]]]].
  - apply (Hstart Sample.bot true). reflexivity.
  - cbv zeta.
    destruct (Hwait Sample.bot true
                [Sample.world (Ok 1%Q) (Ok ∅) false; Sample.world (Ok 1%Q) (Ok ∅) false]
                ltac:(reflexivity)) as (_ & Hrun & Hpasses).
    split; [exact Hrun|]. split; [exact Hpasses|].
    apply Hsecond. reflexivity.
  - apply (Hstops Sample.bot true); [reflexivity|].
    apply Exists_cons_tl, Exists_cons_hd. reflexivity.
  - apply (Hescape Sample.repo_bot true); reflexivity.
  - apply (Hrearm Sample.bot true); reflexivity.
  - apply Hstop. reflexivity.
Defined.

(** ** The strategy on the bot's own history

    [run] hands the deque itself to [evaluate].  Once the deque holds
    [long_window + 1] samples the slice subscripts are reached and raise
    [TypeError], which is not caught by the loop. *)
Remark evaluate_on_deque_raises (self : MovingAverageStrategy) (prices : deque) :
  long_window self + 1 <= Z.of_nat (length (dq_items prices)) ->
  evaluate self prices
  = Raise (TypeError "sequence index must be integer, not 'slice'").
Proof.
  intros Hlen. unfold evaluate. simpl.
  destruct (Z.ltb_spec (Z.of_nat (length (dq_items prices))) (long_window self + 1));
    [lia | reflexivity].
Qed.

Remark repo_bot_21st_sample :
  TradingBot.run Sample.float_str Sample.repo_bot true [Sample.world (Ok 2%Q) (Ok ∅) false]
  = (TradingBot.appended Sample.repo_bot 2%Q,
     [TradingBot.EvFetch "BTCUSDT"; TradingBot.EvEvaluate (replicate 20 1%Q ++ [2%Q])],
     TradingBot.Raised (TypeError "sequence index must be integer, not 'slice'")).
Proof. reflexivity. Qed.

(** * Further properties of the code *)

(** ** strategy.py: [evaluate] on lists *)

Lemma last_n_app {A} (pre l : list A) (k : nat) :
  (k <= length l)%nat -> last_n k (pre ++ l) = last_n k l.
Proof.
  intros Hk. unfold last_n. rewrite length_app.
  replace (length pre + length l - k)%nat with (length pre + (length l - k))%nat by lia.
  by rewrite drop_app_add.
Qed.

Lemma previous_n_app {A} (pre l : list A) (k : nat) :
  (k + 1 <= length l)%nat -> previous_n k (pre ++ l) = previous_n k l.
Proof.
  intros Hk. unfold previous_n. rewrite length_app.
  replace (length pre + length l - 1)%nat with (length pre + (length l - 1))%nat by lia.
  rewrite take_app_add. apply last_n_app. rewrite length_take. lia.
Qed.

Lemma previous_n_snoc {A} (l : list A) (x : A) (k : nat) :
  previous_n k (l ++ [x]) = last_n k l.
Proof.
  unfold previous_n. rewrite length_app. simpl.
  replace (length l + 1 - 1)%nat with (length l) by lia.
  by rewrite take_app_length.
Qed.

(** [evaluate] on a long enough list, in closed form. *)
Lemma evaluate_long (sw lw : Z) (prices : list Q) :
  0 < sw -> sw < lw -> lw + 1 <= Z.of_nat (length prices) ->
  evaluate (Strategy sw lw) prices
  = Ok (decide_signal (mean_of (last_n (Z.to_nat sw) prices))
                      (mean_of (last_n (Z.to_nat lw) prices))
                      (mean_of (previous_n (Z.to_nat sw) prices))
                      (mean_of (previous_n (Z.to_nat lw) prices))).
Proof.
  intros Hsw Hlt Hlong. unfold evaluate. simpl.
  destruct (Z.ltb_spec (Z.of_nat (length prices)) (lw + 1)); [lia|].
  rewrite !py_slice_last, !py_slice_previous by lia.
  unfold mbind, outcome_bind, obind.
  rewrite (mean_nonempty (last_n (Z.to_nat sw) prices)).
  2:{ eapply nonempty_of_length; [apply last_n_length|]; lia. }
  rewrite (mean_nonempty (last_n (Z.to_nat lw) prices)).
  2:{ eapply nonempty_of_length; [apply last_n_length|]; lia. }
  rewrite (mean_nonempty (previous_n (Z.to_nat sw) prices)).
  2:{ eapply nonempty_of_length; [apply previous_n_length|]; lia. }
  rewrite (mean_nonempty (previous_n (Z.to_nat lw) prices)).
  2:{ eapply nonempty_of_length; [apply previous_n_length|]; lia. }
  reflexivity.
Qed.

(** X1.  With windows [0 < sw < lw], the signal depends only on the last
    [lw + 1] samples: older samples put in front of a list that already has
    [lw + 1] of them do not change what [evaluate] returns. *)
Theorem evaluate_ignores_older_samples (sw lw : Z) (older prices : list Q) :
  0 < sw -> sw < lw -> lw + 1 <= Z.of_nat (length prices) ->
  evaluate (Strategy sw lw) (older ++ prices) = evaluate (Strategy sw lw) prices.
Proof.
  intros Hsw Hlt Hlong.
  rewrite !evaluate_long; try lia.
  - rewrite !last_n_app, !previous_n_app by lia. reflexivity.
  - rewrite length_app. lia.
Qed.

Lemma evaluate_ignores_older_samples_witness :
  evaluate (Strategy 2 3) ([9; 9; 9] ++ [2; 1; 1; 4])%Q
  = evaluate (Strategy 2 3) [2; 1; 1; 4]%Q.
Proof. apply evaluate_ignores_older_samples; simpl; lia. Defined.

(** X2.  A crossing is signalled once: with windows [0 < sw < lw], when
    [evaluate] returns BUY on a list it does not return BUY again on the
    list extended by one sample, whatever that sample is; the same holds
    for SELL. *)
Theorem evaluate_no_repeated_signal (sw lw : Z) (prices : list Q) (x : Q) :
  0 < sw -> sw < lw ->
  (evaluate (Strategy sw lw) prices = Ok BUY ->
   evaluate (Strategy sw lw) (prices ++ [x]) <> Ok BUY)
  /\ (evaluate (Strategy sw lw) prices = Ok SELL ->
      evaluate (Strategy sw lw) (prices ++ [x]) <> Ok SELL).
Proof.
  intros Hsw Hlt.
  assert (Hshort : Z.of_nat (length prices) < lw + 1 ->
                   evaluate (Strategy sw lw) prices = Ok HOLD).
  { intros Hs. unfold evaluate. simpl.
    destruct (Z.ltb_spec (Z.of_nat (length prices)) (lw + 1)); [reflexivity | lia]. }
  destruct (Z.lt_ge_cases (Z.of_nat (length prices)) (lw + 1)) as [Hs|Hlong].
  { rewrite (Hshort Hs). split; discriminate. }
  rewrite (evaluate_long sw lw prices) by lia.
  rewrite (evaluate_long sw lw (prices ++ [x])) by (rewrite ?length_app; simpl; lia).
  rewrite !previous_n_snoc.
  split; intros Hfirst Hsecond; injection Hfirst as Hfirst; injection Hsecond as Hsecond.
  - apply decide_signal_BUY in Hfirst as [Hup _].
    apply decide_signal_BUY in Hsecond as [_ Hnot].
    exact (Qlt_not_le _ _ Hup Hnot).
  - apply decide_signal_SELL in Hfirst as [Hdown _].
    apply decide_signal_SELL in Hsecond as [_ Hnot].
    exact (Qlt_not_le _ _ Hdown Hnot).
Qed.

Lemma evaluate_no_repeated_signal_witness :
  evaluate (Strategy 2 3) ([3; 2; 1; 1; 4] ++ [9])%Q <> Ok BUY.
Proof.
  apply (proj1 (evaluate_no_repeated_signal 2 3 [3; 2; 1; 1; 4]%Q 9%Q
                  ltac:(lia) ltac:(lia))).
  reflexivity.
Defined.

Lemma Qsum_replicate (k : nat) (c : Q) :
  (Qsum (replicate k c) == inject_Z (Z.of_nat k) * c)%Q.
Proof.
  induction k as [|k IH].
  - simpl. ring.
  - change (replicate (S k) c) with (c :: replicate k c). simpl Qsum.
    rewrite IH, Nat2Z.inj_succ. unfold Z.succ. rewrite inject_Z_plus. ring.
Qed.

Lemma mean_of_replicate (k : nat) (c : Q) :
  (0 < k)%nat -> (mean_of (replicate k c) == c)%Q.
Proof.
  intros Hk. unfold mean_of. rewrite length_replicate, Qsum_replicate.
  rewrite Qmult_comm. apply Qdiv_mult_l.
  intros Hzero. apply (Qeq_bool_neq (inject_Z (Z.of_nat k)) 0); [|exact Hzero].
  destruct k; [lia | reflexivity].
Qed.

Lemma last_n_replicate {A} (k n : nat) (c : A) :
  (k <= n)%nat -> last_n k (replicate n c) = replicate k c.
Proof.
  intros Hk. unfold last_n. rewrite length_replicate, drop_replicate.
  f_equal. lia.
Qed.

Lemma previous_n_replicate {A} (k n : nat) (c : A) :
  (k + 1 <= n)%nat -> previous_n k (replicate n c) = replicate k c.
Proof.
  intros Hk. unfold previous_n. rewrite length_replicate, take_replicate.
  apply last_n_replicate. lia.
Qed.

Lemma decide_signal_level (a b c d : Q) : (a == b)%Q -> decide_signal a b c d = HOLD.
Proof.
  intros Hab. apply decide_signal_HOLD. split; intros [Hlt _].
  - rewrite Hab in Hlt. exact (Qlt_irrefl _ Hlt).
  - rewrite Hab in Hlt. exact (Qlt_irrefl _ Hlt).
Qed.

(** X3.  On a flat series the strategy holds: with windows [0 < sw < lw],
    [evaluate] returns HOLD on a list of [n] equal prices, for every [n]. *)
Theorem evaluate_flat_series_holds (sw lw : Z) (n : nat) (c : Q) :
  0 < sw -> sw < lw -> evaluate (Strategy sw lw) (replicate n c) = Ok HOLD.
Proof.
  intros Hsw Hlt.
  destruct (Z.lt_ge_cases (Z.of_nat n) (lw + 1)) as [Hs|Hlong].
  - unfold evaluate. simpl. rewrite length_replicate.
    destruct (Z.ltb_spec (Z.of_nat n) (lw + 1)); [reflexivity | lia].
  - rewrite evaluate_long by (rewrite ?length_replicate; lia).
    f_equal. apply decide_signal_level.
    rewrite !last_n_replicate by lia.
    rewrite !mean_of_replicate by lia. reflexivity.
Qed.

Lemma evaluate_flat_series_holds_witness :
  evaluate (Strategy 5 20) (replicate 40 (7 # 2)%Q) = Ok HOLD.
Proof. apply evaluate_flat_series_holds; lia. Defined.

(** ** config.py: lookups and the fields of [from_env] *)

Lemma non_blank_Some (v : option string) (s : string) :
  non_blank v = true -> v = Some s -> blank s = false.
Proof. intros Hnb ->. simpl in Hnb. by apply negb_true_iff. Qed.

(** X4.  [_get_exchange_value] returns only non-blank values, read under
    the exchange's own prefix or, for an exchange other than binance, under
    [BINANCE_]; a non-blank value under the own prefix always wins, and
    [None] is returned exactly when neither place holds a non-blank value
    that may be used. *)
Theorem get_exchange_value_lookup (env : gmap string string) (name : string) :
  let own := env !! (BotConfig.exchange_prefix env +:+ "_" +:+ name) in
  let legacy := env !! ("BINANCE_" +:+ name) in
  (forall v, BotConfig._get_exchange_value env name = Some v ->
     blank v = false
     /\ (own = Some v
         \/ (BotConfig.exchange_prefix env <> "BINANCE" /\ non_blank own = false
             /\ legacy = Some v)))
  /\ (forall v, own = Some v -> blank v = false ->
        BotConfig._get_exchange_value env name = Some v)
  /\ (BotConfig._get_exchange_value env name = None <->
      non_blank own = false
      /\ (BotConfig.exchange_prefix env = "BINANCE" \/ non_blank legacy = false)).
Proof.
  intros own legacy. unfold BotConfig._get_exchange_value. fold own legacy.
  split; [|split].
  - intros v. destruct (non_blank own) eqn:Hown.
    + intros Hv. split; [by eapply non_blank_Some | by left].
    + case_bool_decide as Hpre; simpl; [discriminate|].
      destruct (non_blank legacy) eqn:Hleg; [|discriminate].
      intros Hv. split; [by eapply non_blank_Some|]. right. done.
  - intros v Hv Hnb. rewrite Hv. simpl. rewrite Hnb. reflexivity.
  - destruct (non_blank own) eqn:Hown.
    + split.
      * intros Hnone. rewrite Hnone in Hown. discriminate.
      * intros [? _]. discriminate.
    + case_bool_decide as Hpre; simpl.
      * split; [intros _; split; [done | by left] | done].
      * destruct (non_blank legacy) eqn:Hleg.
        -- split.
           ++ intros Hnone. rewrite Hnone in Hleg. discriminate.
           ++ intros [_ [? | ?]]; [contradiction | discriminate].
        -- split; [intros _; split; [done | by right] | done].
Qed.

Lemma get_exchange_value_lookup_witness :
  BotConfig._get_exchange_value
    (<["ACTIVE_EXCHANGE" := "kraken"]>
       (<["KRAKEN_SYMBOL" := "ETHEUR"]> {[ "BINANCE_SYMBOL" := "BTCUSDT" ]}))
    "SYMBOL" = Some "ETHEUR".
Proof.
  apply (proj1 (proj2 (get_exchange_value_lookup _ "SYMBOL"))); reflexivity.
Defined.

Lemma lower_lower_ascii (c : ascii) : lower_ascii (lower_ascii c) = lower_ascii c.
Proof. destruct c as [[] [] [] [] [] [] [] []]; reflexivity. Qed.

Lemma upper_upper_ascii (c : ascii) : upper_ascii (upper_ascii c) = upper_ascii c.
Proof. destruct c as [[] [] [] [] [] [] [] []]; reflexivity. Qed.

Lemma lower_idempotent (s : string) : lower (lower s) = lower s.
Proof.
  unfold lower. induction s as [|c s IH]; simpl; [reflexivity|].
  by rewrite lower_lower_ascii, IH.
Qed.

Lemma upper_idempotent (s : string) : upper (upper s) = upper s.
Proof.
  unfold upper. induction s as [|c s IH]; simpl; [reflexivity|].
  by rewrite upper_upper_ascii, IH.
Qed.

Lemma upper_nonempty (s : string) : s <> EmptyString -> upper s <> EmptyString.
Proof. destruct s; [done | discriminate]. Qed.

Lemma py_or_default_nonempty (a : option string) (d : string) :
  d <> EmptyString -> py_or_default a d <> EmptyString.
Proof.
  intros Hd. unfold py_or_default. destruct a as [s|]; [|done].
  by case_bool_decide.
Qed.

Lemma exchange_of_env_shape (env : gmap string string) :
  BotConfig.exchange_of_env env <> EmptyString
  /\ lower (BotConfig.exchange_of_env env) = BotConfig.exchange_of_env env.
Proof.
  split.
  - unfold BotConfig.exchange_of_env. by apply py_or_default_nonempty.
  - unfold BotConfig.exchange_of_env.
    set (raw := py_or_default (env !! "ACTIVE_EXCHANGE") "binance").
    assert (py_or_default (Some (lower (strip raw))) "binance" = "binance"
            \/ py_or_default (Some (lower (strip raw))) "binance" = lower (strip raw))
      as [-> | ->].
    { unfold py_or_default. case_bool_decide; auto. }
    + reflexivity.
    + apply lower_idempotent.
Qed.

(** What [from_env] puts in the string fields when it returns. *)
Lemma from_env_fields py_float py_int env cfg :
  BotConfig.from_env py_float py_int env = Ok cfg ->
  BotConfig.exchange cfg = BotConfig.exchange_of_env env
  /\ BotConfig.symbol cfg
     = upper (py_or_default (py_or (BotConfig._get_exchange_value env "SYMBOL")
                                   (env !! "MARKET_SYMBOL")) "BTCUSDT")
  /\ BotConfig.quote_asset cfg
     = py_or_default (py_or (BotConfig._get_exchange_value env "QUOTE_ASSET")
                            (env !! "MARKET_QUOTE_ASSET")) "USDT"
  /\ BotConfig.base_asset cfg
     = py_or_default (py_or (BotConfig._get_exchange_value env "BASE_ASSET")
                            (env !! "MARKET_BASE_ASSET")) "BTC"
  /\ BotConfig.api_key cfg
     = py_or (BotConfig._get_exchange_value env "API_KEY") (env !! "EXCHANGE_API_KEY")
  /\ BotConfig.api_secret cfg
     = py_or (BotConfig._get_exchange_value env "API_SECRET")
             (env !! "EXCHANGE_API_SECRET").
Proof.
  unfold BotConfig.from_env.
  unfold mbind, outcome_bind, obind, mret, outcome_ret.
  repeat match goal with
         | |- context [match ?m with Ok _ => _ | Raise _ => _ end] =>
             destruct m; [|discriminate]
         end.
  intros [= <-]. repeat split.
Qed.

(** X5.  A configuration returned by [from_env] has a non-empty,
    lower-cased exchange identifier, a non-empty, upper-cased symbol, and
    non-empty quote and base asset labels, whatever the environment
    holds. *)
Theorem from_env_string_fields py_float py_int (env : gmap string string)
    (cfg : BotConfig.t) :
  BotConfig.from_env py_float py_int env = Ok cfg ->
  BotConfig.exchange cfg <> EmptyString
  /\ lower (BotConfig.exchange cfg) = BotConfig.exchange cfg
  /\ BotConfig.symbol cfg <> EmptyString
  /\ upper (BotConfig.symbol cfg) = BotConfig.symbol cfg
  /\ BotConfig.quote_asset cfg <> EmptyString
  /\ BotConfig.base_asset cfg <> EmptyString.
Proof.
  intros Hcfg.
  destruct (from_env_fields _ _ _ _ Hcfg) as (-> & -> & -> & -> & _).
  destruct (exchange_of_env_shape env) as [Hne Hlow].
  split; [exact Hne|]. split; [exact Hlow|].
  split; [by apply upper_nonempty, py_or_default_nonempty|].
  split; [apply upper_idempotent|].
  split; by apply py_or_default_nonempty.
Qed.

Lemma from_env_string_fields_witness :
  exists cfg,
    BotConfig.from_env (fun _ => None) (fun _ => None)
      (<["ACTIVE_EXCHANGE" := " Kraken "]>
         (<["MARKET_SYMBOL" := "etheur"]> {[ "EXCHANGE_API_SECRET" := EmptyString ]}))
    = Ok cfg
    /\ BotConfig.exchange cfg <> EmptyString
    /\ upper (BotConfig.symbol cfg) = BotConfig.symbol cfg.
Proof.
  eexists. split; [vm_compute; reflexivity|].
  match goal with
  | |- ?c <> _ /\ _ =>
      destruct (from_env_string_fields (fun _ => None) (fun _ => None)
                  (<["ACTIVE_EXCHANGE" := " Kraken "]>
                     (<["MARKET_SYMBOL" := "etheur"]>
                        {[ "EXCHANGE_API_SECRET" := EmptyString ]}))
                  (BotConfig.mk "kraken" None (Some EmptyString) "ETHEUR" "USDT" "BTC"
                     (1 # 1000) 5 5 20 120 true))
        as (Hex & _ & _ & Hsym & _); [vm_compute; reflexivity|]
  end.
  split; [exact Hex | exact Hsym].
Defined.

(** X6.  [from_env] fails only with [ValueError]: whatever the environment
    holds, it never raises the operational [TradingBotError]. *)
Theorem from_env_raises_only_ValueError py_float py_int (env : gmap string string)
    (e : exn) :
  BotConfig.from_env py_float py_int env = Raise e ->
  is_ValueError e = true /\ is_TradingBotError e = false.
Proof.
  assert (Hbool : forall v d e', _parse_bool v d = Raise e' -> is_ValueError e' = true).
  { intros v d e'. unfold _parse_bool. destruct v as [s|]; [|discriminate].
    repeat case_bool_decide; try discriminate. by intros [= <-]. }
  assert (Hfloat : forall v d e',
            BotConfig._parse_float py_float v d = Raise e' -> is_ValueError e' = true).
  { intros v d e'. unfold BotConfig._parse_float. destruct v as [s|]; [|discriminate].
    destruct (blank s); [discriminate|].
    destruct (py_float s); [discriminate|]. by intros [= <-]. }
  assert (Hint : forall v d e',
            BotConfig._parse_int py_int v d = Raise e' -> is_ValueError e' = true).
  { intros v d e'. unfold BotConfig._parse_int. destruct v as [s|]; [|discriminate].
    destruct (blank s); [discriminate|].
    destruct (py_int s); [discriminate|]. by intros [= <-]. }
  assert (Hkind : BotConfig.from_env py_float py_int env = Raise e ->
                  is_ValueError e = true).
  { unfold BotConfig.from_env, BotConfig.resolve_test_mode.
    unfold mbind, outcome_bind, obind, mret, outcome_ret.
    destruct (BotConfig._get_exchange_value env "TEST_MODE");
    repeat match goal with
           | |- context [match ?m with Ok _ => _ | Raise _ => _ end] =>
               let E := fresh "E" in
               destruct m eqn:E;
               [|intros [= <-];
                 first [eapply Hbool; eassumption | eapply Hfloat; eassumption
                       | eapply Hint; eassumption]]
           end;
    discriminate. }
  intros Hraise. specialize (Hkind Hraise).
  destruct e; try discriminate. split; reflexivity.
Qed.

Lemma from_env_raises_only_ValueError_witness :
  exists e,
    BotConfig.from_env (fun _ => None) (fun _ => None) {[ "BOT_SHORT_WINDOW" := "abc" ]}
    = Raise e
    /\ is_ValueError e = true /\ is_TradingBotError e = false.
Proof.
  eexists. split; [reflexivity|].
  apply (from_env_raises_only_ValueError (fun _ => None) (fun _ => None)
           {[ "BOT_SHORT_WINDOW" := "abc" ]}).
  reflexivity.
Defined.

(** X7.  When none of the variables that [from_env] reads is set (other
    variables may be), the result is the configuration of the dataclass
    defaults: the literals of [from_env] and the field defaults agree. *)
Theorem from_env_unset_gives_defaults py_float py_int (env : gmap string string) :
  Forall (fun k => env !! k = None)
    ["ACTIVE_EXCHANGE"; "BINANCE_API_KEY"; "BINANCE_API_SECRET"; "BINANCE_SYMBOL";
     "BINANCE_QUOTE_ASSET"; "BINANCE_BASE_ASSET"; "BINANCE_TEST_MODE";
     "EXCHANGE_API_KEY"; "EXCHANGE_API_SECRET"; "MARKET_SYMBOL"; "MARKET_QUOTE_ASSET";
     "MARKET_BASE_ASSET"; "BOT_TRADE_QUANTITY"; "BOT_POLL_INTERVAL"; "BOT_SHORT_WINDOW";
     "BOT_LONG_WINDOW"; "BOT_MAX_HISTORY"; "BOT_TEST_MODE"] ->
  BotConfig.from_env py_float py_int env = Ok BotConfig.default.
Proof.
  intros Hunset.
  repeat match goal with
         | H : Forall _ (_ :: _) |- _ =>
             let Hk := fresh "Hk" in apply Forall_cons in H as [Hk H]
         end.
  assert (Hex : BotConfig.exchange_of_env env = "binance").
  { unfold BotConfig.exchange_of_env. rewrite Hk. reflexivity. }
  assert (Hget : forall name,
            env !! ("BINANCE_" +:+ name) = None ->
            BotConfig._get_exchange_value env name = None).
  { intros name Hname. unfold BotConfig._get_exchange_value, BotConfig.exchange_prefix.
    rewrite Hex. change (upper "binance" +:+ "_" +:+ name) with ("BINANCE_" +:+ name).
    rewrite Hname. reflexivity. }
  unfold BotConfig.from_env, BotConfig.resolve_test_mode.
  rewrite !Hget by assumption. rewrite Hex.
  repeat match goal with
         | H : env !! _ = None |- _ => rewrite H; clear H
         end.
  reflexivity.
Qed.

Lemma from_env_unset_gives_defaults_witness :
  BotConfig.from_env (fun _ => None) (fun _ => None)
    (<["HOME" := "/root"]> {[ "KRAKEN_SYMBOL" := "ETHEUR" ]})
  = Ok BotConfig.default.
Proof.
  apply from_env_unset_gives_defaults.
  repeat (apply Forall_cons; split; [reflexivity|]). apply Forall_nil. exact I.
Defined.

(** X8.  [require_credentials] and the guard of [place_market_order] agree:
    for the client built from a configuration, [require_credentials] passes
    exactly when an order is not stopped by the missing-credentials error.
    The two failures are of different kinds: [ValueError] for the first,
    [TradingBotError] for the second. *)
Theorem require_credentials_matches_order_guard
    (float_str : Q -> string) (cfg : BotConfig.t) (installed : bool)
    (client : BinanceClient.t) (ex : BinanceClient.Exchange)
    (symbol side : string) (quantity : Q) (quote : option Q) (test_mode : bool) :
  BinanceClient.init installed (BotConfig.api_key cfg) (BotConfig.api_secret cfg)
    (BotConfig.test_mode cfg) = Ok client ->
  let order :=
    BinanceClient.place_market_order float_str client ex symbol side quantity quote
      test_mode in
  (BotConfig.require_credentials cfg = Ok tt <->
   order <> ([], Raise (TradingBotError BinanceClient.credentials_msg)))
  /\ (forall e, BotConfig.require_credentials cfg = Raise e ->
        e = ValueError (BotConfig.require_credentials_msg (upper (BotConfig.exchange cfg)))
        /\ order = ([], Raise (TradingBotError BinanceClient.credentials_msg))).
Proof.
  intros Hinit order. unfold BinanceClient.init in Hinit.
  destruct installed; simpl in Hinit; [|discriminate].
  injection Hinit as <-. subst order.
  unfold BotConfig.require_credentials, BinanceClient.place_market_order. simpl.
  destruct (negb (truthy (BotConfig.api_key cfg))
            || negb (truthy (BotConfig.api_secret cfg))).
  - split; [split; [discriminate | congruence]|].
    intros e [= <-]. split; reflexivity.
  - split; [|discriminate]. split; [|done].
    intros _. destruct test_mode; discriminate.
Qed.

Lemma require_credentials_matches_order_guard_witness :
  BotConfig.require_credentials Sample.config = Ok tt
  /\ (forall e, BotConfig.require_credentials BotConfig.default = Raise e ->
        BinanceClient.place_market_order Sample.float_str (Sample.client None None)
          Sample.exchange "BTCUSDT" "BUY" (1 # 1000) None true
        = ([], Raise (TradingBotError BinanceClient.credentials_msg))).
Proof.
  split.
  - apply (proj1 (require_credentials_matches_order_guard Sample.float_str Sample.config
                    true (Sample.client (Some "key") (Some "secret")) Sample.exchange
                    "BTCUSDT" "BUY" (1 # 1000) None true eq_refl)).
    discriminate.
  - intros e He.
    apply (proj2 (require_credentials_matches_order_guard Sample.float_str
                    BotConfig.default true (Sample.client None None) Sample.exchange
                    "BTCUSDT" "BUY" (1 # 1000) None true eq_refl) e He).
Defined.

(** ** binance_client.py: the other paths of the wrapper *)

(** X9.  With both credentials non-empty and [test_mode] false,
    [place_market_order] sends exactly one request, the live one, never the
    validation one, and hands back the exchange's answer unchanged; a
    [ClientError] of the exchange comes back as a [TradingBotError] that
    carries its text, and any other exception passes through as it is. *)
Theorem place_market_order_live
    (float_str : Q -> string) (self : BinanceClient.t) (ex : BinanceClient.Exchange)
    (symbol side : string) (quantity : Q) (quote : option Q) :
  truthy (BinanceClient.api_key (BinanceClient._client self)) = true ->
  truthy (BinanceClient.api_secret (BinanceClient._client self)) = true ->
  let params := BinanceClient.order_params float_str symbol side quantity quote in
  let call :=
    BinanceClient.place_market_order float_str self ex symbol side quantity quote false in
  fst call = [BinanceClient.NewOrder params]
  /\ (forall response, BinanceClient.new_order ex params = Ok response ->
        snd call = Ok response)
  /\ (forall msg, BinanceClient.new_order ex params = Raise (ClientError msg) ->
        snd call = Raise (TradingBotError ("Erreur lors de l'exécution de l'ordre: " +:+ msg)))
  /\ (forall e, BinanceClient.new_order ex params = Raise e ->
        (forall msg, e <> ClientError msg) -> snd call = Raise e).
Proof.
  intros Hkey Hsecret params call. subst call.
  unfold BinanceClient.place_market_order. rewrite Hkey, Hsecret. simpl.
  fold params. split; [reflexivity|]. split; [|split].
  - by intros response ->.
  - by intros msg ->.
  - intros e -> Hnot. destruct e; simpl; try reflexivity. by destruct (Hnot msg).
Qed.

Lemma place_market_order_live_witness :
  BinanceClient.place_market_order Sample.float_str
    (Sample.client (Some "key") (Some "secret"))
    (BinanceClient.mkExchange (fun _ => Ok tt) (fun _ => Ok Sample.filled_order) 0)
    "BTCUSDT" "SELL" (1 # 1000) None false
  = ([BinanceClient.NewOrder
        (BinanceClient.order_params Sample.float_str "BTCUSDT" "SELL" (1 # 1000) None)],
     Ok Sample.filled_order).
Proof.
  destruct (place_market_order_live Sample.float_str
              (Sample.client (Some "key") (Some "secret"))
              (BinanceClient.mkExchange (fun _ => Ok tt) (fun _ => Ok Sample.filled_order) 0)
              "BTCUSDT" "SELL" (1 # 1000) None eq_refl eq_refl)
    as (Hsent & Hanswer & _).
  apply injective_projections; [exact Hsent | exact (Hanswer _ eq_refl)].
Defined.

(** X10.  Whatever its arguments, [place_market_order] sends at most one
    request, a MARKET order for the symbol and side it was given, and never
    lets a [ClientError] out. *)
Theorem place_market_order_requests
    (float_str : Q -> string) (self : BinanceClient.t) (ex : BinanceClient.Exchange)
    (symbol side : string) (quantity : Q) (quote : option Q) (test_mode : bool) :
  let call :=
    BinanceClient.place_market_order float_str self ex symbol side quantity quote
      test_mode in
  (length (fst call) <= 1)%nat
  /\ Forall (fun r =>
               match r with
               | BinanceClient.NewOrderTest params | BinanceClient.NewOrder params =>
                   params !! "type" = Some "MARKET"
                   /\ params !! "symbol" = Some symbol
                   /\ params !! "side" = Some side
               end) (fst call)
  /\ (forall msg, snd call <> Raise (ClientError msg)).
Proof.
  intros call. subst call. unfold BinanceClient.place_market_order.
  assert (Hparams : let params :=
                      BinanceClient.order_params float_str symbol side quantity quote in
                    params !! "type" = Some "MARKET"
                    /\ params !! "symbol" = Some symbol
                    /\ params !! "side" = Some side).
  { unfold BinanceClient.order_params. destruct quote; repeat split. }
  assert (Hwrap : forall A (m : outcome A) msg,
            BinanceClient.wrap_client_error m <> Raise (ClientError msg)).
  { intros A m msg. destruct m as [a|[]]; simpl; discriminate. }
  destruct (negb _ || negb _); simpl.
  - split; [lia|]. split; [apply Forall_nil_2 | discriminate].
  - destruct test_mode; simpl; (split; [lia|]);
      (split; [apply Forall_singleton; exact Hparams | apply Hwrap]).
Qed.

(** X11.  [get_symbol_price] returns a price only when the ticker answer
    holds a [price] that is not [None], and the price is then [float] of
    that field; an answer without such a field and a [ClientError] of the
    exchange both give a [TradingBotError], while any other exception of
    the exchange passes through as it is. *)
Theorem get_symbol_price_cases
    (float_of : pyval -> outcome Q) (dict_str : gmap string pyval -> string)
    (self : BinanceClient.t) (m : BinanceClient.Market) (symbol : string) :
  let result := BinanceClient.get_symbol_price float_of dict_str self m symbol in
  (forall p, result = Ok p ->
     exists ticker v,
       BinanceClient.ticker_price m symbol = Ok ticker
       /\ ticker !! "price" = Some v /\ v <> PNone /\ float_of v = Ok p)
  /\ (forall ticker,
        BinanceClient.ticker_price m symbol = Ok ticker ->
        ticker !! "price" = None \/ ticker !! "price" = Some PNone ->
        result = Raise (TradingBotError
                          (BinanceClient.unexpected_ticker_msg dict_str symbol ticker)))
  /\ (forall msg,
        BinanceClient.ticker_price m symbol = Raise (ClientError msg) ->
        result = Raise (TradingBotError
                          ("Impossible de récupérer le prix pour " +:+ symbol +:+ ": "
                             +:+ msg)))
  /\ (forall e,
        BinanceClient.ticker_price m symbol = Raise e ->
        (forall msg, e <> ClientError msg) -> result = Raise e).
Proof.
  intros result. subst result. unfold BinanceClient.get_symbol_price.
  split; [|split; [|split]].
  - intros p. destruct (BinanceClient.ticker_price m symbol) as [ticker|e].
    + destruct (ticker !! "price") as [v|] eqn:Hprice; [|discriminate].
      intros Hp. exists ticker, v.
      split; [reflexivity|]. split; [exact Hprice|].
      destruct v; try discriminate; (split; [discriminate | exact Hp]).
    + destruct e; discriminate.
  - intros ticker -> [-> | ->]; reflexivity.
  - intros msg ->. reflexivity.
  - intros e -> Hnot. destruct e; try reflexivity. by destruct (Hnot msg).
Qed.

Lemma get_symbol_price_cases_witness :
  BinanceClient.get_symbol_price (fun _ => Ok 0%Q) (fun _ => "{}")
    (Sample.client None None)
    (BinanceClient.mkMarket (fun _ => Ok (<["symbol" := PStr "BTCUSDT"]> ∅))
                            (Raise (OtherException "unused")))
    "BTCUSDT"
  = Raise (TradingBotError "Réponse inattendue de Binance pour le symbole BTCUSDT: {}").
Proof.
  apply (proj1 (proj2 (get_symbol_price_cases (fun _ => Ok 0%Q) (fun _ => "{}")
                         (Sample.client None None)
                         (BinanceClient.mkMarket
                            (fun _ => Ok (<["symbol" := PStr "BTCUSDT"]> ∅))
                            (Raise (OtherException "unused")))
                         "BTCUSDT"))
           (<["symbol" := PStr "BTCUSDT"]> ∅) eq_refl).
  left. reflexivity.
Defined.

Lemma scan_balances_app float_of (pre post : list (gmap string pyval)) (asset : string) :
  Forall (fun b => BinanceClient.equals_str (b !! "asset") asset = false) pre ->
  BinanceClient.scan_balances float_of (pre ++ post) asset
  = BinanceClient.scan_balances float_of post asset.
Proof.
  induction 1 as [|b pre Hb _ IH]; simpl; [reflexivity|]. by rewrite Hb.
Qed.

(** X12.  [get_account_balance] answers with the [free] amount of the
    first balance entry whose asset code is exactly the one asked for
    ([0] when that entry has no [free] field), whatever entries follow; it
    answers [0.0] when no entry matches or the account lists no
    balances. *)
Theorem get_account_balance_first_match
    (float_of : pyval -> outcome Q) (self : BinanceClient.t) (m : BinanceClient.Market) (asset : string)
    (acc : BinanceClient.Account) :
  BinanceClient.account m = Ok acc ->
  let entries := default [] (BinanceClient.balances acc) in
  let result := BinanceClient.get_account_balance float_of self m asset in
  (Forall (fun b => b !! "asset" <> Some (PStr asset)) entries -> result = Ok 0%Q)
  /\ (forall pre b post,
        entries = pre ++ b :: post ->
        Forall (fun b' => b' !! "asset" <> Some (PStr asset)) pre ->
        b !! "asset" = Some (PStr asset) ->
        result = float_of (default (PInt 0) (b !! "free"))).
Proof.
  intros Hacc entries result.
  assert (Hnot : forall l : list (gmap string pyval),
            Forall (fun b => b !! "asset" <> Some (PStr asset)) l ->
            Forall (fun b => BinanceClient.equals_str (b !! "asset") asset = false) l).
  { intros l Hl. eapply Forall_impl; [exact Hl|]. simpl.
    intros b Hb. unfold BinanceClient.equals_str.
    destruct (b !! "asset") as [[]|]; try reflexivity.
    case_bool_decide; [congruence | reflexivity]. }
  assert (Hresult : result = BinanceClient.scan_balances float_of entries asset).
  { subst result. unfold BinanceClient.get_account_balance. by rewrite Hacc. }
  rewrite Hresult. split.
  - intros Hnone. rewrite <- (app_nil_r entries).
    rewrite scan_balances_app by by apply Hnot. reflexivity.
  - intros pre b post -> Hpre Hb.
    rewrite scan_balances_app by by apply Hnot. simpl.
    rewrite Hb. simpl. by rewrite bool_decide_eq_true_2.
Qed.

Lemma get_account_balance_first_match_witness :
  BinanceClient.get_account_balance
    (fun v => match v with PStr "12.5" => Ok (25 # 2)%Q | _ => Ok 0%Q end)
    (Sample.client (Some "key") (Some "secret"))
    (BinanceClient.mkMarket (fun _ => Ok ∅)
       (Ok (BinanceClient.mkAccount
              (Some [ <["asset" := PStr "usdt"]> {[ "free" := PStr "1.0" ]};
                      <["asset" := PStr "USDT"]>
                        (<["locked" := PStr "3.0"]> {[ "free" := PStr "12.5" ]});
                      <["asset" := PStr "USDT"]> {[ "free" := PStr "99.0" ]} ]))))
    "USDT"
  = Ok (25 # 2)%Q.
Proof.
  destruct (get_account_balance_first_match
              (fun v => match v with PStr "12.5" => Ok (25 # 2)%Q | _ => Ok 0%Q end)
              (Sample.client (Some "key") (Some "secret"))
              (BinanceClient.mkMarket (fun _ => Ok ∅)
                 (Ok (BinanceClient.mkAccount
                        (Some [ <["asset" := PStr "usdt"]> {[ "free" := PStr "1.0" ]};
                                <["asset" := PStr "USDT"]>
                                  (<["locked" := PStr "3.0"]> {[ "free" := PStr "12.5" ]});
                                <["asset" := PStr "USDT"]> {[ "free" := PStr "99.0" ]} ]))))
              "USDT" _ eq_refl) as [_ Hfirst].
  rewrite (Hfirst [ <["asset" := PStr "usdt"]> {[ "free" := PStr "1.0" ]} ] _ _ eq_refl).
  - reflexivity.
  - apply Forall_singleton. discriminate.
  - reflexivity.
Defined.

(** ** bot.py: more on a pass and on the loop *)

Section MorePassFacts.
Context {T : Type} `{StrategyLike T}.
Variable float_str : Q -> string.

Lemma iteration_hold (self : TradingBot.t T) subscribed w price :
  TradingBot.get_symbol_price w (BotConfig.symbol (TradingBot._config self)) = Ok price ->
  strategy_evaluate (TradingBot._strategy self)
    (deque_append (TradingBot._prices self) price) = Ok HOLD ->
  TradingBot.iteration float_str self subscribed w
  = TradingBot.prepend
      [TradingBot.EvFetch (BotConfig.symbol (TradingBot._config self));
       TradingBot.EvEvaluate (dq_items (deque_append (TradingBot._prices self) price))]
      (TradingBot.emit_then_sleep (TradingBot.appended self price) subscribed w
         (BotUpdate.mk (Some price) HOLD None None)).
Proof.
  intros Hfetch Heval. unfold TradingBot.iteration, TradingBot.fetch_price.
  rewrite Hfetch. simpl. rewrite Heval.
  rewrite bool_decide_eq_false_2 by (intros [?|?]; discriminate). reflexivity.
Qed.

Lemma emit_then_sleep_completed (self : TradingBot.t T) subscribed w u :
  (TradingBot.emit_then_sleep self subscribed w u).2 = TradingBot.Completed ->
  exists tr,
    (TradingBot.emit_then_sleep self subscribed w u).1.2
    = tr ++ [TradingBot.EvSleep (BotConfig.poll_interval (TradingBot._config self))].
Proof.
  unfold TradingBot.emit_then_sleep, TradingBot._emit_update.
  destruct subscribed; simpl.
  - destruct (TradingBot.callback w u); simpl; [|discriminate].
    destruct (TradingBot.sleep w _); simpl; [|discriminate].
    intros _. by exists [TradingBot.EvEmit u].
  - destruct (TradingBot.sleep w _); simpl; [|discriminate].
    intros _. by exists [].
Qed.

(** The shape of the trace of a pass: events before the update, then what
    [emit_then_sleep] logs, or an exception before any update. *)
Lemma iteration_trace (self : TradingBot.t T) subscribed w :
  let r := TradingBot.iteration float_str self subscribed w in
  (exists e, r.2 = TradingBot.Escaped e /\ TradingBot.emitted r.1.2 = [])
  \/ (exists pre (self' : TradingBot.t T) u,
        TradingBot.emitted pre = []
        /\ r.1.2 = pre ++ (TradingBot.emit_then_sleep self' subscribed w u).1.2
        /\ r.2 = (TradingBot.emit_then_sleep self' subscribed w u).2
        /\ TradingBot._config self' = TradingBot._config self).
Proof.
  unfold TradingBot.iteration, TradingBot.fetch_price, TradingBot.execute_trade.
  repeat case_match; simplify_eq;
    first [ left; eexists; split; reflexivity
          | right; eexists _, _, _;
            rewrite prepend_trace, prepend_end;
            split; [|split; [reflexivity|split; reflexivity]]; reflexivity ].
Qed.
End MorePassFacts.

(** X13.  In a pass where the price is fetched and the strategy says HOLD,
    the price is appended to the history, no order is sent, no trade is
    recorded, and the update published carries the price, HOLD, no trade
    and no error. *)
Theorem iteration_hold_pass
    {T : Type} `{StrategyLike T} (float_str : Q -> string)
    (self : TradingBot.t T) (subscribed : bool) (w : TradingBot.World) (price : Q) :
  TradingBot.get_symbol_price w (BotConfig.symbol (TradingBot._config self)) = Ok price ->
  strategy_evaluate (TradingBot._strategy self)
    (deque_append (TradingBot._prices self) price) = Ok HOLD ->
  let result := TradingBot.iteration float_str self subscribed w in
  result.1.1 = TradingBot.appended self price
  /\ TradingBot.trades result.1.1 = TradingBot.trades self
  /\ forallb (fun e => negb (TradingBot.is_order e)) result.1.2 = true
  /\ TradingBot.emitted result.1.2
     = (if subscribed then [BotUpdate.mk (Some price) HOLD None None] else []).
Proof.
  intros Hfetch Heval result. subst result.
  rewrite (iteration_hold float_str self subscribed w price Hfetch Heval).
  rewrite prepend_state, prepend_trace, emit_then_sleep_state.
  destruct (emit_then_sleep_trace (TradingBot.appended self price) subscribed w
              (BotUpdate.mk (Some price) HOLD None None)) as [Hem Hquiet].
  split; [reflexivity|]. split; [reflexivity|]. split; [|exact Hem].
  simpl. unfold TradingBot.quiet in Hquiet.
  revert Hquiet. generalize (TradingBot.emit_then_sleep (TradingBot.appended self price)
                               subscribed w (BotUpdate.mk (Some price) HOLD None None)).1.2.
  intros tr. induction tr as [|e tr IH]; simpl; [done|].
  rewrite !andb_true_iff, !negb_true_iff, orb_false_iff. intros [[_ ->] Htr]. auto.
Qed.

Lemma iteration_hold_pass_witness :
  let result :=
    TradingBot.iteration Sample.float_str Sample.bot true
      (Sample.world (Ok 1%Q) (Ok Sample.filled_order) false) in
  TradingBot.prices result.1.1 = [3; 2; 1; 1; 1]%Q
  /\ TradingBot.emitted result.1.2 = [BotUpdate.mk (Some 1%Q) HOLD None None].
Proof.
  intros result.
  destruct (iteration_hold_pass Sample.float_str Sample.bot true
              (Sample.world (Ok 1%Q) (Ok Sample.filled_order) false) 1%Q
              eq_refl eq_refl) as (Hstate & _ & _ & Hem).
  split; [|exact Hem]. subst result. rewrite Hstate. reflexivity.
Defined.

(** X14.  A pass publishes at most one update, and none without a
    subscriber; a pass that completes has published exactly one (with a
    subscriber) and has last slept for the configured poll interval. *)
Theorem iteration_one_update
    {T : Type} `{StrategyLike T} (float_str : Q -> string)
    (self : TradingBot.t T) (subscribed : bool) (w : TradingBot.World) :
  let result := TradingBot.iteration float_str self subscribed w in
  (length (TradingBot.emitted result.1.2) <= 1)%nat
  /\ (subscribed = false -> TradingBot.emitted result.1.2 = [])
  /\ (result.2 = TradingBot.Completed ->
      length (TradingBot.emitted result.1.2) = (if subscribed then 1 else 0)%nat
      /\ exists tr,
           result.1.2
           = tr ++ [TradingBot.EvSleep (BotConfig.poll_interval (TradingBot._config self))]).
Proof.
  intros result.
  destruct (iteration_trace float_str self subscribed w)
    as [(e & Hend & Hem) | (pre & self' & u & Hpre & Htr & Hend & Hcfg)];
    fold result in Hend, Hem || fold result in Htr, Hend.
  - rewrite Hem, Hend. split; [simpl; lia|]. split; [done | discriminate].
  - destruct (emit_then_sleep_trace self' subscribed w u) as [Hem _].
    assert (Hall : TradingBot.emitted result.1.2 = (if subscribed then [u] else [])).
    { rewrite Htr, emitted_app, Hpre, Hem. reflexivity. }
    rewrite Hall. split; [destruct subscribed; simpl; lia|].
    split; [by intros ->|].
    intros Hdone. split; [by destruct subscribed|].
    rewrite Hend in Hdone.
    destruct (emit_then_sleep_completed self' subscribed w u Hdone) as [tr Hsleep].
    exists (pre ++ tr). rewrite Htr, Hsleep, Hcfg. by rewrite app_assoc.
Qed.

Section MoreLoopFacts.
Context {T : Type} `{StrategyLike T}.
Variable float_str : Q -> string.

Lemma iteration_config (self : TradingBot.t T) subscribed w :
  TradingBot._config (TradingBot.iteration float_str self subscribed w).1.1
  = TradingBot._config self.
Proof.
  destruct (iteration_state float_str self subscribed w)
    as [-> | [(p & ->) | (p & s & o & ->)]]; reflexivity.
Qed.

(** A pass changes the history only through [fetch_price]. *)
Lemma iteration_prices (self : TradingBot.t T) subscribed w :
  TradingBot._prices (TradingBot.iteration float_str self subscribed w).1.1
  = TradingBot._prices (TradingBot.fetch_price self w).1.
Proof.
  unfold TradingBot.iteration, TradingBot.fetch_price, TradingBot.execute_trade.
  repeat case_match; simplify_eq;
    rewrite ?prepend_state, ?emit_then_sleep_state; reflexivity.
Qed.

Lemma fetch_price_similar (a b : TradingBot.t T) w :
  TradingBot._prices a = TradingBot._prices b ->
  TradingBot._config a = TradingBot._config b ->
  TradingBot._prices (TradingBot.fetch_price a w).1
  = TradingBot._prices (TradingBot.fetch_price b w).1
  /\ TradingBot._config (TradingBot.fetch_price a w).1
     = TradingBot._config (TradingBot.fetch_price b w).1.
Proof.
  intros Hp Hc. unfold TradingBot.fetch_price. rewrite Hc.
  destruct (TradingBot.get_symbol_price w _); simpl; by rewrite ?Hp.
Qed.

Lemma fetch_all_similar (a b : TradingBot.t T) ws :
  TradingBot._prices a = TradingBot._prices b ->
  TradingBot._config a = TradingBot._config b ->
  TradingBot._prices (TradingBot.fetch_all a ws)
  = TradingBot._prices (TradingBot.fetch_all b ws).
Proof.
  revert a b. induction ws as [|w ws IH]; intros a b Hp Hc; simpl; [exact Hp|].
  apply IH; by apply fetch_price_similar.
Qed.

(** The history after the loop is the history after the fetches of the
    passes it made. *)
Lemma loop_prices (self : TradingBot.t T) subscribed ws :
  TradingBot._prices (TradingBot.loop float_str self subscribed ws).1.1
  = TradingBot._prices
      (TradingBot.fetch_all self
         (take (TradingBot.passes (TradingBot.loop float_str self subscribed ws).1.2) ws)).
Proof.
  revert self. induction ws as [|w ws IH]; intros self; simpl.
  - by destruct (negb _).
  - destruct (negb _); [done|].
    pose proof (iteration_prices self subscribed w) as Hp.
    pose proof (iteration_config self subscribed w) as Hc.
    pose proof (iteration_passes float_str self subscribed w) as Hone.
    destruct (TradingBot.iteration float_str self subscribed w) as [[self' tr] [|e]];
      simpl in *.
    + pose proof (IH (TradingBot.observe_calls w self')) as Hloop.
      destruct (TradingBot.loop float_str _ subscribed ws) as [[self'' tr'] e'].
      simpl in *. rewrite passes_app, Hone. simpl. rewrite Hloop.
      destruct (observe_calls_prices self' w) as [Hp' Hc'].
      apply fetch_all_similar.
      * by rewrite Hp'.
      * rewrite Hc', Hc. by rewrite fetch_price_config.
    + rewrite Hone. simpl. rewrite ?take_0. simpl.
      destruct (observe_calls_prices self' w) as [-> _]. exact Hp.
Qed.

Lemma iteration_sides (self : TradingBot.t T) subscribed w :
  TradingBot.sides_ok (TradingBot._trades self) ->
  TradingBot.sides_ok (TradingBot._trades (TradingBot.iteration float_str self subscribed w).1.1).
Proof.
  intros Hok. unfold TradingBot.iteration, TradingBot.fetch_price, TradingBot.execute_trade.
  repeat case_match; simplify_eq;
    rewrite ?prepend_state, ?emit_then_sleep_state; simpl; try exact Hok.
  apply Forall_app. split; [exact Hok|]. apply Forall_singleton. simpl.
  by match goal with Hd : bool_decide _ = true |- _ => apply bool_decide_eq_true_1 in Hd end.
Qed.

Lemma loop_sides (self : TradingBot.t T) subscribed ws :
  TradingBot.sides_ok (TradingBot._trades self) ->
  TradingBot.sides_ok (TradingBot._trades (TradingBot.loop float_str self subscribed ws).1.1).
Proof.
  revert self. induction ws as [|w ws IH]; intros self Hok; simpl.
  - by destruct (negb _).
  - destruct (negb _); [done|].
    pose proof (iteration_sides self subscribed w Hok) as Hpass.
    destruct (TradingBot.iteration float_str self subscribed w) as [[self' tr] [|e]];
      simpl in *.
    + specialize (IH (TradingBot.observe_calls w self')).
      rewrite observe_calls_trades in IH. specialize (IH Hpass).
      by destruct (TradingBot.loop float_str _ subscribed ws) as [[self'' tr'] e'].
    + by rewrite observe_calls_trades.
Qed.

(** Worlds after a pass in which [stop()] was the last call on the flag
    are not used. *)
Lemma loop_stop_cuts (self : TradingBot.t T) subscribed ws1 w ws2 :
  TradingBot.stop_last w = true ->
  TradingBot.loop float_str self subscribed (ws1 ++ w :: ws2)
  = TradingBot.loop float_str self subscribed (ws1 ++ [w]).
Proof.
  intros Hstop. revert self. induction ws1 as [|w1 ws1 IH]; intros self; simpl.
  - destruct (negb _); [reflexivity|].
    destruct (TradingBot.iteration float_str self subscribed w) as [[self' tr] [|e]];
      [|reflexivity].
    pose proof (observe_calls_stop_last self' w Hstop) as Hflag.
    destruct ws2; simpl; rewrite Hflag; reflexivity.
  - destruct (negb _); [reflexivity|].
    destruct (TradingBot.iteration float_str self subscribed w1) as [[self' tr] [|e]];
      [|reflexivity].
    by rewrite IH.
Qed.
End MoreLoopFacts.

(** X15.  The loop records purchases and sales only: if every trade in the
    history has side BUY or SELL before [run], the same holds after it,
    however the run ends. *)
Theorem run_records_buy_or_sell_only
    {T : Type} `{StrategyLike T} (float_str : Q -> string)
    (self : TradingBot.t T) (subscribed : bool) (ws : list TradingBot.World) :
  TradingBot.sides_ok (TradingBot.trades self) ->
  TradingBot.sides_ok (TradingBot.trades (TradingBot.run float_str self subscribed ws).1.1).
Proof.
  intros Hok. unfold TradingBot.run, TradingBot.trades in *.
  destruct (TradingBot._running self); [exact Hok|].
  pose proof (loop_sides float_str (TradingBot.set_running true self) subscribed ws Hok)
    as Hloop.
  destruct (TradingBot.loop float_str _ subscribed ws) as [[self' tr] [|e|]];
    simpl in *; exact Hloop.
Qed.

Lemma run_records_buy_or_sell_only_witness :
  TradingBot.sides_ok
    (TradingBot.trades
       (TradingBot.run Sample.float_str Sample.bot true
          [Sample.world (Ok 4%Q) (Ok Sample.filled_order) false;
           Sample.world (Ok 1%Q) (Ok Sample.filled_order) true]).1.1).
Proof. apply run_records_buy_or_sell_only. apply Forall_nil_2. Defined.

(** X16.  Stopping is cooperative: once [stop()] has been called during a
    pass, and no [run()] was called after it before the loop tests the
    flag, [run] makes no further pass, so what the exchange would have
    answered afterwards has no effect on the result. *)
Theorem run_stop_cuts
    {T : Type} `{StrategyLike T} (float_str : Q -> string)
    (self : TradingBot.t T) (subscribed : bool)
    (ws1 : list TradingBot.World) (w : TradingBot.World) (ws2 : list TradingBot.World) :
  TradingBot.stop_last w = true ->
  TradingBot.run float_str self subscribed (ws1 ++ w :: ws2)
  = TradingBot.run float_str self subscribed (ws1 ++ [w])
  /\ (TradingBot.passes (TradingBot.run float_str self subscribed (ws1 ++ w :: ws2)).1.2
      <= length ws1 + 1)%nat
  /\ (TradingBot.run float_str self subscribed (ws1 ++ w :: ws2)).2 <> TradingBot.Waiting.
Proof.
  intros Hstop.
  assert (Hcut : TradingBot.run float_str self subscribed (ws1 ++ w :: ws2)
                 = TradingBot.run float_str self subscribed (ws1 ++ [w])).
  { unfold TradingBot.run.
    by rewrite (loop_stop_cuts float_str _ subscribed ws1 w ws2 Hstop). }
  split; [exact Hcut|]. rewrite Hcut. unfold TradingBot.run.
  destruct (TradingBot._running self);
    [split; [unfold TradingBot.passes; simpl; lia | discriminate]|].
  pose proof (loop_passes float_str (TradingBot.set_running true self) subscribed
                (ws1 ++ [w])) as [Hle _].
  assert (Hex : Exists (fun w => TradingBot.stop_last w = true) (ws1 ++ [w])).
  { apply Exists_app. right. by apply Exists_cons_hd. }
  pose proof (loop_stops float_str (TradingBot.set_running true self) subscribed
                (ws1 ++ [w]) Hex) as Hends.
  rewrite length_app in Hle. simpl in Hle.
  destruct (TradingBot.loop float_str _ subscribed (ws1 ++ [w])) as [[self' tr] [|e|]];
    simpl in *; split; try exact Hle; try discriminate; done.
Qed.

Lemma run_stop_cuts_witness :
  TradingBot.run Sample.float_str Sample.bot true
    ([Sample.world (Ok 1%Q) (Ok ∅) false] ++ Sample.world (Ok 1%Q) (Ok ∅) true
       :: [Sample.world (Ok 4%Q) (Ok Sample.filled_order) false])
  = TradingBot.run Sample.float_str Sample.bot true
      ([Sample.world (Ok 1%Q) (Ok ∅) false] ++ [Sample.world (Ok 1%Q) (Ok ∅) true]).
Proof. apply run_stop_cuts. reflexivity. Defined.

(** X17.  Through a whole [run] the price history stays within its
    capacity: for a bot built by [__init__], as long as no other loop is
    started on it meanwhile, the history after a [run] that made [k] passes
    (one per world met, [k] of them) holds the most recent prices delivered
    in those [k] passes, at most [max(max_history, long_window + 5)] of
    them; and [k] is the number of worlds when [run] is still in its
    loop. *)
Theorem run_price_history
    {T : Type} `{StrategyLike T} (float_str : Q -> string)
    (strategy : T) (config : BotConfig.t) (self : TradingBot.t T)
    (subscribed : bool) (ws : list TradingBot.World) :
  TradingBot.init strategy config = Ok self ->
  Forall (fun w => TradingBot.single_loop w = true) ws ->
  let capacity :=
    Z.to_nat (Z.max (BotConfig.max_history config) (BotConfig.long_window config + 5)) in
  let result := TradingBot.run float_str self subscribed ws in
  let history := TradingBot.prices result.1.1 in
  let k := TradingBot.passes result.1.2 in
  (k <= length ws)%nat
  /\ (result.2 = TradingBot.Waiting -> k = length ws)
  /\ history = last_n capacity (TradingBot.delivered (BotConfig.symbol config) (take k ws))
  /\ (length history <= capacity)%nat.
Proof.
  intros Hinit _ capacity result history k.
  assert (Hshape : TradingBot._prices self = Deque capacity []
                   /\ TradingBot._config self = config
                   /\ TradingBot._running self = false).
  { unfold TradingBot.init, TradingBot.capacity in Hinit.
    destruct (_ || _); [discriminate|].
    destruct (_ <? 0); [discriminate|]. by injection Hinit as <-. }
  destruct Hshape as (Hprices & Hconfig & Hrun).
  pose proof (loop_passes float_str (TradingBot.set_running true self) subscribed ws)
    as [Hle Hwait].
  pose proof (loop_prices float_str (TradingBot.set_running true self) subscribed ws)
    as Hloop.
  rewrite (fetch_all_prices (TradingBot.set_running true self) capacity) in Hloop
    by exact Hprices.
  simpl in Hloop. rewrite Hconfig in Hloop.
  assert (Hk : (k <= length ws)%nat
               /\ (result.2 = TradingBot.Waiting -> k = length ws)
               /\ history = last_n capacity
                              (TradingBot.delivered (BotConfig.symbol config) (take k ws))).
  { subst history k result. unfold TradingBot.run, TradingBot.prices. rewrite Hrun.
    destruct (TradingBot.loop float_str _ subscribed ws) as [[self' tr] [|e|]];
      simpl in *; (split; [exact Hle|]);
      (split; [first [discriminate | intros _; by apply Hwait]|]);
      by rewrite Hloop. }
  destruct Hk as (Hk1 & Hk2 & Hk3).
  split; [exact Hk1|]. split; [exact Hk2|]. split; [exact Hk3|].
  rewrite Hk3. unfold last_n. rewrite length_drop. lia.
Qed.

Lemma run_price_history_witness :
  TradingBot.prices
    (TradingBot.run Sample.float_str
       (TradingBot.mk (Strategy 2 3)
          (BotConfig.mk "binance" None None "BTCUSDT" "USDT" "BTC" (1 # 1000) 5
             2 3 1 true)
          false (Deque 8 []) [])
       false
       (map (fun p => Sample.world p (Ok ∅) false)
            [Ok 1; Raise (TradingBotError "down"); Ok 3]%Q)).1.1
  = [1; 3]%Q.
Proof.
  etransitivity.
  - apply (run_price_history Sample.float_str (Strategy 2 3)
             (BotConfig.mk "binance" None None "BTCUSDT" "USDT" "BTC" (1 # 1000) 5 2 3 1 true)
             _ false
             (map (fun p => Sample.world p (Ok ∅) false)
                  [Ok 1; Raise (TradingBotError "down"); Ok 3]%Q)).
    + reflexivity.
    + repeat (apply Forall_cons; split; [reflexivity|]). apply Forall_nil_2.
  - reflexivity.
Defined.

(** X18.  Only the operational error is contained by the loop: when the
    price fetch raises any other exception, [run] ends at once with that
    exception, publishes no update for the pass, leaves the histories as
    they were and the running flag false. *)
Theorem run_ends_on_other_exception
    {T : Type} `{StrategyLike T} (float_str : Q -> string)
    (self : TradingBot.t T) (subscribed : bool)
    (w : TradingBot.World) (ws : list TradingBot.World) (e : exn) :
  TradingBot.is_running self = false ->
  TradingBot.get_symbol_price w (BotConfig.symbol (TradingBot._config self)) = Raise e ->
  is_TradingBotError e = false ->
  TradingBot.run float_str self subscribed (w :: ws)
  = (self, [TradingBot.EvFetch (BotConfig.symbol (TradingBot._config self))],
     TradingBot.Raised e).
Proof.
  intros Hrun Hfetch Hkind. unfold TradingBot.is_running in Hrun.
  unfold TradingBot.run. rewrite Hrun. simpl.
  unfold TradingBot.iteration, TradingBot.fetch_price. simpl.
  rewrite Hfetch, Hkind. simpl.
  rewrite observe_calls_flag.
  destruct self as [s c r p t]. simpl in *. by subst r.
Qed.

Lemma run_ends_on_other_exception_witness :
  TradingBot.run Sample.float_str Sample.bot true
    [Sample.world (Raise (OtherException "connection reset")) (Ok ∅) false;
     Sample.world (Ok 4%Q) (Ok Sample.filled_order) false]
  = (Sample.bot, [TradingBot.EvFetch "BTCUSDT"],
     TradingBot.Raised (OtherException "connection reset")).
Proof.
  apply (run_ends_on_other_exception Sample.float_str Sample.bot true
           (Sample.world (Raise (OtherException "connection reset")) (Ok ∅) false));
    reflexivity.
Defined.

(** [evaluate] on the deque: HOLD while it is short, [TypeError] after. *)
Lemma evaluate_deque_cases (self : MovingAverageStrategy) (prices : deque) :
  evaluate self prices = Ok HOLD
  \/ evaluate self prices = Raise (TypeError "sequence index must be integer, not 'slice'").
Proof.
  unfold evaluate. simpl.
  destruct (_ <? _); [by left | by right].
Qed.

Lemma repo_iteration_never_orders float_str
    (self : TradingBot.t MovingAverageStrategy) subscribed w :
  let r := TradingBot.iteration float_str self subscribed w in
  forallb (fun e => negb (TradingBot.is_order e)) r.1.2 = true
  /\ TradingBot._trades r.1.1 = TradingBot._trades self.
Proof.
  assert (Hquiet : forall tr, TradingBot.quiet tr ->
            forallb (fun e => negb (TradingBot.is_order e)) tr = true).
  { unfold TradingBot.quiet. induction tr as [|e tr IH]; simpl; [done|].
    rewrite !andb_true_iff, !negb_true_iff, orb_false_iff. intros [[_ ->] Htr]. auto. }
  unfold TradingBot.iteration, TradingBot.fetch_price.
  destruct (TradingBot.get_symbol_price w _) as [price|e]; simpl.
  - unfold strategy_evaluate, MovingAverageStrategy_StrategyLike.
    destruct (evaluate_deque_cases (TradingBot._strategy self)
                (deque_append (TradingBot._prices self) price)) as [-> | ->]; simpl.
    + rewrite prepend_state, prepend_trace, emit_then_sleep_state. simpl.
      split; [|reflexivity]. apply Hquiet, emit_then_sleep_trace.
    + split; reflexivity.
  - destruct (is_TradingBotError e); simpl; [|split; reflexivity].
    rewrite prepend_state, prepend_trace, emit_then_sleep_state. simpl.
    split; [|reflexivity]. apply Hquiet, emit_then_sleep_trace.
Qed.

Lemma repo_loop_never_orders float_str
    (self : TradingBot.t MovingAverageStrategy) subscribed ws :
  let r := TradingBot.loop float_str self subscribed ws in
  forallb (fun e => negb (TradingBot.is_order e)) r.1.2 = true
  /\ TradingBot._trades r.1.1 = TradingBot._trades self.
Proof.
  revert self. induction ws as [|w ws IH]; intros self; simpl.
  - by destruct (negb _).
  - destruct (negb _); [done|].
    destruct (repo_iteration_never_orders float_str self subscribed w) as [Htr Htrades].
    destruct (TradingBot.iteration float_str self subscribed w) as [[self' tr] [|e]];
      simpl in *.
    + destruct (IH (TradingBot.observe_calls w self')) as [Htr' Htrades'].
      destruct (TradingBot.loop float_str _ subscribed ws) as [[self'' tr'] e'].
      simpl in *. rewrite forallb_app, Htr, Htr'. split; [reflexivity|].
      by rewrite Htrades', observe_calls_trades.
    + split; [exact Htr|]. by rewrite observe_calls_trades.
Qed.

(** X19.  With the strategy of the repository, whose [evaluate] is handed
    the deque itself, [run] never sends an order and never records a
    trade; and the pass whose fetch brings the history to
    [long_window + 1] samples ends the run with the [TypeError] of the
    slice subscript, the price appended and the running flag false. *)
Theorem repo_run_never_orders
    (float_str : Q -> string) (self : TradingBot.t MovingAverageStrategy)
    (subscribed : bool) :
  (forall ws,
     let r := TradingBot.run float_str self subscribed ws in
     forallb (fun e => negb (TradingBot.is_order e)) r.1.2 = true
     /\ TradingBot.trades r.1.1 = TradingBot.trades self)
  /\ (forall w ws price,
        TradingBot.is_running self = false ->
        TradingBot.get_symbol_price w (BotConfig.symbol (TradingBot._config self))
        = Ok price ->
        long_window (TradingBot._strategy self) + 1
        <= Z.of_nat (length (dq_items (deque_append (TradingBot._prices self) price))) ->
        let r := TradingBot.run float_str self subscribed (w :: ws) in
        r.2 = TradingBot.Raised (TypeError "sequence index must be integer, not 'slice'")
        /\ TradingBot.prices r.1.1
           = dq_items (deque_append (TradingBot._prices self) price)
        /\ TradingBot.is_running r.1.1 = false).
Proof.
  split.
  - intros ws r. subst r. unfold TradingBot.run, TradingBot.trades.
    destruct (TradingBot._running self); [done|].
    destruct (repo_loop_never_orders float_str (TradingBot.set_running true self)
                subscribed ws) as [Htr Htrades].
    destruct (TradingBot.loop float_str _ subscribed ws) as [[self' tr] [|e|]];
      simpl in *; done.
  - intros w ws price Hrun Hfetch Hlen r. subst r.
    unfold TradingBot.is_running in *. unfold TradingBot.run. rewrite Hrun. simpl.
    unfold TradingBot.iteration, TradingBot.fetch_price. simpl. rewrite Hfetch. simpl.
    unfold strategy_evaluate, MovingAverageStrategy_StrategyLike.
    rewrite (evaluate_on_deque_raises _ _ Hlen). simpl.
    unfold TradingBot.prices. simpl.
    by rewrite (proj1 (observe_calls_prices _ w)).
Qed.

Lemma repo_run_never_orders_witness :
  let r :=
    TradingBot.run Sample.float_str Sample.repo_bot true
      [Sample.world (Ok 2%Q) (Ok Sample.filled_order) false] in
  r.2 = TradingBot.Raised (TypeError "sequence index must be integer, not 'slice'")
  /\ TradingBot.prices r.1.1 = replicate 20 1%Q ++ [2%Q]
  /\ TradingBot.is_running r.1.1 = false.
Proof.
  apply (proj2 (repo_run_never_orders Sample.float_str Sample.repo_bot true)
           (Sample.world (Ok 2%Q) (Ok Sample.filled_order) false) [] 2%Q);
    [reflexivity | reflexivity | simpl; lia].
Defined.

(** ** nicegui_app.py: construction, wiring and the update handler *)

Lemma new_strategy_valid (sw lw : Z) :
  0 < sw < lw -> new_strategy sw lw = Ok (Strategy sw lw).
Proof.
  intros [Hsw Hlt]. unfold new_strategy, post_init. simpl.
  destruct (Z.leb_spec sw 0); [lia|].
  destruct (Z.leb_spec lw 0); [lia|]. simpl.
  destruct (Z.leb_spec lw sw); [lia|]. reflexivity.
Qed.

Lemma new_strategy_invalid (sw lw : Z) :
  ~ (0 < sw < lw) -> exists msg, new_strategy sw lw = Raise (ValueError msg).
Proof.
  intros Hbad. unfold new_strategy, post_init. simpl.
  destruct (Z.leb_spec sw 0), (Z.leb_spec lw 0); simpl; eauto.
  destruct (Z.leb_spec lw sw); simpl; eauto. lia.
Qed.

(** X20.  What [create_app] builds from a configuration: with windows
    [0 < short < long], the exchange package present and a history
    capacity [max(max_history, long_window + 5)] that fits a C [ssize_t],
    it succeeds, the client is set to the testnet exactly when [test_mode]
    is on, and the bot starts stopped with empty histories and room for
    exactly that capacity, at least [long_window + 5] prices; with the same
    and a capacity beyond [2^63 - 1] it fails with [OverflowError]; with
    other windows it fails with [ValueError] whether or not the package is
    present; with valid windows and no package it fails with
    [TradingBotError]. *)
Theorem construct_cases
    (py_float : string -> option Q) (py_int : string -> option Z)
    (installed : bool) (env : gmap string string) (cfg : BotConfig.t) :
  let sw := BotConfig.short_window cfg in
  let lw := BotConfig.long_window cfg in
  let built := App.construct py_float py_int installed env (Some cfg) in
  (0 < sw < lw -> installed = true -> TradingBot.capacity cfg <= ssize_t_max ->
   exists client bot,
     built = Ok (cfg, client, bot)
     /\ BinanceClient._testnet client = BotConfig.test_mode cfg
     /\ BinanceClient.api_key (BinanceClient._client client) = BotConfig.api_key cfg
     /\ BinanceClient.api_secret (BinanceClient._client client) = BotConfig.api_secret cfg
     /\ TradingBot._strategy bot = Strategy sw lw
     /\ TradingBot.is_running bot = false
     /\ TradingBot.prices bot = [] /\ TradingBot.trades bot = []
     /\ Z.of_nat (dq_maxlen (TradingBot._prices bot))
        = Z.max (BotConfig.max_history cfg) (lw + 5)
     /\ lw + 5 <= Z.of_nat (dq_maxlen (TradingBot._prices bot)))
  /\ (0 < sw < lw -> installed = true -> ssize_t_max < TradingBot.capacity cfg ->
      built = Raise (OverflowError "Python int too large to convert to C ssize_t"))
  /\ (~ (0 < sw < lw) -> exists msg, built = Raise (ValueError msg))
  /\ (0 < sw < lw -> installed = false ->
      built = Raise (TradingBotError BinanceClient.missing_package_msg)).
Proof.
  intros sw lw built. subst built. unfold App.construct.
  unfold mbind, outcome_bind. cbn [obind]. fold sw lw.
  split; [|split; [|split]].
  - intros Hwin -> Hfits.
    rewrite (new_strategy_valid sw lw Hwin). cbn [obind BinanceClient.init negb].
    unfold TradingBot.init. unfold TradingBot.capacity in *. fold sw lw in Hfits |- *.
    destruct (Z.ltb_spec (Z.max (BotConfig.max_history cfg) (lw + 5)) (- ssize_t_max - 1));
      [unfold ssize_t_max in *; lia|].
    destruct (Z.ltb_spec ssize_t_max (Z.max (BotConfig.max_history cfg) (lw + 5))); [lia|].
    cbn [orb].
    destruct (Z.ltb_spec (Z.max (BotConfig.max_history cfg) (lw + 5)) 0); [lia|].
    cbn [obind]. eexists _, _. split; [reflexivity|]. simpl.
    repeat (split; [reflexivity|]). split; lia.
  - intros Hwin -> Hbig.
    rewrite (new_strategy_valid sw lw Hwin). cbn [obind BinanceClient.init negb].
    unfold TradingBot.init. unfold TradingBot.capacity in *. fold sw lw in Hbig |- *.
    destruct (Z.ltb_spec ssize_t_max (Z.max (BotConfig.max_history cfg) (lw + 5))); [|lia].
    rewrite orb_true_r. reflexivity.
  - intros Hwin.
    destruct (new_strategy_invalid sw lw Hwin) as (msg & ->).
    by exists msg.
  - intros Hwin ->.
    rewrite (new_strategy_valid sw lw Hwin). reflexivity.
Qed.

Lemma construct_cases_witness :
  (exists client bot,
     App.construct (fun _ => None) (fun _ => None) true ∅ (Some Sample.config)
     = Ok (Sample.config, client, bot)
     /\ TradingBot.is_running bot = false
     /\ dq_maxlen (TradingBot._prices bot) = 120%nat)
  /\ App.construct (fun _ => None) (fun _ => None) true ∅
       (Some (BotConfig.mk "binance" None None "BTCUSDT" "USDT" "BTC" (1 # 1000) 5
                2 3 (2 ^ 63) true))
     = Raise (OverflowError "Python int too large to convert to C ssize_t").
Proof.
  split.
  - destruct (proj1 (construct_cases (fun _ => None) (fun _ => None) true ∅ Sample.config)
                ltac:(simpl; lia) eq_refl ltac:(vm_compute; discriminate))
      as (client & bot & Hbuilt & _ & _ & _ & _ & Hrun & _ & _ & Hcap & _).
    exists client, bot. split; [exact Hbuilt|]. split; [exact Hrun|].
    apply Nat2Z.inj. rewrite Hcap. reflexivity.
  - apply (proj1 (proj2 (construct_cases (fun _ => None) (fun _ => None) true ∅
             (BotConfig.mk "binance" None None "BTCUSDT" "USDT" "BTC" (1 # 1000) 5
                2 3 (2 ^ 63) true)))).
    + simpl; lia.
    + reflexivity.
    + vm_compute. reflexivity.
Defined.

(** One [chart_push] keeps a list equal to the tail end of all that was
    pushed. *)
Lemma chart_push_window {A} (max_history : Z) (xs : list A) (x : A) :
  App.chart_push max_history (last_n (Z.to_nat max_history) xs) x
  = last_n (Z.to_nat max_history) (xs ++ [x]).
Proof.
  unfold App.chart_push, last_n.
  rewrite !length_app, length_drop. simpl.
  destruct (Z.ltb_spec max_history
              (Z.of_nat (length xs - (length xs - Z.to_nat max_history) + 1)))
    as [Hfull|Hroom].
  - rewrite <- drop_app_le by lia. rewrite tail_drop. f_equal. lia.
  - replace (length xs - Z.to_nat max_history)%nat with 0%nat by lia.
    replace (length xs + 1 - Z.to_nat max_history)%nat with 0%nat by lia.
    by rewrite !drop_0.
Qed.

Lemma handle_update_chart round2 fmt2 float_str hms cfg v now running u :
  let v' := App.handle_update round2 fmt2 float_str hms cfg v now running u in
  App.prices v'
  = match BotUpdate.price u with
    | Some price => App.chart_push (BotConfig.max_history cfg) (App.prices v) (round2 price)
    | None => App.prices v
    end
  /\ App.timestamps v'
     = match BotUpdate.price u with
       | Some _ => App.chart_push (BotConfig.max_history cfg) (App.timestamps v) now
       | None => App.timestamps v
       end.
Proof. unfold App.handle_update. destruct (BotUpdate.price u); split; reflexivity. Qed.

Lemma charted_same_length round2 (us : list (string * bool * BotUpdate.t)) :
  length (App.charted_labels us) = length (App.charted_prices round2 us).
Proof.
  unfold App.charted_labels, App.charted_prices.
  induction us as [|u us IH]; simpl; [reflexivity|].
  destruct (BotUpdate.price u.2); simpl; [f_equal|]; exact IH.
Qed.

(** X21.  The two lists behind the chart stay parallel and bounded: after
    any sequence of updates handled from the initial page, they hold the
    clock labels and the rounded prices of the most recent updates that
    carried a price, at most [max_history] of them (none when
    [max_history] is not positive), in order; updates without a price leave
    them alone. *)
Theorem chart_sequences
    (round2 : Q -> Q) (fmt2 float_str : Q -> string) (hms : Z -> string)
    (cfg : BotConfig.t) (us : list (string * bool * BotUpdate.t)) :
  let v := App.handle_all round2 fmt2 float_str hms cfg App.initial_view us in
  let cap := Z.to_nat (BotConfig.max_history cfg) in
  App.prices v = last_n cap (App.charted_prices round2 us)
  /\ App.timestamps v = last_n cap (App.charted_labels us)
  /\ length (App.timestamps v) = length (App.prices v)
  /\ (length (App.prices v) <= cap)%nat.
Proof.
  intros v cap.
  assert (Hboth : App.prices v = last_n cap (App.charted_prices round2 us)
                  /\ App.timestamps v = last_n cap (App.charted_labels us)).
  { subst v. induction us as [|u us IH] using rev_ind; [split; reflexivity|].
    unfold App.handle_all, App.charted_prices, App.charted_labels in *.
    rewrite foldl_snoc, !omap_app. simpl.
    destruct IH as [IHp IHt].
    destruct (handle_update_chart round2 fmt2 float_str hms cfg
                (foldl (fun v u => App.handle_update round2 fmt2 float_str hms cfg v
                                     u.1.1 u.1.2 u.2) App.initial_view us)
                u.1.1 u.1.2 u.2) as [-> ->].
    rewrite IHp, IHt.
    destruct (BotUpdate.price u.2) as [price|]; simpl.
    - split; apply chart_push_window.
    - rewrite !app_nil_r. by split. }
  destruct Hboth as [Hp Ht].
  pose proof (charted_same_length round2 us) as Hlen.
  split; [exact Hp|]. split; [exact Ht|].
  rewrite Hp, Ht. unfold last_n. rewrite !length_drop, Hlen. split; lia.
Qed.

(** X22.  With the wrapper as the bot's client and a credential missing,
    every pass in which the strategy says BUY or SELL ends with the
    credentials message in the error field of its update: the price stays
    in the history, no trade is recorded, and the pass does not fail. *)
Theorem missing_credentials_pass
    {T : Type} `{StrategyLike T}
    (float_str : Q -> string) (float_of : pyval -> outcome Q)
    (dict_str : gmap string pyval -> string)
    (self : TradingBot.t T) (subscribed : bool)
    (client : BinanceClient.t) (m : BinanceClient.Market) (ex : BinanceClient.Exchange)
    (now : Z) (callback : BotUpdate.t -> outcome unit) (sleep : Q -> outcome unit)
    (stop : bool) (price : Q) (signal : TradeSignal) :
  truthy (BinanceClient.api_key (BinanceClient._client client)) = false
  \/ truthy (BinanceClient.api_secret (BinanceClient._client client)) = false ->
  BinanceClient.get_symbol_price float_of dict_str client m
    (BotConfig.symbol (TradingBot._config self)) = Ok price ->
  strategy_evaluate (TradingBot._strategy self)
    (deque_append (TradingBot._prices self) price) = Ok signal ->
  signal = BUY \/ signal = SELL ->
  let w := App.connect float_str float_of dict_str client m ex now callback sleep stop in
  let result := TradingBot.iteration float_str self subscribed w in
  let update :=
    BotUpdate.mk (Some price) signal None (Some BinanceClient.credentials_msg) in
  TradingBot._prices result.1.1 = deque_append (TradingBot._prices self) price
  /\ TradingBot.trades result.1.1 = TradingBot.trades self
  /\ TradingBot.emitted result.1.2 = (if subscribed then [update] else [])
  /\ (callback update = Ok tt ->
      sleep (BotConfig.poll_interval (TradingBot._config self)) = Ok tt ->
      result.2 = TradingBot.Completed).
Proof.
  intros Hcred Hfetch Heval Hsig w result update. subst result.
  assert (Horder : TradingBot.place_market_order w
                     (BotConfig.symbol (TradingBot._config self)) (signal_value signal)
                     (BotConfig.trade_quantity (TradingBot._config self))
                     (BotConfig.test_mode (TradingBot._config self))
                   = Raise (TradingBotError BinanceClient.credentials_msg)).
  { subst w. simpl. unfold BinanceClient.place_market_order.
    destruct Hcred as [-> | ->]; [reflexivity | by rewrite orb_true_r]. }
  rewrite (iteration_order_failed float_str self subscribed w price signal
             BinanceClient.credentials_msg Hfetch Heval Hsig Horder).
  rewrite prepend_state, prepend_trace, prepend_end, emit_then_sleep_state.
  destruct (emit_then_sleep_trace (TradingBot.appended self price) subscribed w update)
    as [Hem _].
  destruct (emit_then_sleep_end (TradingBot.appended self price) subscribed w update)
    as [Hdone _].
  split; [reflexivity|]. split; [reflexivity|]. split; [exact Hem | exact Hdone].
Qed.

Lemma missing_credentials_pass_witness :
  TradingBot.emitted
    (TradingBot.iteration Sample.float_str Sample.bot true
       (App.connect Sample.float_str (fun _ => Ok 4%Q) (fun _ => "{}")
          (Sample.client None (Some "secret"))
          (BinanceClient.mkMarket (fun _ => Ok {[ "price" := PStr "4.0" ]})
             (Raise (OtherException "unused")))
          Sample.exchange 1700000000 (fun _ => Ok tt) (fun _ => Ok tt) false)).1.2
  = [BotUpdate.mk (Some 4%Q) BUY None (Some BinanceClient.credentials_msg)].
Proof.
  apply (missing_credentials_pass Sample.float_str (fun _ => Ok 4%Q) (fun _ => "{}")
           Sample.bot true (Sample.client None (Some "secret"))
           (BinanceClient.mkMarket (fun _ => Ok {[ "price" := PStr "4.0" ]})
              (Raise (OtherException "unused")))
           Sample.exchange 1700000000 (fun _ => Ok tt) (fun _ => Ok tt) false 4%Q BUY);
    [left; reflexivity | reflexivity | reflexivity | left; reflexivity].
Defined.

(** X23.  With the wrapper as the bot's client, both credentials set and
    the configuration in test mode, a pass in which the strategy says BUY
    or SELL and the validation request is accepted records one trade with
    status TEST, no order identifier, the signal as side and the sampled
    price. *)
Theorem test_mode_pass
    {T : Type} `{StrategyLike T}
    (float_str : Q -> string) (float_of : pyval -> outcome Q)
    (dict_str : gmap string pyval -> string)
    (self : TradingBot.t T) (subscribed : bool)
    (client : BinanceClient.t) (m : BinanceClient.Market) (ex : BinanceClient.Exchange)
    (now : Z) (callback : BotUpdate.t -> outcome unit) (sleep : Q -> outcome unit)
    (stop : bool) (price : Q) (signal : TradeSignal) :
  let config := TradingBot._config self in
  truthy (BinanceClient.api_key (BinanceClient._client client)) = true ->
  truthy (BinanceClient.api_secret (BinanceClient._client client)) = true ->
  BotConfig.test_mode config = true ->
  BinanceClient.new_order_test ex
    (BinanceClient.order_params float_str (BotConfig.symbol config) (signal_value signal)
       (BotConfig.trade_quantity config) None) = Ok tt ->
  BinanceClient.get_symbol_price float_of dict_str client m (BotConfig.symbol config)
  = Ok price ->
  strategy_evaluate (TradingBot._strategy self)
    (deque_append (TradingBot._prices self) price) = Ok signal ->
  signal = BUY \/ signal = SELL ->
  let w := App.connect float_str float_of dict_str client m ex now callback sleep stop in
  let result := TradingBot.iteration float_str self subscribed w in
  exists trade,
    TradingBot.trades result.1.1 = TradingBot.trades self ++ [trade]
    /\ Trade.status trade = "TEST"
    /\ Trade.order_id trade = None
    /\ Trade.side trade = signal
    /\ Trade.price trade = price
    /\ Trade.timestamp trade = now.
Proof.
  intros config Hkey Hsecret Htest Haccept Hfetch Heval Hsig w result. subst result.
  set (params := BinanceClient.order_params float_str (BotConfig.symbol config)
                   (signal_value signal) (BotConfig.trade_quantity config) None) in *.
  assert (Horder : TradingBot.place_market_order w (BotConfig.symbol config)
                     (signal_value signal) (BotConfig.trade_quantity config)
                     (BotConfig.test_mode config)
                   = Ok (BinanceClient.test_result (BotConfig.symbol config)
                           (signal_value signal) params (BinanceClient.time_ms ex))).
  { subst w. cbn [TradingBot.place_market_order App.connect].
    unfold BinanceClient.place_market_order.
    rewrite Hkey, Hsecret, Htest. cbn [negb orb snd]. fold config params.
    rewrite Haccept. reflexivity. }
  rewrite (iteration_order_placed float_str self subscribed w price signal _
             Hfetch Heval Hsig Horder).
  rewrite prepend_state, emit_then_sleep_state.
  eexists. split; [reflexivity|]. repeat split.
Qed.

Lemma test_mode_pass_witness :
  exists trade,
    TradingBot.trades
      (TradingBot.iteration Sample.float_str Sample.bot true
         (App.connect Sample.float_str (fun _ => Ok 4%Q) (fun _ => "{}")
            (Sample.client (Some "key") (Some "secret"))
            (BinanceClient.mkMarket (fun _ => Ok {[ "price" := PStr "4.0" ]})
               (Raise (OtherException "unused")))
            Sample.exchange 1700000000 (fun _ => Ok tt) (fun _ => Ok tt) false)).1.1
    = [trade]
    /\ Trade.status trade = "TEST" /\ Trade.order_id trade = None.
Proof.
  destruct (test_mode_pass Sample.float_str (fun _ => Ok 4%Q) (fun _ => "{}")
              Sample.bot true (Sample.client (Some "key") (Some "secret"))
              (BinanceClient.mkMarket (fun _ => Ok {[ "price" := PStr "4.0" ]})
                 (Raise (OtherException "unused")))
              Sample.exchange 1700000000 (fun _ => Ok tt) (fun _ => Ok tt) false 4%Q BUY)
    as (trade & Htrades & Hstatus & Hid & _);
    [reflexivity | reflexivity | reflexivity | reflexivity | reflexivity | reflexivity
    | left; reflexivity |].
  exists trade. split; [exact Htrades|]. split; [exact Hstatus | exact Hid].
Defined.

(** X24.  [fetch_price] keeps any history within its capacity and puts the
    price it returns last: on success the returned price is the newest
    sample of the history (when the capacity is positive) and the history
    is no longer than the capacity if it was not before; on failure the bot
    is unchanged. *)
Theorem fetch_price_appends_last
    {T : Type} `{StrategyLike T} (self : TradingBot.t T) (w : TradingBot.World) :
  let after := (TradingBot.fetch_price self w).1 in
  let capacity := dq_maxlen (TradingBot._prices self) in
  (forall price,
     (TradingBot.fetch_price self w).2 = Ok price ->
     (0 < capacity)%nat ->
     last (TradingBot.prices after) = Some price)
  /\ ((length (TradingBot.prices self) <= capacity)%nat ->
      (length (TradingBot.prices after) <= capacity)%nat
      /\ dq_maxlen (TradingBot._prices after) = capacity)
  /\ (forall e, (TradingBot.fetch_price self w).2 = Raise e -> after = self).
Proof.
  intros after capacity. subst after capacity.
  unfold TradingBot.fetch_price, TradingBot.prices.
  destruct (TradingBot.get_symbol_price w _) as [p|e]; simpl.
  - split; [|split; [|discriminate]].
    + intros price [= <-] Hcap.
      destruct (Nat.ltb_spec (dq_maxlen (TradingBot._prices self))
                  (length (dq_items (TradingBot._prices self) ++ [p]))) as [Hfull|Hroom].
      * rewrite length_app in Hfull. simpl in Hfull.
        destruct (dq_items (TradingBot._prices self)) as [|x l] eqn:Hitems;
          simpl in *; [lia|].
        apply last_snoc.
      * apply last_snoc.
    + intros Hlen. split; [|reflexivity].
      destruct (Nat.ltb_spec (dq_maxlen (TradingBot._prices self))
                  (length (dq_items (TradingBot._prices self) ++ [p]))) as [Hfull|Hroom].
      * destruct (dq_items (TradingBot._prices self)) as [|x l]; simpl in *; [lia|].
        rewrite length_app in *. simpl in *. lia.
      * exact Hroom.
  - split; [discriminate|]. split; [done | reflexivity].
Qed.

Lemma fetch_price_appends_last_witness :
  last (TradingBot.prices
          (TradingBot.fetch_price Sample.bot (Sample.world (Ok 7%Q) (Ok ∅) false)).1)
  = Some 7%Q.
Proof.
  apply (proj1 (fetch_price_appends_last Sample.bot (Sample.world (Ok 7%Q) (Ok ∅) false)));
    [reflexivity | simpl; lia].
Defined.

(** X25.  A subscriber that raises stops the bot: when the awaited callback
    raises at every call of a pass, [run] ends with an exception (the
    subscriber's, unless the fetch, the strategy or the order raised one
    before the update), the running flag is false, and no further pass is
    made. *)
Theorem run_ends_when_subscriber_raises
    {T : Type} `{StrategyLike T} (float_str : Q -> string)
    (self : TradingBot.t T) (w : TradingBot.World) (ws : list TradingBot.World)
    (e : exn) :
  TradingBot.is_running self = false ->
  (forall u, TradingBot.callback w u = Raise e) ->
  let result := TradingBot.run float_str self true (w :: ws) in
  (exists e', result.2 = TradingBot.Raised e')
  /\ TradingBot.is_running result.1.1 = false
  /\ result = TradingBot.run float_str self true [w].
Proof.
  intros Hrun Hcb result. subst result.
  unfold TradingBot.is_running in *. unfold TradingBot.run. rewrite Hrun.
  cbn [TradingBot.loop TradingBot._running TradingBot.set_running negb].
  destruct (iteration_trace float_str (TradingBot.set_running true self) true w)
    as [(e' & Hend & _) | (pre & self' & u & _ & _ & Hend & _)].
  - destruct (TradingBot.iteration float_str (TradingBot.set_running true self) true w)
      as [[s tr] ending]. simpl in Hend. subst ending. simpl.
    split; [by eexists|]. split; reflexivity.
  - assert (Hesc : (TradingBot.emit_then_sleep self' true w u).2 = TradingBot.Escaped e).
    { unfold TradingBot.emit_then_sleep, TradingBot._emit_update. by rewrite Hcb. }
    rewrite Hesc in Hend.
    destruct (TradingBot.iteration float_str (TradingBot.set_running true self) true w)
      as [[s tr] ending]. simpl in Hend. subst ending. simpl.
    split; [by eexists|]. split; reflexivity.
Qed.

Lemma run_ends_when_subscriber_raises_witness :
  let result :=
    TradingBot.run Sample.float_str Sample.bot true
      [TradingBot.mkWorld (fun _ => Ok 4%Q) (fun _ _ _ _ => Ok Sample.filled_order)
         1700000000 (fun _ => Raise (OtherException "page closed")) (fun _ => Ok tt) [];
       Sample.world (Ok 1%Q) (Ok ∅) false] in
  (exists e', result.2 = TradingBot.Raised e')
  /\ TradingBot.is_running result.1.1 = false.
Proof.
  intros result.
  destruct (run_ends_when_subscriber_raises Sample.float_str Sample.bot
              (TradingBot.mkWorld (fun _ => Ok 4%Q) (fun _ _ _ _ => Ok Sample.filled_order)
                 1700000000 (fun _ => Raise (OtherException "page closed"))
                 (fun _ => Ok tt) [])
              [Sample.world (Ok 1%Q) (Ok ∅) false] (OtherException "page closed")
              eq_refl (fun _ => eq_refl)) as (Hend & Hflag & _).
  split; [exact Hend | exact Hflag].
Defined.

(** X26.  [refresh_balance] does not query the account when a credential
    is absent or empty, and shows the configuration hint instead; with
    credentials, a [ClientError] of the exchange ends as the text of the
    label, not as an exception, and any exception that does leave the
    handler was raised by the exchange itself (and is not a [ClientError])
    or by [float]. *)
Theorem refresh_balance_cases
    (fmt4 : Q -> string) (float_of : pyval -> outcome Q)
    (cfg : BotConfig.t) (client : BinanceClient.t) (m : BinanceClient.Market) :
  let r := App.refresh_balance fmt4 float_of cfg client m in
  (truthy (BotConfig.api_key cfg) = false \/ truthy (BotConfig.api_secret cfg) = false ->
   r = (false, Ok (App.balance_unconfigured_msg (upper (BotConfig.exchange cfg)))))
  /\ (truthy (BotConfig.api_key cfg) = true -> truthy (BotConfig.api_secret cfg) = true ->
      r.1 = true
      /\ (forall msg, BinanceClient.account m = Raise (ClientError msg) ->
            r.2 = Ok ("Solde indisponible: Impossible de récupérer le solde du compte: "
                        +:+ msg))
      /\ (forall e, r.2 = Raise e ->
            (BinanceClient.account m = Raise e /\ forall msg, e <> ClientError msg)
            \/ exists v, float_of v = Raise e)).
Proof.
  intros r. subst r. unfold App.refresh_balance. split.
  - intros [-> | ->]; [reflexivity | by rewrite orb_true_r].
  - intros -> ->. simpl. split; [reflexivity|]. split.
    + intros msg Hacc. unfold BinanceClient.get_account_balance. rewrite Hacc. reflexivity.
    + intros e. unfold BinanceClient.get_account_balance.
      destruct (BinanceClient.account m) as [acc|e0].
      * generalize (default [] (BinanceClient.balances acc)). intros entries.
        induction entries as [|b entries IH]; simpl; [discriminate|].
        destruct (BinanceClient.equals_str (b !! "asset") (BotConfig.quote_asset cfg)).
        -- destruct (float_of (default (PInt 0) (b !! "free"))) as [x|e1] eqn:Hfloat;
             [discriminate|].
           destruct e1; try discriminate; intros [= <-]; right; eauto.
        -- exact IH.
      * destruct e0; try discriminate; intros [= <-]; left; split; try reflexivity;
          intros msg'; discriminate.
Qed.

Lemma refresh_balance_cases_witness :
  App.refresh_balance (fun _ => "0.0000") (fun _ => Ok 0%Q) BotConfig.default
    (Sample.client None None)
    (BinanceClient.mkMarket (fun _ => Ok ∅) (Raise (ClientError "unauthorized")))
  = (false, Ok (App.balance_unconfigured_msg "BINANCE")).
Proof.
  apply (proj1 (refresh_balance_cases (fun _ => "0.0000") (fun _ => Ok 0%Q)
                  BotConfig.default (Sample.client None None)
                  (BinanceClient.mkMarket (fun _ => Ok ∅)
                     (Raise (ClientError "unauthorized"))))).
  left. reflexivity.
Defined.
